(** * Price scrapers: a shallow embedding of the scraping pipeline

    The repository is a set of stand-alone Python scripts, one per competitor
    site, run one after the other by [main.py]:

    - [1electropunto.py]       static fetch ([requests.get]), one INSERT per item;
    - [2casadelaslamparas.py]  browser fetch with an infinite-scroll loop;
    - [3iluminar.py]           browser fetch, sequential page probing;
    - [4electrolineas.py]      retrying session, pagination links harvested;
    - [5electromisiones.py]    retrying session, one page per base URL;
    - [6listas_en_excel.py]    every table of the database to a sheet;
    - [main.py]                runs every script as a subprocess.

    Conventions of the embedding.

    - A Python [str] is a [string]; a character stands for a code point
      (below 256), so slicing and stripping count characters.
    - A raised exception is a value: fallible calls return [result].
    - A BeautifulSoup element is an object, i.e. the answers of its methods;
      the library that computes them (bs4, Selenium, urllib3, sqlite3) is the
      environment of the scripts and appears as data the models take in.
    - [logging] calls do not change control flow and are left out, except
      where a script's logging is what a statement is about (the scroll
      loop, the orchestrator); a bs4 query evaluated inside a [try] block
      only to render a log message is kept, because it can raise there.
      Rendering an element with [str()] or [prettify()] is taken to be total.
    - Several of the files end with a line of three backquotes, which is
      not Python: the interpreter refuses such a file before it runs any
      of it. The models are of the code above that line, and a statement
      about [main()] is about the function the file defines, not about
      what running the file as it stands gives. *)

From Stdlib Require Import Ascii String ZArith Lia DecimalString DecimalNat.
From stdpp Require Import base option list strings gmap sorting.

#[local] Open Scope string_scope.
#[local] Set Warnings "-register-all".

(** ** Python built-ins the scripts use *)

Module Py.

(** [c.isspace()] for a code point below 256. *)
Definition is_space (c : ascii) : bool :=
  let n := nat_of_ascii c in
  (((9 <=? n) && (n <=? 13)) || ((28 <=? n) && (n <=? 32))
   || (n =? 133) || (n =? 160))%nat.

(** [s.lstrip()] *)
Fixpoint lstrip (s : string) : string :=
  match s with
  | String c s' => if is_space c then lstrip s' else s
  | EmptyString => EmptyString
  end.

(** [s.rstrip()]: a character is dropped when it is blank and nothing but
    blanks follows it. *)
Fixpoint rstrip (s : string) : string :=
  match s with
  | String c s' =>
      match rstrip s' with
      | EmptyString => if is_space c then EmptyString else String c EmptyString
      | r => String c r
      end
  | EmptyString => EmptyString
  end.

(** [s.strip()] *)
Definition strip (s : string) : string := rstrip (lstrip s).

(** [s[:n]] *)
Fixpoint slice_to (n : nat) (s : string) : string :=
  match n, s with
  | S n', String c s' => String c (slice_to n' s')
  | _, _ => EmptyString
  end.

(** [sub in s] *)
Fixpoint contains (sub s : string) : bool :=
  String.prefix sub s ||
  match s with
  | String _ s' => contains sub s'
  | EmptyString => false
  end.

(** [sep.join(parts)] *)
Definition join (sep : string) (parts : list string) : string :=
  String.concat sep parts.

(** [str(n)] for a non-negative [int], as an f-string renders it. *)
Definition str_of_nat (n : nat) : string :=
  NilZero.string_of_uint (Nat.to_uint n).

(** [s.lower()], for code points below 256: the letters A-Z and the
    capital letters of U+00C0..U+00DE, which U+00D7 is not, move up by 32. *)
Definition lower_char (c : ascii) : ascii :=
  let n := nat_of_ascii c in
  if (((65 <=? n) && (n <=? 90))
      || ((192 <=? n) && (n <=? 222) && negb (n =? 215)))%nat
  then ascii_of_nat (n + 32) else c.
Fixpoint lower (s : string) : string :=
  match s with
  | String c s' => String (lower_char c) (lower s')
  | EmptyString => EmptyString
  end.

(** Truth value of a [str]: empty is false. *)
Definition truthy (s : string) : bool :=
  match s with EmptyString => false | _ => true end.

(** Exception classes the handlers of the scripts tell apart. *)
Inductive exn_class :=
  | AttributeError
  | RequestException      (* requests.exceptions.RequestException and subclasses *)
  | SqliteError           (* sqlite3.Error *)
  | TimeoutException      (* selenium; a subclass of WebDriverException *)
  | WebDriverException
  | OtherException.       (* any other subclass of Exception *)

Record exn := Exn { exn_cls : exn_class; str_exn : string }.

(** The outcome of a call that may raise. *)
Inductive result (A : Type) : Type :=
  | Ok (a : A)
  | Raise (e : exn).
Arguments Ok {A} a.
Arguments Raise {A} e.

#[export] Instance result_ret : MRet result := @Ok.
#[export] Instance result_bind : MBind result := fun A B f r =>
  match r with
  | Ok a => f a
  | Raise e => Raise e
  end.
#[export] Instance result_fmap : FMap result := fun A B f r =>
  match r with
  | Ok a => Ok (f a)
  | Raise e => Raise e
  end.

End Py.
Export Py.

(** ** BeautifulSoup elements *)

Module Bs4.

(** An element ([Tag], or the [BeautifulSoup] root) as the scripts see it:
    what its queries answer. A query may raise.

    - [select css]: [tag.select(css)], the matches in document order;
    - [find_all name cls]: [tag.find_all(name, class_=cls)];
    - [find_next_sibling name cls]: [tag.find_next_sibling(name, class_=cls)];
    - [find_string s]: [tag.find(string=s)];
    - [strings]: the text fragments below the element in document order,
      [tag.find_all(string=True, recursive=True)];
    - [attrs]: the attribute dictionary. *)
Inductive Tag : Type := mkTag {
  select : string -> result (list Tag);
  find_all : string -> string -> result (list Tag);
  find_next_sibling : string -> string -> result (option Tag);
  find_string : string -> result (option string);
  strings : result (list string);
  attrs : gmap string string
}.

(** [tag.select_one(css)]: the first match of [select], or [None]. *)
Definition select_one (t : Tag) (css : string) : result (option Tag) :=
  head <$> select t css.

(** [tag.find(name, class_=cls)]: the first match of [find_all], or [None]. *)
Definition find (t : Tag) (name cls : string) : result (option Tag) :=
  head <$> find_all t name cls.

(** [tag.text]: all text fragments, concatenated with nothing between. *)
Definition text (t : Tag) : result string :=
  Py.join "" <$> strings t.

(** A [Tag] is always true ([Tag.__bool__]), also when it has no contents. *)
Definition tag_truthy (t : Tag) : bool := true.

End Bs4.
Export Bs4.

(** ** Loops *)

Module Loop.

(** A Python [while cond: body] over a state: [body] says whether the
    iteration ends normally ([inl]) or with [break] ([inr]). [fuel] bounds
    the number of times the condition is evaluated; [None] means the loop
    was still running when the fuel ran out. *)
Fixpoint while {S : Type} (cond : S -> bool) (body : S -> S + S)
    (fuel : nat) (s : S) : option S :=
  match fuel with
  | O => None
  | Datatypes.S fuel' =>
      if cond s then
        match body s with
        | inl s' => while cond body fuel' s'
        | inr s' => Some s'
        end
      else Some s
  end.

(** [range(a, b)] *)
Definition range (a b : nat) : list nat := seq a (b - a).

End Loop.

(** ** The database: one table of (Fecha, Descripcion, Precio) rows *)

Module Sqlite.

(** A scraped record, the tuple the scripts build. *)
Definition row : Type := string * string * string.

(** The columns of a row. *)
Definition fecha (r : row) : string := r.1.1.
Definition descripcion (r : row) : string := r.1.2.
Definition precio (r : row) : string := r.2.

(** The connection: the rows that are durable, and the rows of the open
    transaction. *)
Record conn := Conn { committed : list row; pending : list row }.

(** [c.execute("INSERT ...", r)]: the row joins the open transaction, unless
    the statement raises. *)
Definition execute_insert (fault : option exn) (r : row) (c : conn)
  : conn * result unit :=
  match fault with
  | None => (Conn (committed c) (pending c ++ [r])%list, Ok tt)
  | Some e => (c, Raise e)
  end.

(** [c.executemany("INSERT ...", rows)]: every row joins the open
    transaction; a failure at row [k] leaves the [k] rows before it in the
    transaction and raises. *)
Definition executemany (fault : option (nat * exn)) (rows : list row) (c : conn)
  : conn * result unit :=
  match fault with
  | None => (Conn (committed c) (pending c ++ rows)%list, Ok tt)
  | Some (k, e) => (Conn (committed c) (pending c ++ take k rows)%list, Raise e)
  end.

(** [conn.commit()] *)
Definition commit (fault : option exn) (c : conn) : conn * result unit :=
  match fault with
  | None => (Conn (committed c ++ pending c)%list [], Ok tt)
  | Some e => (c, Raise e)
  end.

(** [conn.rollback()] *)
Definition rollback (c : conn) : conn := Conn (committed c) [].

(** [conn.close()]: an open transaction is lost. *)
Definition close (c : conn) : conn := Conn (committed c) [].

End Sqlite.

(** ** Static fetch: requests over urllib3 *)

Module Requests.

(** What the server sends back: the status, whether a [Retry-After] header
    came with it, where a [Location] header points, and the body as
    BeautifulSoup parses it. *)
Record response := Answer {
  status_code : nat;
  has_retry_after : bool;
  location : option string;   (* the URL a [Location] header resolves to *)
  content : Tag
}.

(** An answer that has no [Location] header. *)
Definition Response (status_code : nat) (has_retry_after : bool)
    (content : Tag) : response :=
  Answer status_code has_retry_after None content.

(** One request on the wire: a response, or no response at all (connection
    refused, DNS failure, timeout). *)
Inductive attempt :=
  | Responds (r : response)
  | NetworkError (msg : string).

(** The network: the outcome of the [n]-th request of the run, sent to a URL. *)
Definition network : Type := nat -> string -> attempt.

(** [urllib3.util.retry.Retry], the fields the scripts set. *)
Record Retry := {
  total : nat;
  backoff_factor_tenths : nat;      (* 0.1 is 1; the sleeps are not modelled *)
  status_forcelist : list nat
}.

(** [Retry.RETRY_AFTER_STATUS_CODES]; [respect_retry_after_header] keeps its
    default, [True]. *)
Definition RETRY_AFTER_STATUS_CODES : list nat := [413; 429; 503].

(** [Retry.is_retry("GET", status, has_retry_after)] when [remaining] retries
    are left ([self.total]): a forced status, or a [Retry-After] answer with
    one of the statuses above while retries are left. *)
Definition is_retry (policy : Retry) (remaining : nat) (r : response) : bool :=
  bool_decide (status_code r ∈ status_forcelist policy)
  || (negb (remaining =? 0)%nat && has_retry_after r
      && bool_decide (status_code r ∈ RETRY_AFTER_STATUS_CODES)).

(** The adapter's send loop ([HTTPConnectionPool.urlopen] under
    [HTTPAdapter.send]): a retryable answer or a network error spends one
    retry ([Retry.increment]); when none is left the request fails
    ([MaxRetryError], which requests raises as a [RequestException]).
    Returns the outcome and the number of requests sent so far. *)
Fixpoint urlopen (policy : Retry) (remaining : nat) (net : network)
    (url : string) (n : nat) : result response * nat :=
  match net n url with
  | Responds r =>
      if is_retry policy remaining r then
        match remaining with
        | O => (Raise (Exn RequestException "Max retries exceeded"), S n)
        | S remaining' => urlopen policy remaining' net url (S n)
        end
      else (Ok r, S n)
  | NetworkError msg =>
      match remaining with
      | O => (Raise (Exn RequestException msg), S n)
      | S remaining' => urlopen policy remaining' net url (S n)
      end
  end.

(** [requests.models.REDIRECT_STATI] *)
Definition REDIRECT_STATI : list nat := [301; 302; 303; 307; 308].

(** [Session.get_redirect_target]: an answer is a redirect when it has a
    [Location] header and one of the statuses above. *)
Definition redirect_target (r : response) : option string :=
  if bool_decide (status_code r ∈ REDIRECT_STATI) then location r else None.

(** [requests.models.DEFAULT_REDIRECT_LIMIT], the [max_redirects] of a
    session. *)
Definition DEFAULT_REDIRECT_LIMIT : nat := 30.

(** [Session.send] with [allow_redirects=True], the default of [get]: the
    request goes through the adapter, and while the answer is a redirect
    its target is requested in turn, every hop with the whole retry budget
    of the policy; after [hops] redirects one more raises
    [TooManyRedirects], a [RequestException]. *)
Fixpoint resolve_redirects (policy : Retry) (hops : nat) (net : network)
    (url : string) (n : nat) : result response * nat :=
  match urlopen policy (total policy) net url n with
  | (Ok r, n') =>
      match redirect_target r with
      | Some target =>
          match hops with
          | O => (Raise (Exn RequestException "Exceeded 30 redirects."), n')
          | S hops' => resolve_redirects policy hops' net target n'
          end
      | None => (Ok r, n')
      end
  | (Raise e, n') => (Raise e, n')
  end.

(** [session.get(url, timeout=...)] on a session whose adapters carry
    [policy]; no call of the scripts passes [allow_redirects]. *)
Definition get (policy : Retry) (net : network) (url : string) (n : nat)
  : result response * nat :=
  resolve_redirects policy DEFAULT_REDIRECT_LIMIT net url n.

(** [response.raise_for_status()]: statuses 400..599 raise [HTTPError]. *)
Definition raise_for_status (r : response) : result unit :=
  if ((400 <=? status_code r) && (status_code r <? 600))%nat
  then Raise (Exn RequestException "HTTPError")
  else Ok tt.

(** [session.get] followed by [raise_for_status], as every script calls them. *)
Definition fetch (policy : Retry) (net : network) (url : string) (n : nat)
  : result response * nat :=
  match get policy net url n with
  | (Ok r, n') =>
      match raise_for_status r with
      | Ok _ => (Ok r, n')
      | Raise e => (Raise e, n')
      end
  | (Raise e, n') => (Raise e, n')
  end.

(** The adapter a bare [requests.get] uses: [Retry(0, read=False)]. *)
Definition no_retries : Retry :=
  {| total := 0; backoff_factor_tenths := 0; status_forcelist := [] |}.


End Requests.

(** ** One product item: the body of a [try] and its handler *)

Module Item.

(** The two locals a per-item [try] block assigns; the handler reads
    [product_name] as it stands when the exception is raised. *)
Record locals := Locals { product_name : string; product_price : string }.

(** The placeholder both locals start with. *)
Definition sentinel : string := "No disponible".

Definition init : locals := Locals sentinel sentinel.

(** A statement sequence inside the [try]: it updates the locals and either
    runs to its end or raises. *)
Definition M (A : Type) : Type := locals -> locals * result A.

#[export] Instance M_ret : MRet M := fun A a l => (l, Ok a).
#[export] Instance M_bind : MBind M := fun A B f m l =>
  match m l with
  | (l', Ok a) => f a l'
  | (l', Raise e) => (l', Raise e)
  end.

(** A library call made inside the [try]. *)
Definition call {A} (r : result A) : M A := fun l => (l, r).

(** [product_name = v] and [product_price = v] *)
Definition set_name (v : string) : M unit :=
  fun l => (Locals v (product_price l), Ok tt).
Definition set_price (v : string) : M unit :=
  fun l => (Locals (product_name l) v, Ok tt).

(** The prefix of an error-tagged description. *)
Definition error_marker : string := "Error en parseo - ".

(** [try: body; append((fecha, name, price))
     except Exception as e: append((fecha, f"Error en parseo - {name}", str(e)[:50]))]
    as 3iluminar.py (62-93), 4electrolineas.py (125-158) and
    5electromisiones.py (89-110) write it. *)
Definition guarded (fecha_actual : string) (body : M unit) : Sqlite.row :=
  match body init with
  | (l, Ok _) => (fecha_actual, product_name l, product_price l)
  | (l, Raise e) =>
      (fecha_actual, error_marker ++ product_name l, slice_to 50 (str_exn e))
  end.

(** [el = None; for selector in selectors: el = div.select_one(selector);
     if el: break] *)
Fixpoint first_match (product_div : Tag) (selectors : list string)
  : result (option Tag) :=
  match selectors with
  | [] => Ok None
  | selector :: rest =>
      el ← select_one product_div selector;
      match el with
      | Some t => if tag_truthy t then Ok (Some t) else first_match product_div rest
      | None => first_match product_div rest
      end
  end.

(** [for product_div in product_divs: fecha_actual = now(); try: ...], the
    loop the three scripts share but for the body of the [try]; [now t] is
    what [datetime.now().strftime("%d/%m/%Y")] answers at the [t]-th
    reading of the clock, and every iteration reads it once. *)
Fixpoint for_each (try_body : Tag -> M unit) (now : nat -> string) (t : nat)
    (product_divs : list Tag) : list Sqlite.row :=
  match product_divs with
  | [] => []
  | product_div :: rest =>
      guarded (now t) (try_body product_div) :: for_each try_body now (S t) rest
  end.

End Item.
Export (hints) Item.

(** ** A page in the browser *)

Module Selenium.

(** A page under the driver: the value of [document.body.scrollHeight]
    after a number of scroll-to-bottom commands, and whether the wait for
    [document.readyState] that follows the command times out. *)
Record page_dynamics := {
  scroll_height : nat -> Z;
  ready_timeout : nat -> bool
}.

(** Logging levels. *)
Inductive level := INFO | WARNING | ERROR.

End Selenium.
Export Selenium.

(** ** 3iluminar.py *)

Module Iluminar.

Definition MAX_PAGE_CHECK : nat := 100.

Definition product_selector : string :=
  "div.product-small.col.has-hover.product".
Definition name_selector : string :=
  "p.name.product-title.woocommerce-loop-product__title > a".
Definition price_selectors : list string :=
  [ "div.price-wrapper span.price ins span.woocommerce-Price-amount.amount bdi";
    "div.price-wrapper span.price span.woocommerce-Price-amount.amount bdi";
    "div.price-wrapper span.price bdi";
    "div.price-wrapper bdi";
    "span.woocommerce-Price-amount.amount bdi" ].

(** Lines 63-87: the body of the per-item [try]. *)
Definition try_body (product_div : Tag) : Item.M unit :=
  name_element ← Item.call (select_one product_div name_selector);
  match name_element with
  | Some el => t ← Item.call (text el); Item.set_name (strip t)
  | None =>
      (* rendered into the warning *)
      _ ← Item.call (select_one product_div
             "p.name.product-title.woocommerce-loop-product__title");
      mret tt
  end;;
  price_element ← Item.call (Item.first_match product_div price_selectors);
  match price_element with
  | Some el => t ← Item.call (text el); Item.set_price (strip t)
  | None =>
      (* rendered into the warning *)
      _ ← Item.call (select_one product_div "div.price-wrapper");
      mret tt
  end.

(** The name the [try] block assigns, when it gets to assign one (lines
    63-65), and likewise the price (lines 78-85). *)
Definition name_read (product_div : Tag) : option string :=
  match select_one product_div name_selector with
  | Ok (Some el) =>
      match text el with Ok t => Some (strip t) | Raise _ => None end
  | _ => None
  end.
Definition price_read (product_div : Tag) : option string :=
  match Item.first_match product_div price_selectors with
  | Ok (Some el) =>
      match text el with Ok t => Some (strip t) | Raise _ => None end
  | _ => None
  end.

(** Lines 57-93: the loop over the product nodes of a page. *)
Definition for_product_divs : (nat -> string) -> nat -> list Tag -> list Sqlite.row :=
  Item.for_each try_body.

(** [process_products_from_soup(soup)] *)
Definition process_products_from_soup (soup : Tag) (now : nat -> string)
    (t : nat) : result (list Sqlite.row) :=
  product_divs ← select soup product_selector;
  Ok (for_product_divs now t product_divs).

(** *** The scroll loop *)

Inductive scroll_event :=
  | ReadyTimeout                                   (* line 115 *)
  | Stabilized (height : Z) (attempts : nat)       (* line 121 *)
  | Scrolled (height : Z) (attempt : nat)          (* line 128 *)
  | ExceededAttempts (attempts : nat).             (* line 131 *)

Record scroll_state := {
  last_height : Z;
  scroll_attempts : nat;
  consecutive_no_change : nat;
  scrolls : nat;                      (* scroll commands sent to the browser *)
  log : list (level * scroll_event)
}.

Definition MAX_SCROLL_ATTEMPTS : nat := 15.

(** Line 104: [while scroll_attempts < 15] *)
Definition scroll_cond (st : scroll_state) : bool :=
  (scroll_attempts st <? MAX_SCROLL_ATTEMPTS)%nat.

(** Lines 105-128: one iteration. *)
Definition scroll_body (page : page_dynamics) (st : scroll_state)
  : scroll_state + scroll_state :=
  let scrolls' := S (scrolls st) in
  let log1 :=
    if ready_timeout page scrolls'
    then (log st ++ [(WARNING, ReadyTimeout)])%list else log st in
  let new_height := scroll_height page scrolls' in
  if (new_height =? last_height st)%Z then
    let no_change := S (consecutive_no_change st) in
    if (2 <=? no_change)%nat then
      inr {| last_height := last_height st;
             scroll_attempts := scroll_attempts st;
             consecutive_no_change := no_change;
             scrolls := scrolls';
             log := (log1 ++ [(INFO, Stabilized new_height (S (scroll_attempts st)))])%list |}
    else
      inl {| last_height := new_height;
             scroll_attempts := S (scroll_attempts st);
             consecutive_no_change := no_change;
             scrolls := scrolls';
             log := (log1 ++ [(INFO, Scrolled new_height (S (S (scroll_attempts st))))])%list |}
  else
    inl {| last_height := new_height;
           scroll_attempts := S (scroll_attempts st);
           consecutive_no_change := 0;
           scrolls := scrolls';
           log := (log1 ++ [(INFO, Scrolled new_height (S (S (scroll_attempts st))))])%list |}.

(** Lines 130-131: the warning after the loop. *)
Definition scroll_epilogue (st : scroll_state) : scroll_state :=
  if (MAX_SCROLL_ATTEMPTS <=? scroll_attempts st)%nat then
    {| last_height := last_height st;
       scroll_attempts := scroll_attempts st;
       consecutive_no_change := consecutive_no_change st;
       scrolls := scrolls st;
       log := (log st ++ [(WARNING, ExceededAttempts (scroll_attempts st))])%list |}
  else st.

(** [scroll_page_fully(driver)]; [None] when the loop outlives the fuel. *)
Definition scroll_page_fully (fuel : nat) (page : page_dynamics)
  : option scroll_state :=
  scroll_epilogue <$>
    Loop.while scroll_cond (scroll_body page) fuel
      {| last_height := scroll_height page 0;
         scroll_attempts := 0;
         consecutive_no_change := 0;
         scrolls := 0;
         log := [] |}.

(** *** [main]: page 1, then pages 2.. of every base URL *)

(** The string whose presence marks a page that does not exist (line 169,
    198): inverted exclamation mark, then the text, with an acute a. *)
Definition not_found_marker : string :=
  String (ascii_of_nat 161) "Ups! No pudimos encontrar esa p"
  ++ String (ascii_of_nat 225) "gina.".

(** What the script runs against. *)
Record env := {
  now : nat -> string;                       (* the clock, by reading *)
  connect_fault : option exn;                (* sqlite3.connect *)
  create_table_fault : option exn;           (* CREATE TABLE and its commit *)
  init_webdriver_fault : option exn;         (* init_webdriver() *)
  (* lines 161-167: driver.get, the wait, scroll_page_fully, page_source *)
  open_base : string -> result Tag;
  (* lines 190-196: driver.get, the wait for div.shop-container, page_source *)
  open_page : string -> result Tag;
  executemany_fault : option (nat * exn);
  commit_fault : option exn
}.

(** [soup.find(string=marker)] as a condition: a found string is true when
    it is not empty. *)
Definition page_not_found (soup : Tag) : result bool :=
  found ← find_string soup not_found_marker;
  Ok (match found with Some s => truthy s | None => false end).

(** How the body of the page loop ends. *)
Inductive verdict :=
  | Continue (products_from_page : list Sqlite.row)
  | Break.

(** Lines 206-207: the first [p.woocommerce-info] element is there and its
    text says that no product was found. *)
Definition explicit_notice (soup : Tag) : result bool :=
  no_product_notice ← select_one soup "p.woocommerce-info";
  match no_product_notice with
  | Some notice =>
      txt ← text notice;
      Ok (contains "No se encontraron productos" txt
          || contains "No products were found" txt)
  | None => Ok false
  end.

(** Lines 198-217, on the parsed page [soup] of page [page_num]. *)
Definition check_page (soup : Tag) (page_num : nat) (now : nat -> string)
    (t : nat) : result verdict :=
  missing ← page_not_found soup;
  match missing with
  | true => Ok Break
  | false =>
      products_from_page ← process_products_from_soup soup now t;
      match products_from_page with
      | [] =>
          explicit ← explicit_notice soup;
          match explicit with
          | true => Ok Break
          | false => if (5 <? page_num)%nat then Ok Break else Ok (Continue [])
          end
      | _ => Ok (Continue products_from_page)
      end
  end.

Record probe_state := {
  current_url_products : list Sqlite.row;
  requested : list nat;          (* the page numbers passed to driver.get *)
  tick : nat                     (* readings of the clock so far *)
}.

(** Line 187: [f"{base_url}page/{page_num}/"] *)
Definition page_url (base_url : string) (page_num : nat) : string :=
  base_url ++ "page/" ++ str_of_nat page_num ++ "/".

(** Lines 190-217: the body of the inner [try] for one page number, at
    the [t]-th reading of the clock. *)
Definition visit (e : env) (base_url : string) (page_num : nat) (t : nat)
  : result verdict :=
  soup ← open_page e (page_url base_url page_num);
  check_page soup page_num (now e) t.

(** Lines 186-230: [for page_num in pages]; every handler of the inner
    [try] ends the loop. *)
Fixpoint probe (e : env) (base_url : string) (pages : list nat)
    (st : probe_state) : probe_state :=
  match pages with
  | [] => st
  | page_num :: rest =>
      let asked := (requested st ++ [page_num])%list in
      match visit e base_url page_num (tick st) with
      | Ok (Continue products_from_page) =>
          probe e base_url rest
            {| current_url_products :=
                 (current_url_products st ++ products_from_page)%list;
               requested := asked;
               tick := tick st + length products_from_page |}
      | Ok Break | Raise _ =>
          {| current_url_products := current_url_products st;
             requested := asked;
             tick := tick st |}
      end
  end.

(** Line 186: the pages the loop ranges over. *)
Definition additional_pages : list nat := Loop.range 2 (MAX_PAGE_CHECK + 1).

(** Lines 160-183: page 1. [None]: the base URL is given up ([continue]). *)
Definition first_page (e : env) (base_url : string) (t : nat)
  : option (list Sqlite.row) :=
  match soup ← open_base e base_url;
        missing ← page_not_found soup;
        match missing with
        | true => Ok None
        | false => Some <$> process_products_from_soup soup (now e) t
        end with
  | Ok (Some products_from_page) => Some products_from_page
  | Ok None | Raise _ => None
  end.

Record crawl_state := {
  all_products_globally : list Sqlite.row;
  visited : list (string * list nat);   (* per base URL, the pages probed *)
  clock : nat
}.

(** Lines 155-236: the loop over the base URLs. *)
Fixpoint crawl (e : env) (base_urls : list string) (st : crawl_state)
  : crawl_state :=
  match base_urls with
  | [] => st
  | base_url :: rest =>
      match first_page e base_url (clock st) with
      | None => crawl e rest st
      | Some products_from_page =>
          let p := probe e base_url additional_pages
                     {| current_url_products := products_from_page;
                        requested := [];
                        tick := clock st + length products_from_page |} in
          crawl e rest
            {| all_products_globally :=
                 (all_products_globally st ++ current_url_products p)%list;
               visited := (visited st ++ [(base_url, requested p)])%list;
               clock := tick p |}
      end
  end.

Definition base_urls : list string :=
  [ "https://iluminar.ar/product-category/electricidad/";
    "https://iluminar.ar/product-category/iluminacion/" ].

(** Lines 239-252: the bulk insert and its handler. An exception that is
    not a [sqlite3.Error] leaves to the handlers of the outer [try]. *)
Definition persist (e : env) (rows : list Sqlite.row) (c : Sqlite.conn)
  : Sqlite.conn * result unit :=
  match rows with
  | [] => (c, Ok tt)
  | _ =>
      let attempt :=
        match Sqlite.executemany (executemany_fault e) rows c with
        | (c1, Ok _) => Sqlite.commit (commit_fault e) c1
        | (c1, Raise x) => (c1, Raise x)
        end in
      match attempt with
      | (c2, Ok _) => (c2, Ok tt)
      | (c2, Raise x) =>
          match exn_cls x with
          | SqliteError => (Sqlite.rollback c2, Ok tt)
          | _ => (c2, Raise x)
          end
      end
  end.

(** What a run leaves behind. *)
Record outcome := {
  database : Sqlite.conn;
  crawled : list (string * list nat);
  collected : list Sqlite.row;
  escaped : result unit       (* an exception that leaves [main] *)
}.

(** Lines 143-252: the outer [try] block, run on the table as [stored] on
    disk. The connection is [None] until [sqlite3.connect] has returned. *)
Definition try_block (e : env) (stored : list Sqlite.row)
  : option Sqlite.conn * outcome :=
  let db := Sqlite.Conn stored [] in
  let stopped x :=
    {| database := db; crawled := []; collected := []; escaped := Raise x |} in
  match connect_fault e with
  | Some x => (None, stopped x)
  | None =>
      match create_table_fault e with
      | Some x => (Some db, stopped x)
      | None =>
          match init_webdriver_fault e with
          | Some x => (Some db, stopped x)
          | None =>
              let st := crawl e base_urls
                          {| all_products_globally := []; visited := []; clock := 0 |} in
              let '(c, r) := persist e (all_products_globally st) db in
              (Some c,
               {| database := c;
                  crawled := visited st;
                  collected := all_products_globally st;
                  escaped := r |})
          end
      end
  end.

(** Lines 254-265: the handlers of the outer [try]: [sqlite3.Error] and
    [WebDriverException] are logged, any other [Exception] is logged and
    the connection, when there is one, rolled back. *)
Definition handlers (conn : option Sqlite.conn) (o : outcome) : outcome :=
  match escaped o with
  | Ok _ => o
  | Raise x =>
      let c :=
        match exn_cls x, conn with
        | (SqliteError | WebDriverException | TimeoutException), _ => database o
        | _, Some _ => Sqlite.rollback (database o)
        | _, None => database o
        end in
      {| database := c; crawled := crawled o; collected := collected o;
         escaped := Ok tt |}
  end.

(** Lines 267-279: [finally] closes the connection when there is one. *)
Definition finally (conn : option Sqlite.conn) (o : outcome) : outcome :=
  match conn with
  | Some _ =>
      {| database := Sqlite.close (database o); crawled := crawled o;
         collected := collected o; escaped := escaped o |}
  | None => o
  end.

(** [main()] *)
Definition main (e : env) (stored : list Sqlite.row) : outcome :=
  let '(conn, o) := try_block e stored in
  finally conn (handlers conn o).

End Iluminar.

(** ** 2casadelaslamparas.py *)

Module Casa.

Inductive scroll_event :=
  | ReadyTimeout                     (* line 71 *)
  | ReachedEnd                       (* line 75 *)
  | Scrolled (height : Z).           (* line 78 *)

Record scroll_state := {
  last_height : Z;
  scrolls : nat;                     (* scroll commands sent to the browser *)
  log : list (level * scroll_event)
}.

(** Line 61: [while True] *)
Definition scroll_cond (st : scroll_state) : bool := true.

(** Lines 62-78: one iteration. *)
Definition scroll_body (page : page_dynamics) (st : scroll_state)
  : scroll_state + scroll_state :=
  let scrolls' := S (scrolls st) in
  let log1 :=
    if ready_timeout page scrolls'
    then (log st ++ [(WARNING, ReadyTimeout)])%list else log st in
  let new_height := scroll_height page scrolls' in
  if (new_height =? last_height st)%Z then
    inr {| last_height := last_height st;
           scrolls := scrolls';
           log := (log1 ++ [(INFO, ReachedEnd)])%list |}
  else
    inl {| last_height := new_height;
           scrolls := scrolls';
           log := (log1 ++ [(INFO, Scrolled new_height)])%list |}.

(** Lines 59-78; [None] when the loop outlives the fuel. *)
Definition scroll_loop (fuel : nat) (page : page_dynamics)
  : option scroll_state :=
  Loop.while scroll_cond (scroll_body page) fuel
    {| last_height := scroll_height page 0; scrolls := 0; log := [] |}.

(** Lines 93-111, the body of the per-item [try] after the clock has been
    read: name and price of one item. [find("a")], which names no class,
    is the query for the class [""]. *)
Definition item_fields (product_div : Tag) : result (string * string) :=
  link_tag ← find product_div "a" "";
  match link_tag with
  | Some link_tag =>
      product_name_div ← find link_tag "div" "js-item-name item-name mb-3";
      product_name ←
        match product_name_div with
        | Some name_div => strip <$> text name_div
        | None => Ok Item.sentinel
        end;
      price_container_outer ←
        find link_tag "div" "item-price-container mb-1";
      product_price ←
        match price_container_outer with
        | Some outer =>
            price_container_inner ←
              find outer "span" "js-price-display item-price";
            match price_container_inner with
            | Some inner => strip <$> text inner
            | None => Ok Item.sentinel
            end
        | None => Ok Item.sentinel
        end;
      Ok (product_name, product_price)
  | None => Ok (Item.sentinel, Item.sentinel)
  end.

(** Lines 86-117: [products_to_insert] after the loop over the product
    nodes; the handler logs and goes on to the next node. Every iteration
    reads the clock once, before anything can raise. *)
Fixpoint for_product_divs (now : nat -> string) (t : nat)
    (product_divs : list Tag) : list Sqlite.row :=
  match product_divs with
  | [] => []
  | product_div :: rest =>
      (match item_fields product_div with
       | Ok (product_name, product_price) =>
           [(now t, product_name, product_price)]
       | Raise _ => []
       end ++ for_product_divs now (S t) rest)%list
  end.

Definition urls : list string :=
  [ "https://www.lacasadelaslamparas.com.ar/productos" ].

(** What the script runs against. The browser is taken to answer the
    scripts of the scroll loop and to hand over the page source. *)
Record env := {
  now : nat -> string;                         (* the clock, by reading *)
  connect_fault : option exn;                  (* sqlite3.connect *)
  create_table_fault : option exn;             (* CREATE TABLE and its commit *)
  init_webdriver_fault : option exn;           (* webdriver.Firefox *)
  get_fault : string -> option exn;            (* driver.get(url) *)
  dynamics : string -> page_dynamics;          (* the page while scrolled *)
  page_source : string -> Tag;                 (* the parsed page source *)
  executemany_fault : string -> option (nat * exn);
  commit_fault : string -> option exn
}.

Record state := {
  conn : Sqlite.conn;
  tick : nat                                   (* readings of the clock *)
}.

(** Lines 119-124: the rows of a page are inserted and committed. *)
Definition persist (e : env) (url : string)
    (products_to_insert : list Sqlite.row) (c : Sqlite.conn)
    : Sqlite.conn * result unit :=
  match products_to_insert with
  | [] => (c, Ok tt)
  | _ =>
      match Sqlite.executemany (executemany_fault e url) products_to_insert c with
      | (c1, Ok _) => Sqlite.commit (commit_fault e url) c1
      | (c1, Raise x) => (c1, Raise x)
      end
  end.

(** Lines 52-124: one URL; [None] when the scroll loop outlives the fuel.
    A [WebDriverException] of [driver.get] is logged and the loop goes on;
    every other exception leaves the loop over the URLs. *)
Definition for_url (fuel : nat) (e : env) (st : state) (url : string)
    : option (state * result unit) :=
  match get_fault e url with
  | Some x =>
      match exn_cls x with
      | WebDriverException | TimeoutException => Some (st, Ok tt)
      | _ => Some (st, Raise x)
      end
  | None =>
      _ ← scroll_loop fuel (dynamics e url);
      match find_all (page_source e url) "div" "item-description py-4 px-1" with
      | Raise x => Some (st, Raise x)
      | Ok product_divs =>
          let products_to_insert :=
            for_product_divs (now e) (tick st) product_divs in
          let '(c, r) := persist e url products_to_insert (conn st) in
          Some ({| conn := c; tick := tick st + length product_divs |}, r)
      end
  end.

(** Lines 51-124: the loop over the URLs. *)
Fixpoint for_urls (fuel : nat) (e : env) (st : state) (urls : list string)
    : option (state * result unit) :=
  match urls with
  | [] => Some (st, Ok tt)
  | url :: rest =>
      '(st', r) ← for_url fuel e st url;
      match r with
      | Ok _ => for_urls fuel e st' rest
      | Raise x => Some (st', Raise x)
      end
  end.

(** What a run leaves behind: the table, and the exception the handlers of
    lines 126-131 logged, if any. The script ends with status 0 either
    way. *)
Record outcome := {
  database : Sqlite.conn;
  logged : option exn
}.

(** Lines 36-138: the whole script over the URLs [urls], run on the table
    as [stored] on disk. The handlers log; [finally] closes the
    connection when there is one. *)
Definition run (fuel : nat) (e : env) (urls : list string)
    (stored : list Sqlite.row) : option outcome :=
  let db := Sqlite.Conn stored [] in
  match connect_fault e with
  | Some x => Some {| database := db; logged := Some x |}
  | None =>
      match create_table_fault e with
      | Some x => Some {| database := Sqlite.close db; logged := Some x |}
      | None =>
          match init_webdriver_fault e with
          | Some x => Some {| database := Sqlite.close db; logged := Some x |}
          | None =>
              '(st, r) ← for_urls fuel e {| conn := db; tick := 0 |} urls;
              Some {| database := Sqlite.close (conn st);
                      logged := match r with
                                | Ok _ => None
                                | Raise x => Some x
                                end |}
          end
      end
  end.

Definition main (fuel : nat) (e : env) (stored : list Sqlite.row)
    : option outcome :=
  run fuel e urls stored.

End Casa.

(** ** 1electropunto.py *)

Module Electropunto.

Definition urls : list string :=
  [ "https://electropunto.com.ar/search/?q=cable+";
    "https://electropunto.com.ar/protecciones/";
    "https://electropunto.com.ar/cajas-y-canerias/";
    "https://electropunto.com.ar/accesorios-de-electricidad/" ].

(** What the script runs against. *)
Record env := {
  now : nat -> string;                  (* the clock, by reading *)
  net : Requests.network;
  execute_fault : nat -> option exn     (* the n-th INSERT of the run *)
}.

Record state := {
  conn : Sqlite.conn;
  tick : nat;            (* readings of the clock *)
  sent : nat;            (* requests sent *)
  inserts : nat          (* INSERT statements run *)
}.

(** Lines 66-87: name and price of one item. *)
Definition item_fields (product_div : Tag) : result (option (string * string)) :=
  let product_name_tag := product_div in
  if tag_truthy product_name_tag then
    product_name ← strip <$> text product_name_tag;
    price_container_outer ←
      find_next_sibling product_div "div" "item-price-container";
    product_price ←
      match price_container_outer with
      | Some outer =>
          price_container_inner ←
            find outer "div" "js-price-display price item-price";
          match price_container_inner with
          | Some inner => strip <$> text inner
          | None => Ok Item.sentinel
          end
      | None => Ok Item.sentinel
      end;
    Ok (Some (product_name, product_price))
  else Ok None.

(** Lines 61-96: one iteration; both handlers end it with [continue]. *)
Definition for_item (e : env) (st : state) (product_div : Tag) : state :=
  let fecha_actual := now e (tick st) in
  let st1 := {| conn := conn st; tick := S (tick st); sent := sent st;
                inserts := inserts st |} in
  match item_fields product_div with
  | Ok (Some (product_name, product_price)) =>
      match Sqlite.execute_insert (execute_fault e (inserts st))
              (fecha_actual, product_name, product_price) (conn st) with
      | (c, _) =>
          {| conn := c; tick := S (tick st); sent := sent st;
             inserts := S (inserts st) |}
      end
  | Ok None | Raise _ => st1
  end.


(** Lines 41-96: one URL. An exception of [find_all], outside the inner
    [try], leaves the loop over the URLs. *)
Definition for_url (e : env) (st : state) (url : string) : state * result unit :=
  match Requests.fetch Requests.no_retries (net e) url (sent st) with
  | (Raise _, n) =>
      (* line 46-48: logged, [continue] *)
      ({| conn := conn st; tick := tick st; sent := n; inserts := inserts st |},
       Ok tt)
  | (Ok response, n) =>
      let st1 := {| conn := conn st; tick := tick st; sent := n;
                    inserts := inserts st |} in
      match find_all (Requests.content response) "div" "js-item-name h2 item-name" with
      | Raise x => (st1, Raise x)
      | Ok product_divs => (foldl (for_item e) st1 product_divs, Ok tt)
      end
  end.

(** Lines 41-99: the loop over the URLs. *)
Fixpoint for_urls (e : env) (st : state) (urls : list string)
  : state * result unit :=
  match urls with
  | [] => (st, Ok tt)
  | url :: rest =>
      match for_url e st url with
      | (st', Ok _) => for_urls e st' rest
      | (st', Raise x) => (st', Raise x)
      end
  end.

(** The database calls outside the loop over the items. *)
Record faults := {
  connect_fault : option exn;            (* sqlite3.connect *)
  create_table_fault : option exn;       (* CREATE TABLE and its commit *)
  commit_fault : option exn              (* the commit of line 99 *)
}.

(** What a run leaves behind: the table, and the exception the handlers of
    lines 102-105 logged, if any. The script ends with status 0 either
    way. *)
Record outcome := {
  database : Sqlite.conn;
  logged : option exn
}.

(** Lines 20-109: the whole script over the URLs [urls], run on the table
    as [stored] on disk. Both handlers log; [finally] closes the
    connection when [conn] is bound. *)
Definition run (e : env) (f : faults) (urls : list string)
    (stored : list Sqlite.row) : outcome :=
  let db := Sqlite.Conn stored [] in
  match connect_fault f with
  | Some x => {| database := db; logged := Some x |}
  | None =>
      match create_table_fault f with
      | Some x => {| database := Sqlite.close db; logged := Some x |}
      | None =>
          match for_urls e {| conn := db; tick := 0; sent := 0; inserts := 0 |}
                  urls with
          | (st, Ok _) =>
              match Sqlite.commit (commit_fault f) (conn st) with
              | (c, Ok _) => {| database := Sqlite.close c; logged := None |}
              | (c, Raise x) =>
                  {| database := Sqlite.close c; logged := Some x |}
              end
          | (st, Raise x) =>
              {| database := Sqlite.close (conn st); logged := Some x |}
          end
      end
  end.

Definition main (e : env) (f : faults) (stored : list Sqlite.row) : outcome :=
  run e f urls stored.

End Electropunto.

(** ** 4electrolineas.py *)

Module Electrolineas.

(** [create_session_with_retries()]: the policy mounted on the session. *)
Definition retry_strategy : Requests.Retry :=
  {| Requests.total := 5;
     Requests.backoff_factor_tenths := 1;
     Requests.status_forcelist := [500; 502; 503; 504] |}.

(** [sorted(list(page_urls_to_scrape))]: a merge sort by the order of
    strings, code point by code point ([String.le]). *)
Definition sorted (s : gset string) : list string :=
  merge_sort String.le (elements s).


(** Lines 85-87: the loop over the links of the navigation element. *)
Definition add_links (links : list Tag) (page_urls_to_scrape : gset string)
  : gset string :=
  foldl (fun acc link_tag =>
           if tag_truthy link_tag then
             match attrs link_tag !! "href" with
             | Some href => acc ∪ {[ href ]}
             | None => acc
             end
           else acc)
        page_urls_to_scrape links.

(** Lines 79-81: the navigation element, by the WooCommerce selector or
    else the generic one. *)
Definition locate_pagination (soup : Tag) : result (option Tag) :=
  pagination_nav ← select_one soup "nav.woocommerce-pagination";
  match pagination_nav with
  | Some nav => Ok (Some nav)
  | None => select_one soup ".products-footer nav"
  end.

(** Lines 68-90, after the first page has been fetched: the page URLs of a
    base URL. *)
Definition harvest (soup : Tag) (base_url : string) : result (gset string) :=
  let page_urls_to_scrape : gset string := {[ base_url ]} in
  pagination_nav ← locate_pagination soup;
  match pagination_nav with
  | Some nav =>
      links ← select nav "a.page-numbers";
      Ok (add_links links page_urls_to_scrape)
  | None => Ok page_urls_to_scrape
  end.

(** Lines 68-100: the pages to scrape for a base URL, in the order the
    page loop takes them; [None] when the base URL is given up
    ([continue] in either handler). *)
Definition discover (net : Requests.network) (base_url : string) (n : nat)
  : option (list string) * nat :=
  match Requests.fetch retry_strategy net base_url n with
  | (Ok response, n') =>
      match harvest (Requests.content response) base_url with
      | Ok pages => (Some (sorted pages), n')
      | Raise _ => (None, n')
      end
  | (Raise _, n') => (None, n')
  end.

(** Lines 127-129: the title link, by the common selector or else the
    original one. *)
Definition find_name (product_div : Tag) : result (option Tag) :=
  name_element ← select_one product_div ".wd-entities-title a";
  match name_element with
  | Some el => Ok (Some el)
  | None => select_one product_div "div.product-element-bottom > h3 > a"
  end.

Definition price_selectors : list string :=
  [ "span.price ins span.woocommerce-Price-amount.amount bdi";
    "span.price span.woocommerce-Price-amount.amount bdi";
    "div.wrap-price span.price span.woocommerce-Price-amount.amount bdi";
    "div.product-element-bottom div.wrap-price span.price span.woocommerce-Price-amount bdi" ].

(** Lines 126-152: the body of the per-item [try]. *)
Definition try_body (product_div : Tag) : Item.M unit :=
  name_element ← Item.call (find_name product_div);
  match name_element with
  | Some el => t ← Item.call (text el); Item.set_name (strip t)
  | None =>
      (* rendered into the warning *)
      _ ← Item.call (select_one product_div "h3, .wd-entities-title");
      mret tt
  end;;
  price_element ← Item.call (Item.first_match product_div price_selectors);
  match price_element with
  | Some el => t ← Item.call (text el); Item.set_price (strip t)
  | None =>
      (* rendered into the warning *)
      _ ← Item.call (select_one product_div "span.price, div.wrap-price");
      mret tt
  end.

(** The name the [try] block assigns, when it gets to assign one (lines
    127-132), and likewise the price (lines 143-150). *)
Definition name_read (product_div : Tag) : option string :=
  match find_name product_div with
  | Ok (Some el) =>
      match text el with Ok t => Some (strip t) | Raise _ => None end
  | _ => None
  end.
Definition price_read (product_div : Tag) : option string :=
  match Item.first_match product_div price_selectors with
  | Ok (Some el) =>
      match text el with Ok t => Some (strip t) | Raise _ => None end
  | _ => None
  end.

(** Lines 120-158: the loop over the product nodes of a page. *)
Definition for_product_divs : (nat -> string) -> nat -> list Tag -> list Sqlite.row :=
  Item.for_each try_body.

(** Lines 108-116: the product nodes, by the primary selector or else the
    fallback. *)
Definition product_nodes (page_soup : Tag) : result (list Tag) :=
  product_divs ← select page_soup "div.product-grid-item.product";
  match product_divs with
  | [] => select page_soup "li.product.type-product"
  | _ => Ok product_divs
  end.

Record state := {
  all_products_to_insert : list Sqlite.row;
  tick : nat;          (* readings of the clock *)
  sent : nat           (* requests sent *)
}.

(** Lines 101-164: one page. Both handlers log and let the loop go on. *)
Definition for_page (now : nat -> string) (net : Requests.network)
    (st : state) (page_url : string) : state :=
  match Requests.fetch retry_strategy net page_url (sent st) with
  | (Ok response, n) =>
      match product_nodes (Requests.content response) with
      | Ok product_divs =>
          {| all_products_to_insert :=
               (all_products_to_insert st
                ++ for_product_divs now (tick st) product_divs)%list;
             tick := tick st + length product_divs;
             sent := n |}
      | Raise _ =>
          {| all_products_to_insert := all_products_to_insert st;
             tick := tick st; sent := n |}
      end
  | (Raise _, n) =>
      {| all_products_to_insert := all_products_to_insert st;
         tick := tick st; sent := n |}
  end.

(** Lines 66-164: one base URL. *)
Definition for_base_url (now : nat -> string) (net : Requests.network)
    (st : state) (base_url : string) : state :=
  match discover net base_url (sent st) with
  | (Some pages, n) =>
      foldl (for_page now net)
        {| all_products_to_insert := all_products_to_insert st;
           tick := tick st; sent := n |}
        pages
  | (None, n) =>
      {| all_products_to_insert := all_products_to_insert st;
         tick := tick st; sent := n |}
  end.

Definition base_urls : list string :=
  [ "https://electrolineas.com.ar/categoria-producto/cables-categorias/?v=c838c18b91bc";
    "https://electrolineas.com.ar/categoria-producto/proteccion-electrica-categorias/?v=c838c18b91bc";
    "https://electrolineas.com.ar/categoria-producto/canos-y-accesorios-categorias/?v=c838c18b91bc";
    "https://electrolineas.com.ar/categoria-producto/iluminacion-categorias/?v=c838c18b91bc" ].

(** The database calls of [main]. *)
Record faults := {
  connect_fault : option exn;            (* sqlite3.connect *)
  create_table_fault : option exn;       (* CREATE TABLE and its commit *)
  executemany_fault : option (nat * exn);
  commit_fault : option exn              (* the commit of line 187 *)
}.

(** Lines 168-187: the bulk insert with its handler, which rolls back on a
    [sqlite3.Error], and then the commit, which is made in either case. *)
Definition persist (f : faults) (rows : list Sqlite.row) (c : Sqlite.conn)
    : Sqlite.conn * result unit :=
  let inserted :=
    match rows with
    | [] => (c, Ok tt)
    | _ =>
        match Sqlite.executemany (executemany_fault f) rows c with
        | (c1, Ok _) => (c1, Ok tt)
        | (c1, Raise x) =>
            match exn_cls x with
            | SqliteError => (Sqlite.rollback c1, Ok tt)
            | _ => (c1, Raise x)
            end
        end
    end in
  match inserted with
  | (c1, Ok _) => Sqlite.commit (commit_fault f) c1
  | (c1, Raise x) => (c1, Raise x)
  end.

(** What a run leaves behind: the table, the rows collected, and the
    exception the handlers of lines 191-204 logged, if any. [main] returns
    either way. *)
Record outcome := {
  database : Sqlite.conn;
  collected : list Sqlite.row;
  logged : option exn
}.

(** Lines 191-204: a [sqlite3.Error] and any exception that is not a
    [RequestException] roll the connection back; a [RequestException] is
    logged only. *)
Definition handle (x : exn) (c : Sqlite.conn) : Sqlite.conn :=
  match exn_cls x with
  | RequestException => c
  | _ => Sqlite.rollback c
  end.

(** [main()] over the base URLs [base_urls], run on the table as [stored]
    on disk; [finally] closes the connection when there is one. *)
Definition run (now : nat -> string) (net : Requests.network) (f : faults)
    (base_urls : list string) (stored : list Sqlite.row) : outcome :=
  let db := Sqlite.Conn stored [] in
  match connect_fault f with
  | Some x => {| database := db; collected := []; logged := Some x |}
  | None =>
      match create_table_fault f with
      | Some x =>
          {| database := Sqlite.close (handle x db); collected := [];
             logged := Some x |}
      | None =>
          let st := foldl (for_base_url now net)
                      {| all_products_to_insert := []; tick := 0; sent := 0 |}
                      base_urls in
          match persist f (all_products_to_insert st) db with
          | (c, Ok _) =>
              {| database := Sqlite.close c;
                 collected := all_products_to_insert st; logged := None |}
          | (c, Raise x) =>
              {| database := Sqlite.close (handle x c);
                 collected := all_products_to_insert st; logged := Some x |}
          end
      end
  end.

Definition main (now : nat -> string) (net : Requests.network) (f : faults)
    (stored : list Sqlite.row) : outcome :=
  run now net f base_urls stored.

End Electrolineas.

(** ** 5electromisiones.py *)

Module Electromisiones.

Definition retry_strategy : Requests.Retry :=
  {| Requests.total := 5;
     Requests.backoff_factor_tenths := 3;
     Requests.status_forcelist := [500; 502; 503; 504] |}.

Definition product_selector : string :=
  "#category-description article, #js-product-list article".
Definition name_selector : string :=
  "h3.product-title a, h6.product-title a, .product-title a, .product_title a".
Definition price_selector : string :=
  "span.price, div.tv-product-price span, .product-price-and-shipping .price, .product_price .price".

(** Line 101: [[s.strip() for s in fragments if s.strip()]] *)
Definition price_text_parts (fragments : list string) : list string :=
  strip <$> filter (fun s => Is_true (truthy (strip s))) fragments.

(** Lines 91-104: the body of the per-item [try]. *)
Definition try_body (product_div : Tag) : Item.M unit :=
  name_element ← Item.call (select_one product_div name_selector);
  match name_element with
  | Some el => t ← Item.call (text el); Item.set_name (strip t)
  | None => mret tt
  end;;
  price_element ← Item.call (select_one product_div price_selector);
  match price_element with
  | Some el =>
      fragments ← Item.call (strings el);
      match price_text_parts fragments with
      | [] => Item.set_price Item.sentinel
      | parts => Item.set_price (join " " parts)
      end
  | None => mret tt
  end.

(** The name the [try] block assigns, when it gets to assign one (lines
    91-93), and likewise the price (lines 98-102). *)
Definition name_read (product_div : Tag) : option string :=
  match select_one product_div name_selector with
  | Ok (Some el) =>
      match text el with Ok t => Some (strip t) | Raise _ => None end
  | _ => None
  end.
Definition price_read (product_div : Tag) : option string :=
  match select_one product_div price_selector with
  | Ok (Some el) =>
      match strings el with
      | Ok fragments =>
          Some (match price_text_parts fragments with
                | [] => Item.sentinel
                | parts => join " " parts
                end)
      | Raise _ => None
      end
  | _ => None
  end.

(** Lines 84-110: the loop over the product nodes of a page. *)
Definition for_product_divs : (nat -> string) -> nat -> list Tag -> list Sqlite.row :=
  Item.for_each try_body.

Record state := {
  all_products_to_insert : list Sqlite.row;
  tick : nat;
  sent : nat
}.

(** Lines 67-116: one base URL. Both handlers log and let the loop go on. *)
Definition for_base_url (now : nat -> string) (net : Requests.network)
    (st : state) (base_url : string) : state :=
  match Requests.fetch retry_strategy net base_url (sent st) with
  | (Ok response, n) =>
      match select (Requests.content response) product_selector with
      | Ok product_divs =>
          {| all_products_to_insert :=
               (all_products_to_insert st
                ++ for_product_divs now (tick st) product_divs)%list;
             tick := tick st + length product_divs;
             sent := n |}
      | Raise _ =>
          {| all_products_to_insert := all_products_to_insert st;
             tick := tick st; sent := n |}
      end
  | (Raise _, n) =>
      {| all_products_to_insert := all_products_to_insert st;
         tick := tick st; sent := n |}
  end.

Definition base_urls : list string :=
  [ "https://www.electromisiones.com.ar/3-materiales_electricos";
    "https://www.electromisiones.com.ar/4-iluminacion?order=product.date_add.desc";
    "https://www.electromisiones.com.ar/11-cables";
    "https://www.electromisiones.com.ar/471-cajas?categoria=derivacion,tapas";
    "https://www.electromisiones.com.ar/34-termicas_y_disyuntores" ].

(** The database calls of [main]. *)
Record faults := {
  connect_fault : option exn;            (* sqlite3.connect *)
  create_table_fault : option exn;       (* CREATE TABLE and its commit *)
  executemany_fault : option (nat * exn);
  commit_fault : option exn              (* the commit of line 123 *)
}.

(** Lines 118-131: the bulk insert and its commit, with the handler that
    rolls back on a [sqlite3.Error]. *)
Definition persist (f : faults) (rows : list Sqlite.row) (c : Sqlite.conn)
    : Sqlite.conn * result unit :=
  match rows with
  | [] => (c, Ok tt)
  | _ =>
      let attempt :=
        match Sqlite.executemany (executemany_fault f) rows c with
        | (c1, Ok _) => Sqlite.commit (commit_fault f) c1
        | (c1, Raise x) => (c1, Raise x)
        end in
      match attempt with
      | (c2, Ok _) => (c2, Ok tt)
      | (c2, Raise x) =>
          match exn_cls x with
          | SqliteError => (Sqlite.rollback c2, Ok tt)
          | _ => (c2, Raise x)
          end
      end
  end.

(** What a run leaves behind: the table, the rows collected, the number of
    requests sent, and the exception the handlers of lines 133-144 logged,
    if any. [main] returns either way. *)
Record outcome := {
  database : Sqlite.conn;
  collected : list Sqlite.row;
  requests_sent : nat;
  logged : option exn
}.

(** [main()] over the base URLs [base_urls], run on the table as [stored]
    on disk. Both handlers roll back; [finally] closes the connection when
    there is one. *)
Definition run (now : nat -> string) (net : Requests.network) (f : faults)
    (base_urls : list string) (stored : list Sqlite.row) : outcome :=
  let db := Sqlite.Conn stored [] in
  match connect_fault f with
  | Some x =>
      {| database := db; collected := []; requests_sent := 0;
         logged := Some x |}
  | None =>
      match create_table_fault f with
      | Some x =>
          {| database := Sqlite.close (Sqlite.rollback db); collected := [];
             requests_sent := 0; logged := Some x |}
      | None =>
          let st := foldl (for_base_url now net)
                      {| all_products_to_insert := []; tick := 0; sent := 0 |}
                      base_urls in
          match persist f (all_products_to_insert st) db with
          | (c, Ok _) =>
              {| database := Sqlite.close c;
                 collected := all_products_to_insert st;
                 requests_sent := sent st; logged := None |}
          | (c, Raise x) =>
              {| database := Sqlite.close (Sqlite.rollback c);
                 collected := all_products_to_insert st;
                 requests_sent := sent st; logged := Some x |}
          end
      end
  end.

Definition main (now : nat -> string) (net : Requests.network) (f : faults)
    (stored : list Sqlite.row) : outcome :=
  run now net f base_urls stored.

End Electromisiones.

(** ** main.py: the orchestrator *)

Module Orchestrator.

Definition scripts : list string :=
  [ "1electropunto.py"; "2casadelaslamparas.py"; "3iluminar.py";
    "4electrolineas.py"; "5electromisiones.py"; "6listas_en_excel.py";
    "7envio_email.py" ].

(** How [subprocess.run(["python", script_path], check=True,
    capture_output=True, text=True, encoding='utf-8')] goes. The call has
    no [timeout]: it waits for the child for as long as the child runs. *)
Inductive launch :=
  | Exited (returncode : nat) (decodes : bool)
      (* the child ended; whether what it wrote decodes as UTF-8 *)
  | FileNotFound                     (* FileNotFoundError *)
  | Failed (msg : string)            (* any other exception *)
  | Hangs.                           (* the child never ends *)


Inductive event :=
  | Succeeded (script : string)                    (* line 32 *)
  | ErrorReturn (script : string) (code : nat)     (* line 39 *)
  | ErrorNotFound (script : string)                (* line 46 *)
  | ErrorUnexpected (script : string)              (* line 49 *)
  | AllSucceeded                                   (* line 54 *)
  | SomeFailed.                                    (* line 57 *)


Record state := {
  overall_success : bool;
  executed : list string;            (* the scripts handed to subprocess.run *)
  log : list (level * event)
}.

(** Lines 26-50: one script; [None] when [subprocess.run] never returns.
    Output that does not decode raises [UnicodeDecodeError] while the
    output is collected, before the return code is looked at, and goes to
    the last handler; with [check=True] a non-zero return code is a
    [CalledProcessError]. *)
Definition for_script (run : string -> launch) (st : state) (script : string)
  : option state :=
  let ran := (executed st ++ [script])%list in
  match run script with
  | Exited _ false =>
      Some {| overall_success := false; executed := ran;
              log := (log st ++ [(ERROR, ErrorUnexpected script)])%list |}
  | Exited 0 true =>
      Some {| overall_success := overall_success st; executed := ran;
              log := (log st ++ [(INFO, Succeeded script)])%list |}
  | Exited code true =>
      Some {| overall_success := false; executed := ran;
              log := (log st ++ [(ERROR, ErrorReturn script code)])%list |}
  | FileNotFound =>
      Some {| overall_success := false; executed := ran;
              log := (log st ++ [(ERROR, ErrorNotFound script)])%list |}
  | Failed _ =>
      Some {| overall_success := false; executed := ran;
              log := (log st ++ [(ERROR, ErrorUnexpected script)])%list |}
  | Hangs => None
  end.

(** Lines 26-50: the loop over the scripts. The result is the state and
    whether the loop came to its end; when it did not, the last script of
    [executed] is the one that never ended. *)
Fixpoint for_scripts (run : string -> launch) (st : state)
    (scripts : list string) : state * bool :=
  match scripts with
  | [] => (st, true)
  | script :: later =>
      match for_script run st script with
      | Some st' => for_scripts run st' later
      | None =>
          ({| overall_success := overall_success st;
              executed := (executed st ++ [script])%list;
              log := log st |}, false)
      end
  end.

(** Lines 21-58: the whole of [main.py]: the exit status, if the script
    ends, and the final state. *)
Definition main (run : string -> launch) (scripts : list string)
  : option nat * state :=
  match for_scripts run
          {| overall_success := true; executed := []; log := [] |} scripts with
  | (st, true) =>
      if overall_success st
      then (Some 0, {| overall_success := true; executed := executed st;
                       log := (log st ++ [(INFO, AllSucceeded)])%list |})
      else (Some 1, {| overall_success := false; executed := executed st;
                       log := (log st ++ [(ERROR, SomeFailed)])%list |})
  | (st, false) => (None, st)
  end.


End Orchestrator.

(** ** [6listas_en_excel.py]: the database exported to a workbook

    A sheet is its title and its rows of cells, top to bottom. Cell values
    are the text of the [TEXT] columns the scrapers create, each shorter
    than the 32767 characters at which openpyxl cuts a text. The column
    widths, which the script computes in floating point and which change
    no cell, are left out. *)

(** What the script uses of openpyxl. *)
Module Openpyxl.

(** [openpyxl.cell.cell.ILLEGAL_CHARACTERS_RE]: the control characters
    other than tab, line feed and carriage return. *)
Definition illegal_character (c : ascii) : bool :=
  let n := nat_of_ascii c in
  ((n <=? 8) || ((11 <=? n) && (n <=? 12)) || ((14 <=? n) && (n <=? 31)))%nat.

(** [Cell.check_string]: a text with an illegal character raises
    [IllegalCharacterError], an [Exception]. *)
Definition check_string (value : string) : result string :=
  if existsb illegal_character (list_ascii_of_string value)
  then Raise (Exn OtherException (value ++ " cannot be used in worksheets."))
  else Ok value.

(** [ws.append(row)]: the cells of a new row below the last one are bound
    left to right; a cell that is refused raises, the cells before it
    staying in the sheet. *)
Fixpoint bind_cells (row : list string) : list string * result unit :=
  match row with
  | [] => ([], Ok tt)
  | value :: later =>
      match check_string value with
      | Ok v =>
          match bind_cells later with
          | (bound, r) => (v :: bound, r)
          end
      | Raise x => ([], Raise x)
      end
  end.
Definition append (row : list string) (cells : list (list string))
    : list (list string) * result unit :=
  match bind_cells row with
  | (bound, Ok _) => ((cells ++ [bound])%list, Ok tt)
  | (bound, Raise x) =>
      (match bound with
       | [] => cells
       | _ => (cells ++ [bound])%list
       end, Raise x)
  end.

(** [ws.cell(row=1, column=1, value=v)]: the top left cell is set, unless
    its text is refused. *)
Definition cell_a1 (v : string) (cells : list (list string))
    : list (list string) * result unit :=
  match check_string v with
  | Ok v =>
      (match cells with
       | [] => [[v]]
       | r :: below => (v :: tail r) :: below
       end, Ok tt)
  | Raise x => (cells, Raise x)
  end.

(** The characters of [openpyxl.workbook.child.INVALID_TITLE_REGEX]. *)
Definition INVALID_TITLE : list ascii :=
  ["\"; "*"; "?"; ":"; "/"; "["; "]"]%char.

(** [avoid_duplicate_name] goes to work when a sheet has the title already,
    ignoring case. *)
Definition taken (sheetnames : list string) (value : string) : bool :=
  existsb (fun n => String.eqb (lower n) (lower value)) sheetnames.

(** [wb.create_sheet(title=value)], the title the new sheet gets: a title
    with a character of [INVALID_TITLE] raises [ValueError]; a title that
    is taken is replaced by what [avoid_duplicate_name] makes of it, which
    [rename] stands for. A title of more than 31 characters draws a
    warning and no more (openpyxl 3). *)
Definition create_sheet (rename : list string -> string -> string)
    (sheetnames : list string) (value : string) : result string :=
  match List.find (fun c => bool_decide (c ∈ INVALID_TITLE))
          (list_ascii_of_string value) with
  | Some c =>
      Raise (Exn OtherException
               ("Invalid character " ++ String c " found in sheet title"))
  | None =>
      Ok (if taken sheetnames value then rename sheetnames value else value)
  end.

End Openpyxl.

Module Excel.

(** A decimal digit, the characters of [str(n)]. *)
Definition is_digit (c : ascii) : Prop :=
  (48 <= nat_of_ascii c <= 57)%nat.

(** [name.replace(char, '_')] for a one-character [char] *)
Fixpoint replace_char (char : ascii) (name : string) : string :=
  match name with
  | String a rest =>
      String (if Ascii.eqb a char then "_"%char else a) (replace_char char rest)
  | EmptyString => EmptyString
  end.

Definition invalid_chars : list ascii :=
  ["["; "]"; "*"; ":"; "?"; "/"; "\"]%char.

(** [for char in invalid_chars: name = name.replace(char, '_')] *)
Definition replace_invalid (name : string) : string :=
  foldl (fun name char => replace_char char name) name invalid_chars.

(** The value of [original_name]: the cleaned name cut to 30 characters,
    or [f"Table_{counter}"] when nothing is left of it. *)
Definition original_name (name : string) (counter : nat) : string :=
  let name := slice_to 30 (replace_invalid name) in
  if truthy name then name else "Table_" ++ str_of_nat counter.

(** [f"{original_name[:28]}_{suffix}"] *)
Definition suffixed (original_name : string) (suffix : nat) : string :=
  slice_to 28 original_name ++ "_" ++ str_of_nat suffix.

(** The [while] loop that ensures uniqueness, on the state
    [(name, suffix)]. *)
Definition ensure_unique (original_name : string)
    (existing_names : gset string) (fuel : nat) (st : string * nat)
    : option (string * nat) :=
  Loop.while
    (fun st : string * nat => bool_decide (st.1 ∈ existing_names))
    (fun st => inl (suffixed original_name st.2, S st.2))
    fuel st.

(** [sanitize_sheet_name(name, existing_names, counter)] *)
Definition sanitize_sheet_name (fuel : nat) (name : string)
    (existing_names : gset string) (counter : nat) : option string :=
  let original_name := original_name name counter in
  fst <$> ensure_unique original_name existing_names fuel (original_name, 1).

(** No character of [invalid_chars] occurs in [s]. *)
Definition valid_chars (s : string) : Prop :=
  forall c, c ∈ invalid_chars -> c ∉ list_ascii_of_string s.

Record sheet := Sheet { title : string; cells : list (list string) }.

(** What [c.execute(f"SELECT * FROM [{t}]")] and [c.fetchall()] give:
    [c.description] as the column names, if any, and the rows. *)
Definition selection : Type := option (list string) * list (list string).

Record env := Env {
  isfile : bool;                          (* os.path.isfile(db_path) *)
  connect : option exn;                   (* sqlite3.connect raising *)
  tablas : result (list string);          (* the names in sqlite_master *)
  select_all : string -> result selection;
  save : option exn;                      (* wb.save raising *)
  (* openpyxl's [avoid_duplicate_name], of the sheet names and a title *)
  avoid_duplicate_name : list string -> string -> string
}.

Definition empty_notice : string := "Table is empty or has no data.".

(** Lines 95-96: [for row_data in rows: ws.append(row_data)] *)
Fixpoint append_all (rows : list (list string)) (ws : list (list string))
    : list (list string) * result unit :=
  match rows with
  | [] => (ws, Ok tt)
  | row_data :: later =>
      match Openpyxl.append row_data ws with
      | (ws', Ok _) => append_all later ws'
      | (ws', Raise x) => (ws', Raise x)
      end
  end.

(** Lines 85-123, the body of the inner [try] once the table is read: the
    cells of the sheet, which was empty, and how the body ends. *)
Definition fill (s : selection) : list (list string) * result unit :=
  let '(description, rows) := s in
  let column_names := default [] description in
  let header :=
    match column_names with
    | [] => ([], Ok tt)
    | _ => Openpyxl.append column_names []
    end in
  match header with
  | (ws, Raise x) => (ws, Raise x)
  | (ws, Ok _) =>
      match rows with
      | _ :: _ => append_all rows ws
      | [] =>
          match column_names with
          | [] => Openpyxl.cell_a1 empty_notice ws
          | _ => (ws, Ok tt)
          end
      end
  end.

(** Lines 126-133, the handler of the inner [try]: a [sqlite3.Error] is
    written to the top left cell, a write that fails being logged and no
    more; any other exception leaves the loop. *)
Definition handle (x : exn) (ws : list (list string))
    : list (list string) * result unit :=
  match exn_cls x with
  | SqliteError =>
      ((Openpyxl.cell_a1 ("Error fetching data: " ++ str_exn x) ws).1, Ok tt)
  | _ => (ws, Raise x)
  end.

(** Lines 80-133, the inner [try] with its handler, on the empty sheet just
    created: the cells of the sheet, and the exception that leaves the
    loop, if one does. *)
Definition try_table (e : env) (nombre_tabla_original : string)
    : list (list string) * result unit :=
  match select_all e nombre_tabla_original with
  | Ok s =>
      match fill s with
      | (ws, Ok _) => (ws, Ok tt)
      | (ws, Raise x) => handle x ws
      end
  | Raise x => handle x []
  end.

Record state := State {
  processed_sheet_names : gset string;
  created : list string;       (* the titles passed to create_sheet, in order *)
  sheets : list sheet          (* the workbook, in sheet order *)
}.

(** [for i, tabla_row in enumerate(tablas)], from index [i] on. The result
    is the workbook and the exception that ended the loop, if one did;
    [None] when a call of [sanitize_sheet_name] ran out of fuel. *)
Fixpoint for_tablas (fuel : nat) (e : env) (i : nat) (tablas : list string)
    (st : state) : option (state * option exn) :=
  match tablas with
  | [] => Some (st, None)
  | nombre_tabla_original :: later =>
      safe_sheet_name ←
        sanitize_sheet_name fuel nombre_tabla_original
          (processed_sheet_names st) i;
      let processed := {[safe_sheet_name]} ∪ processed_sheet_names st in
      let asked := (created st ++ [safe_sheet_name])%list in
      match Openpyxl.create_sheet (avoid_duplicate_name e)
              (title <$> sheets st) safe_sheet_name with
      | Raise x =>
          Some ({| processed_sheet_names := processed; created := asked;
                   sheets := sheets st |}, Some x)
      | Ok ws_title =>
          match try_table e nombre_tabla_original with
          | (cells, Ok _) =>
              for_tablas fuel e (S i) later
                {| processed_sheet_names := processed; created := asked;
                   sheets := (sheets st ++ [Sheet ws_title cells])%list |}
          | (cells, Raise x) =>
              Some ({| processed_sheet_names := processed; created := asked;
                       sheets := (sheets st ++ [Sheet ws_title cells])%list |},
                    Some x)
          end
      end
  end.

Record outcome := Outcome {
  exit_status : nat;          (* 1: [sys.exit(1)] was called; 0: main returned *)
  asked : list string;        (* the values of [safe_sheet_name], line 78 *)
  workbook : list sheet;                  (* [wb] when the script ends *)
  saved : bool;                           (* [wb.save] returned *)
  closed : bool                           (* [conn.close()] was called *)
}.

(** Lines 136-138: a workbook without sheets gets one. *)
Definition default_sheet (e : env) (sheets : list sheet) : list sheet :=
  match sheets with
  | [] =>
      match Openpyxl.create_sheet (avoid_duplicate_name e) [] "DefaultSheet" with
      | Ok ws_title => [Sheet ws_title []]
      | Raise _ => []
      end
  | _ => sheets
  end.

(** [main()] *)
Definition main (fuel : nat) (e : env) : option outcome :=
  if negb (isfile e) then Some (Outcome 1 [] [] false false)
  else
    match connect e with
    | Some _ => Some (Outcome 1 [] [] false false)
    | None =>
        match tablas e with
        | Raise _ => Some (Outcome 1 [] [] false true)
        | Ok tablas =>
            '(st, escaped) ← for_tablas fuel e 0 tablas (State ∅ [] []);
            match escaped with
            | Some _ => Some (Outcome 1 (created st) (sheets st) false true)
            | None =>
                Some (Outcome 0 (created st) (default_sheet e (sheets st))
                        (bool_decide (save e = None)) true)
            end
        end
    end.

(** The names in [processed_sheet_names] are the titles asked for, no two
    of them are the same, and none has an invalid character. *)
Definition consistent (st : state) : Prop :=
  processed_sheet_names st = list_to_set (created st) /\
  NoDup (created st) /\
  Forall valid_chars (created st).


(** Every cell of the header and of the rows is one openpyxl takes. *)
Definition writable (s : selection) : Prop :=
  Forall (fun v => Openpyxl.check_string v = Ok v) (default [] s.1)
  /\ Forall (Forall (fun v => Openpyxl.check_string v = Ok v)) s.2.

(** The table is read and written, or the failure is one the inner handler
    takes. *)
Definition readable (e : env) (t : string) : Prop :=
  match select_all e t with
  | Ok s => writable s
  | Raise x => exn_cls x = SqliteError
  end.

End Excel.

(** ** Pages to run the scripts on *)

Module Fixture.

(** An element given by the table of what its selectors match, its text
    fragments and its attributes; it answers no [find] query. *)
Definition element (matches : gmap string (list Tag)) (fragments : list string)
    (attributes : gmap string string) : Tag :=
  {| select := fun css => Ok (default [] (matches !! css));
     find_all := fun _ _ => Ok [];
     find_next_sibling := fun _ _ => Ok None;
     find_string := fun _ => Ok None;
     strings := Ok fragments;
     attrs := attributes |}.

(** An element that holds text only. *)
Definition text_element (fragments : list string) : Tag :=
  element ∅ fragments ∅.


(** A page that holds the strings [found] and the matches of [matches]. *)
Definition page (matches : gmap string (list Tag)) (found : list string) : Tag :=
  {| select := fun css => Ok (default [] (matches !! css));
     find_all := fun _ _ => Ok [];
     find_next_sibling := fun _ _ => Ok None;
     find_string := fun s => Ok (if bool_decide (s ∈ found) then Some s else None);
     strings := Ok found;
     attrs := ∅ |}.

(** The clock of a run within one day. *)
Definition today : nat -> string := fun _ => "03/11/2026".
(** The clock of a run one day later. *)
Definition tomorrow : nat -> string := fun _ => "04/11/2026".

(** *** A listing of iluminar.ar: three products, the second without a price *)

(** The [bdi] element of a WooCommerce price,
    [<bdi><span class='woocommerce-Price-currencySymbol'>$</span>1.500,00</bdi>]:
    two text fragments. *)
Definition bdi (amount : string) : Tag := text_element ["$"; amount].

(** A product at its regular price:
    [<div class='product-small col has-hover product'>
       <p class='name product-title woocommerce-loop-product__title'>
         <a>  Lampara LED 9W </a></p>
       <div class='price-wrapper'><span class='price'>
         <span class='woocommerce-Price-amount amount'><bdi>...</bdi></span>
       </span></div></div>].
    The table holds the selectors of the script that match in it. *)
Definition lamp : Tag :=
  element
    {[ Iluminar.name_selector := [text_element ["  Lampara LED 9W "]];
       "div.price-wrapper span.price span.woocommerce-Price-amount.amount bdi" :=
         [bdi "1.500,00"];
       "div.price-wrapper span.price bdi" := [bdi "1.500,00"];
       "div.price-wrapper bdi" := [bdi "1.500,00"];
       "span.woocommerce-Price-amount.amount bdi" := [bdi "1.500,00"] ]}
    [] ∅.

(** A product with a name and no price wrapper. *)
Definition unpriced : Tag :=
  element {[ Iluminar.name_selector := [text_element ["Cable 2x1.5"]] ]} [] ∅.

(** A product on sale: inside [span.price], the old price in a [del] and
    then the new one in an [ins]. Only the first selector, which asks for
    the [ins], finds the new price first. *)
Definition on_sale : Tag :=
  element
    {[ Iluminar.name_selector := [text_element ["Tomacorriente"]];
       "div.price-wrapper span.price ins span.woocommerce-Price-amount.amount bdi" :=
         [bdi "900,00"];
       "div.price-wrapper span.price span.woocommerce-Price-amount.amount bdi" :=
         [bdi "1.200,00"; bdi "900,00"];
       "div.price-wrapper span.price bdi" := [bdi "1.200,00"; bdi "900,00"];
       "div.price-wrapper bdi" := [bdi "1.200,00"; bdi "900,00"];
       "span.woocommerce-Price-amount.amount bdi" := [bdi "1.200,00"; bdi "900,00"] ]}
    [] ∅.

Definition listing : Tag :=
  page {[ Iluminar.product_selector := [lamp; unpriced; on_sale] ]} [].

(** What bs4 raises on markup nested too deep for it ([RecursionError]); the
    message has more than 50 characters. *)
Definition recursion_error : exn :=
  Exn OtherException "maximum recursion depth exceeded while calling a Python object".

(** An element nested so deep that reading its text raises. *)
Definition deep : Tag :=
  {| select := fun _ => Ok [];
     find_all := fun _ _ => Ok [];
     find_next_sibling := fun _ _ => Ok None;
     find_string := fun _ => Ok None;
     strings := Raise recursion_error;
     attrs := ∅ |}.

(** A product whose name can be read and whose price element cannot: the
    selector [name_css] finds the name, [price_css] the price element. *)
Definition half_broken (name_css price_css : string) : Tag :=
  element {[ name_css := [text_element ["Zapatilla 4 tomas"]];
             price_css := [deep] ]} [] ∅.

(** *** A product of electromisiones.com.ar: the price in three fragments *)

(** [<article>... <a>Termica 2x20A</a> ...
       <span class='price'><span> $</span>  <span>2.300,00 </span></span>
     </article>] *)
Definition breaker : Tag :=
  element
    {[ Electromisiones.name_selector := [text_element ["Termica 2x20A"]];
       Electromisiones.price_selector := [text_element [" $"; "  "; "2.300,00 "]] ]}
    [] ∅.

(** *** A listing of electropunto.com.ar *)









(** *** iluminar.ar in the browser *)

Definition electricidad : string := "https://iluminar.ar/product-category/electricidad/".

(** A page with one product and, beside it, the notice of an empty result. *)
Definition listing_with_notice : Tag :=
  page {[ Iluminar.product_selector := [lamp];
          "p.woocommerce-info" :=
            [text_element ["No products were found matching your selection."]] ]}
       [].

(** A page with no product and the notice of an empty result. *)
Definition empty_with_notice : Tag :=
  page {[ "p.woocommerce-info" :=
            [text_element ["No products were found matching your selection."]] ]}
       [].

(** A page with neither products nor notice. *)
Definition blank : Tag := page ∅ [].

(** The page of a URL that does not exist. *)
Definition missing : Tag := page ∅ [Iluminar.not_found_marker].

(** A browser over a site: the pages it has; loading any other URL times out. *)
Definition browse (pages : gmap string Tag) : string -> result Tag :=
  fun url =>
    match pages !! url with
    | Some p => Ok p
    | None => Raise (Exn TimeoutException "timed out")
    end.

Definition iluminar_env (pages : gmap string Tag)
    (executemany_fault : option (nat * exn)) : Iluminar.env :=
  {| Iluminar.now := today;
     Iluminar.connect_fault := None;
     Iluminar.create_table_fault := None;
     Iluminar.init_webdriver_fault := None;
     Iluminar.open_base := browse pages;
     Iluminar.open_page := browse pages;
     Iluminar.executemany_fault := executemany_fault;
     Iluminar.commit_fault := None |}.

(** Pages 2 and 3 list products; page 4 lists one product beside the
    notice; page 5 does not exist. *)
Definition site_with_noticed_products : gmap string Tag :=
  {[ electricidad := listing;
     Iluminar.page_url electricidad 2 := listing;
     Iluminar.page_url electricidad 3 := listing;
     Iluminar.page_url electricidad 4 := listing_with_notice;
     Iluminar.page_url electricidad 5 := missing ]}.

(** Pages 2 and 3 list products; page 4 is empty but for the notice; page 5
    lists products again. *)
Definition site_with_empty_page : gmap string Tag :=
  {[ electricidad := listing;
     Iluminar.page_url electricidad 2 := listing;
     Iluminar.page_url electricidad 3 := listing;
     Iluminar.page_url electricidad 4 := empty_with_notice;
     Iluminar.page_url electricidad 5 := listing ]}.

(** Every page lists products, whatever its number. *)
Definition endless : Iluminar.env :=
  {| Iluminar.now := today;
     Iluminar.connect_fault := None;
     Iluminar.create_table_fault := None;
     Iluminar.init_webdriver_fault := None;
     Iluminar.open_base := fun _ => Ok listing;
     Iluminar.open_page := fun _ => Ok listing;
     Iluminar.executemany_fault := None;
     Iluminar.commit_fault := None |}.

Definition start : Iluminar.probe_state :=
  {| Iluminar.current_url_products := [];
     Iluminar.requested := [];
     Iluminar.tick := 0 |}.

(** The bulk insert of 3iluminar.py fails on its second row. *)
Definition locked : option (nat * exn) :=
  Some (1, Exn SqliteError "database is locked").

(** The scripts as processes: 2casadelaslamparas.py goes as [casa] says,
    every other script ends with status 0 and output that decodes. *)
Definition processes (casa : Orchestrator.launch)
    : string -> Orchestrator.launch :=
  fun script =>
    if bool_decide (script = "2casadelaslamparas.py")
    then casa
    else Orchestrator.Exited 0 true.

(** A run of the pipeline in which 2casadelaslamparas.py writes bytes that
    are not UTF-8 and the interpreter cannot open the last script (status
    2); every other child ends cleanly. *)
Definition mishaps : string -> Orchestrator.launch :=
  fun script =>
    if bool_decide (script = "7envio_email.py")
    then Orchestrator.Exited 2 true
    else processes (Orchestrator.Exited 0 false) script.

(** *** A category of electrolineas.com.ar with three pages *)

Definition cables : string :=
  "https://electrolineas.com.ar/categoria-producto/cables-categorias/?v=c838c18b91bc".



(** A server that answers every request with one status. *)
Definition always (status : nat) (retry_after : bool) : Requests.network :=
  fun _ _ => Requests.Responds (Requests.Response status retry_after blank).

(** A server that answers every request with a redirect to the address
    that was asked for. *)
Definition moved : Requests.network :=
  fun _ url => Requests.Responds (Requests.Answer 302 false (Some url) blank).

(** *** A page that grows whenever it is scrolled *)

Definition growing : page_dynamics :=
  {| scroll_height := fun scrolls => (Z.of_nat scrolls * 800)%Z;
     ready_timeout := fun _ => false |}.

(** A page of a fixed height. *)
Definition still : page_dynamics :=
  {| scroll_height := fun _ => 2400%Z;
     ready_timeout := fun _ => false |}.


(** A page whose lazy loader adds products twice and then stops. *)
Definition lazy : page_dynamics :=
  {| scroll_height := fun scrolls => (Z.of_nat (Nat.min scrolls 2) * 800 + 2400)%Z;
     ready_timeout := fun scrolls => (scrolls =? 1)%nat |}.

(** *** A listing of lacasadelaslamparas.com.ar *)

(** An element given by what its [find] queries match, by tag name and
    class, and by its text fragments. *)
Definition node (children : gmap (string * string) (list Tag))
    (fragments : list string) : Tag :=
  {| select := fun _ => Ok [];
     find_all := fun name cls => Ok (default [] (children !! (name, cls)));
     find_next_sibling := fun _ _ => Ok None;
     find_string := fun _ => Ok None;
     strings := Ok fragments;
     attrs := ∅ |}.

(** [<div class='item-description py-4 px-1'><a>
       <div class='js-item-name item-name mb-3'> name </div>
       <div class='item-price-container mb-1'>
         <span class='js-price-display item-price'> price </span></div>
     </a></div>] *)
Definition casa_item (name price : string) : Tag :=
  node {[ ("a", "") :=
            [node {[ ("div", "js-item-name item-name mb-3") :=
                       [text_element [name]];
                     ("div", "item-price-container mb-1") :=
                       [node {[ ("span", "js-price-display item-price") :=
                                  [text_element [price]] ]} []] ]} []] ]} [].

(** A product node that is not a link: [<div class='item-description py-4
    px-1'>Consultar</div>]. *)
Definition casa_unlinked : Tag := node ∅ ["Consultar"].

(** A product node whose name is nested too deep for bs4. *)
Definition casa_deep : Tag :=
  node {[ ("a", "") :=
            [node {[ ("div", "js-item-name item-name mb-3") := [deep] ]} []] ]} [].

Definition casa_listing : Tag :=
  node {[ ("div", "item-description py-4 px-1") :=
            [casa_item " Colgante Oslo " " $45.000 "; casa_deep; casa_unlinked] ]}
       [].

(** The site with the listing above behind a lazy loader; [locked] says
    whether the bulk insert hits a locked database. *)
Definition casa_env (locked : bool) : Casa.env :=
  {| Casa.now := today;
     Casa.connect_fault := None;
     Casa.create_table_fault := None;
     Casa.init_webdriver_fault := None;
     Casa.get_fault := fun _ => None;
     Casa.dynamics := fun _ => lazy;
     Casa.page_source := fun _ => casa_listing;
     Casa.executemany_fault := fun _ =>
       if locked then Some (1%nat, Exn SqliteError "database is locked")
       else None;
     Casa.commit_fault := fun _ => None |}.

(** The database of 5electromisiones.py at its best. *)
Definition electromisiones_ok : Electromisiones.faults :=
  {| Electromisiones.connect_fault := None;
     Electromisiones.create_table_fault := None;
     Electromisiones.executemany_fault := None;
     Electromisiones.commit_fault := None |}.

(** *** The database the scrapers leave behind *)

Definition columns : list string := ["Fecha"; "Descripcion"; "Precio"].

(** A renaming that numbers a title: what [avoid_duplicate_name] does with
    a title that only one sheet has. *)
Definition numbered : list string -> string -> string :=
  fun _ value => value ++ "1".

(** A database file with the tables of two scrapers, one of them still
    without rows. *)
Definition database : Excel.env :=
  {| Excel.isfile := true;
     Excel.connect := None;
     Excel.tablas := Ok ["electropunto"; "iluminar"];
     Excel.select_all := fun t =>
       if String.eqb t "iluminar"
       then Ok (Some columns, [["03/11/2026"; "Lampara LED 9W"; "$1.500,00"]])
       else Ok (Some columns, []);
     Excel.save := None;
     Excel.avoid_duplicate_name := numbered |}.

(** The workbook of [database]. *)
Definition exported : Excel.outcome :=
  {| Excel.exit_status := 0;
     Excel.asked := ["electropunto"; "iluminar"];
     Excel.workbook :=
       [Excel.Sheet "electropunto" [columns];
        Excel.Sheet "iluminar"
          [columns; ["03/11/2026"; "Lampara LED 9W"; "$1.500,00"]]];
     Excel.saved := true;
     Excel.closed := true |}.

(** The same file while another process holds a lock on one table. *)
Definition database_locked : Excel.env :=
  {| Excel.isfile := true;
     Excel.connect := None;
     Excel.tablas := Ok ["electropunto"; "iluminar"];
     Excel.select_all := fun t =>
       if String.eqb t "iluminar"
       then Raise (Exn SqliteError "database is locked")
       else Ok (Some columns, []);
     Excel.save := None;
     Excel.avoid_duplicate_name := numbered |}.

(** The same file when reading one table fails with a message that holds a
    control character. *)
Definition database_garbled : Excel.env :=
  {| Excel.isfile := true;
     Excel.connect := None;
     Excel.tablas := Ok ["electropunto"; "iluminar"];
     Excel.select_all := fun t =>
       if String.eqb t "iluminar"
       then Raise (Exn SqliteError
                     (String (ascii_of_nat 1) " is not a column"))
       else Ok (Some columns, []);
     Excel.save := None;
     Excel.avoid_duplicate_name := numbered |}.

(** A database whose two tables differ in case only, the second holding a
    product name with a form feed in it. *)
Definition database_odd : Excel.env :=
  {| Excel.isfile := true;
     Excel.connect := None;
     Excel.tablas := Ok ["Precios"; "precios"];
     Excel.select_all := fun t =>
       if String.eqb t "precios"
       then Ok (Some columns,
                [["03/11/2026"; String (ascii_of_nat 12) "Lampara"; "$ 10"]])
       else Ok (Some columns, []);
     Excel.save := None;
     Excel.avoid_duplicate_name := numbered |}.

End Fixture.

(** * Properties *)

(** ** Strings *)

Lemma slice_to_length n s : (String.length (slice_to n s) ≤ n)%nat.
Proof.
  revert s. induction n as [|n IH]; intros [|c s]; simpl; try lia.
  specialize (IH s). lia.
Qed.

Lemma slice_to_prefix n s : String.prefix (slice_to n s) s = true.
Proof.
  revert s. induction n as [|n IH]; intros [|c s]; simpl; try done.
  destruct (ascii_dec c c); [apply IH | done].
Qed.

(** ** One record per product node *)







(** ** What the [try] block leaves in its locals *)

Ltac run_item :=
  unfold mbind, Item.M_bind, mret, Item.M_ret, Item.call, Item.set_name,
    Item.set_price; simpl.

Lemma iluminar_name_so_far d :
  Item.product_name (Iluminar.try_body d Item.init).1
  = default Item.sentinel (Iluminar.name_read d).
Proof.
  unfold Iluminar.try_body, Iluminar.name_read. run_item.
  repeat (case_match; simplify_eq/=); done.
Qed.

Lemma electrolineas_name_so_far d :
  Item.product_name (Electrolineas.try_body d Item.init).1
  = default Item.sentinel (Electrolineas.name_read d).
Proof.
  unfold Electrolineas.try_body, Electrolineas.name_read. run_item.
  repeat (case_match; simplify_eq/=); done.
Qed.

Lemma electromisiones_name_so_far d :
  Item.product_name (Electromisiones.try_body d Item.init).1
  = default Item.sentinel (Electromisiones.name_read d).
Proof.
  unfold Electromisiones.try_body, Electromisiones.name_read. run_item.
  repeat (case_match; simplify_eq/=); done.
Qed.

Lemma iluminar_price_when_ok d :
  (Iluminar.try_body d Item.init).2 = Ok tt →
  Item.product_price (Iluminar.try_body d Item.init).1
  = default Item.sentinel (Iluminar.price_read d).
Proof.
  unfold Iluminar.try_body, Iluminar.price_read. run_item.
  repeat (case_match; simplify_eq/=); done.
Qed.

Lemma electrolineas_price_when_ok d :
  (Electrolineas.try_body d Item.init).2 = Ok tt →
  Item.product_price (Electrolineas.try_body d Item.init).1
  = default Item.sentinel (Electrolineas.price_read d).
Proof.
  unfold Electrolineas.try_body, Electrolineas.price_read. run_item.
  repeat (case_match; simplify_eq/=); done.
Qed.

Lemma electromisiones_price_when_ok d :
  (Electromisiones.try_body d Item.init).2 = Ok tt →
  Item.product_price (Electromisiones.try_body d Item.init).1
  = default Item.sentinel (Electromisiones.price_read d).
Proof.
  unfold Electromisiones.try_body, Electromisiones.price_read.
  unfold mbind, Item.M_bind, mret, Item.M_ret, Item.call, Item.set_name,
    Item.set_price.
  destruct (select_one d Electromisiones.name_selector) as [[el|]|x]; cbn -[strip];
    [destruct (text el); cbn -[strip] | |];
    try (intros; discriminate);
    (destruct (select_one d Electromisiones.price_selector) as [[pe|]|y]; cbn;
     [destruct (strings pe) as [fragments|z]; cbn;
      [destruct (Electromisiones.price_text_parts fragments); cbn; done
      | intros; discriminate]
     | done | intros; discriminate]).
Qed.

(** The record at a position is the record of the node at that position,
    dated by the reading of the clock its iteration made. *)
Lemma for_each_lookup body now divs : ∀ t i,
  Item.for_each body now t divs !! i
  = (fun d => Item.guarded (now (t + i)) (body d)) <$> divs !! i.
Proof.
  induction divs as [|d ds IH]; intros t [|i]; simpl; try done.
  - by rewrite Nat.add_0_r.
  - rewrite IH. by replace (S t + i) with (t + S i) by lia.
Qed.

Lemma guarded_raise fecha body l e :
  body Item.init = (l, Raise e) →
  Item.guarded fecha body
  = (fecha, Item.error_marker ++ Item.product_name l, slice_to 50 (str_exn e)).
Proof. unfold Item.guarded. by intros ->. Qed.

Lemma guarded_ok fecha body l u :
  body Item.init = (l, Ok u) →
  Item.guarded fecha body = (fecha, Item.product_name l, Item.product_price l).
Proof. unfold Item.guarded. by intros ->. Qed.

(** ** The shape of an error-tagged record *)

(** C10: in 3iluminar.py, 4electrolineas.py and 5electromisiones.py, the
    record of a product node whose extraction raises [e] is made of the date
    read for the node, the text "Error en parseo - " followed by the name
    extracted before the exception (the placeholder "No disponible" when
    none was), and the first 50 characters of the message of [e], which are
    at most 50. *)
Theorem C10_error_record_shape :
  (∀ now t divs i d l e,
     divs !! i = Some d →
     Iluminar.try_body d Item.init = (l, Raise e) →
     Iluminar.for_product_divs now t divs !! i
     = Some (now (t + i),
             "Error en parseo - " ++ default "No disponible" (Iluminar.name_read d),
             slice_to 50 (str_exn e)))
  ∧ (∀ now t divs i d l e,
     divs !! i = Some d →
     Electrolineas.try_body d Item.init = (l, Raise e) →
     Electrolineas.for_product_divs now t divs !! i
     = Some (now (t + i),
             "Error en parseo - " ++ default "No disponible" (Electrolineas.name_read d),
             slice_to 50 (str_exn e)))
  ∧ (∀ now t divs i d l e,
     divs !! i = Some d →
     Electromisiones.try_body d Item.init = (l, Raise e) →
     Electromisiones.for_product_divs now t divs !! i
     = Some (now (t + i),
             "Error en parseo - " ++ default "No disponible" (Electromisiones.name_read d),
             slice_to 50 (str_exn e)))
  ∧ (∀ e : exn,
     (String.length (slice_to 50 (str_exn e)) ≤ 50)%nat
     ∧ String.prefix (slice_to 50 (str_exn e)) (str_exn e) = true).
Proof.
  split_and!.
  - intros now t divs i d l e Hd Hraise.
    unfold Iluminar.for_product_divs. rewrite for_each_lookup, Hd. simpl.
    rewrite (guarded_raise _ _ l e Hraise).
    by rewrite <-iluminar_name_so_far, Hraise.
  - intros now t divs i d l e Hd Hraise.
    unfold Electrolineas.for_product_divs. rewrite for_each_lookup, Hd. simpl.
    rewrite (guarded_raise _ _ l e Hraise).
    by rewrite <-electrolineas_name_so_far, Hraise.
  - intros now t divs i d l e Hd Hraise.
    unfold Electromisiones.for_product_divs. rewrite for_each_lookup, Hd. simpl.
    rewrite (guarded_raise _ _ l e Hraise).
    by rewrite <-electromisiones_name_so_far, Hraise.
  - intros e. split; [apply slice_to_length | apply slice_to_prefix].
Qed.

(** C10 at work: in each script, a node whose name is read and whose price
    element then raises on its text. *)
Lemma C10_error_record_shape_witness :
  Iluminar.for_product_divs Fixture.today 0
    [Fixture.lamp;
     Fixture.half_broken Iluminar.name_selector "div.price-wrapper bdi"] !! 1
  = Some ("03/11/2026", "Error en parseo - Zapatilla 4 tomas",
          "maximum recursion depth exceeded while calling a P")
  ∧ Electrolineas.for_product_divs Fixture.today 0
      [Fixture.half_broken ".wd-entities-title a"
         "span.price span.woocommerce-Price-amount.amount bdi"] !! 0
    = Some ("03/11/2026", "Error en parseo - Zapatilla 4 tomas",
            "maximum recursion depth exceeded while calling a P")
  ∧ Electromisiones.for_product_divs Fixture.today 0
      [Fixture.half_broken Electromisiones.name_selector
         Electromisiones.price_selector] !! 0
    = Some ("03/11/2026", "Error en parseo - Zapatilla 4 tomas",
            "maximum recursion depth exceeded while calling a P").
Proof.
  destruct C10_error_record_shape as (H3 & H4 & H5 & _).
  split_and!.
  - exact (H3 Fixture.today 0
             [Fixture.lamp;
              Fixture.half_broken Iluminar.name_selector "div.price-wrapper bdi"] 1
             (Fixture.half_broken Iluminar.name_selector "div.price-wrapper bdi")
             (Item.Locals "Zapatilla 4 tomas" "No disponible")
             Fixture.recursion_error eq_refl eq_refl).
  - exact (H4 Fixture.today 0
             [Fixture.half_broken ".wd-entities-title a"
                "span.price span.woocommerce-Price-amount.amount bdi"] 0
             (Fixture.half_broken ".wd-entities-title a"
                "span.price span.woocommerce-Price-amount.amount bdi")
             (Item.Locals "Zapatilla 4 tomas" "No disponible")
             Fixture.recursion_error eq_refl eq_refl).
  - exact (H5 Fixture.today 0
             [Fixture.half_broken Electromisiones.name_selector
                Electromisiones.price_selector] 0
             (Fixture.half_broken Electromisiones.name_selector
                Electromisiones.price_selector)
             (Item.Locals "Zapatilla 4 tomas" "No disponible")
             Fixture.recursion_error eq_refl eq_refl).
Defined.

(** ** Two runs on the same page *)

Lemma guarded_what f1 f2 body :
  Sqlite.descripcion (Item.guarded f1 body) = Sqlite.descripcion (Item.guarded f2 body)
  ∧ Sqlite.precio (Item.guarded f1 body) = Sqlite.precio (Item.guarded f2 body)
  ∧ Sqlite.fecha (Item.guarded f1 body) = f1.
Proof. unfold Item.guarded. by destruct (body Item.init) as [l [u|e]]. Qed.

Lemma for_each_what body now1 now2 divs : ∀ t1 t2,
  (fun r => (Sqlite.descripcion r, Sqlite.precio r)) <$> Item.for_each body now1 t1 divs
  = (fun r => (Sqlite.descripcion r, Sqlite.precio r)) <$> Item.for_each body now2 t2 divs.
Proof.
  induction divs as [|d ds IH]; intros t1 t2; [done|].
  cbn [Item.for_each]. rewrite !fmap_cons, (IH (S t1) (S t2)).
  destruct (guarded_what (now1 t1) (now2 t2) (body d)) as (-> & -> & _). done.
Qed.

Lemma for_each_fecha body now divs : ∀ t,
  Sqlite.fecha <$> Item.for_each body now t divs = now <$> seq t (length divs).
Proof.
  induction divs as [|d ds IH]; intros t; [done|].
  cbn [Item.for_each length seq]. rewrite !fmap_cons, (IH (S t)).
  by destruct (guarded_what (now t) (now t) (body d)) as (_ & _ & ->).
Qed.

Lemma for_each_same body now1 now2 divs : ∀ t1 t2,
  Item.for_each body now1 t1 divs = Item.for_each body now2 t2 divs
  ↔ now1 <$> seq t1 (length divs) = now2 <$> seq t2 (length divs).
Proof.
  induction divs as [|d ds IH]; intros t1 t2; [done|].
  cbn [Item.for_each length seq]. rewrite !fmap_cons. split.
  - intros Heq. injection Heq as Hhead Htail. f_equal; [|by apply IH].
    destruct (guarded_what (now1 t1) (now1 t1) (body d)) as (_ & _ & <-).
    destruct (guarded_what (now2 t2) (now2 t2) (body d)) as (_ & _ & <-).
    by rewrite Hhead.
  - intros Heq. injection Heq as Hhead Htail. rewrite Hhead. f_equal. by apply IH.
Qed.

(** C9, as stated, fails: the same page of 3iluminar.py, extracted on two
    days, gives records that differ in the capture date. *)
Lemma C9_capture_date_differs :
  Iluminar.process_products_from_soup Fixture.listing Fixture.today 0
  = Ok [("03/11/2026", "Lampara LED 9W", "$1.500,00");
        ("03/11/2026", "Cable 2x1.5", "No disponible");
        ("03/11/2026", "Tomacorriente", "$900,00")]
  ∧ Iluminar.process_products_from_soup Fixture.listing Fixture.tomorrow 0
    = Ok [("04/11/2026", "Lampara LED 9W", "$1.500,00");
          ("04/11/2026", "Cable 2x1.5", "No disponible");
          ("04/11/2026", "Tomacorriente", "$900,00")]
  ∧ Iluminar.process_products_from_soup Fixture.listing Fixture.today 0
    ≠ Iluminar.process_products_from_soup Fixture.listing Fixture.tomorrow 0.
Proof. split_and!; [by vm_compute | by vm_compute | vm_compute; congruence]. Qed.

(** C9, amended: two extractions of the same page with the same selectors
    give records with the same descriptions and prices in the same order,
    whatever the clocks of the two runs; the capture date of a record is
    what the clock answered when its node was processed, so the two record
    lists are the same exactly when the two runs read the same dates. *)
Theorem C9_same_page_same_records :
  (∀ soup now1 now2 t1 t2,
     fmap (M := list) (fun r => (Sqlite.descripcion r, Sqlite.precio r))
       <$> Iluminar.process_products_from_soup soup now1 t1
     = fmap (M := list) (fun r => (Sqlite.descripcion r, Sqlite.precio r))
       <$> Iluminar.process_products_from_soup soup now2 t2)
  ∧ (∀ soup now t,
     fmap (M := list) Sqlite.fecha <$> Iluminar.process_products_from_soup soup now t
     = (fun divs => now <$> seq t (length divs)) <$> select soup Iluminar.product_selector)
  ∧ (∀ now1 now2 t1 t2 divs,
     Iluminar.for_product_divs now1 t1 divs = Iluminar.for_product_divs now2 t2 divs
     ↔ now1 <$> seq t1 (length divs) = now2 <$> seq t2 (length divs))
  ∧ (∀ now1 now2 t1 t2 divs,
     Electromisiones.for_product_divs now1 t1 divs
     = Electromisiones.for_product_divs now2 t2 divs
     ↔ now1 <$> seq t1 (length divs) = now2 <$> seq t2 (length divs))
  ∧ (∀ now1 now2 t1 t2 divs,
     (fun r => (Sqlite.descripcion r, Sqlite.precio r))
       <$> Electromisiones.for_product_divs now1 t1 divs
     = (fun r => (Sqlite.descripcion r, Sqlite.precio r))
       <$> Electromisiones.for_product_divs now2 t2 divs)
  ∧ (∀ now t divs,
     Sqlite.fecha <$> Electromisiones.for_product_divs now t divs
     = now <$> seq t (length divs))
  ∧ (∀ now1 now2 t1 t2 divs,
     (fun r => (Sqlite.descripcion r, Sqlite.precio r))
       <$> Electrolineas.for_product_divs now1 t1 divs
     = (fun r => (Sqlite.descripcion r, Sqlite.precio r))
       <$> Electrolineas.for_product_divs now2 t2 divs)
  ∧ (∀ now t divs,
     Sqlite.fecha <$> Electrolineas.for_product_divs now t divs
     = now <$> seq t (length divs)).
Proof.
  split_and!.
  - intros soup now1 now2 t1 t2. unfold Iluminar.process_products_from_soup.
    destruct (select soup Iluminar.product_selector) as [divs|x]; simpl; [|done].
    f_equal. apply for_each_what.
  - intros soup now t. unfold Iluminar.process_products_from_soup.
    destruct (select soup Iluminar.product_selector) as [divs|x]; simpl; [|done].
    f_equal. apply for_each_fecha.
  - intros. apply for_each_same.
  - intros. apply for_each_same.
  - intros. apply for_each_what.
  - intros. apply for_each_fecha.
  - intros. apply for_each_what.
  - intros. apply for_each_fecha.
Qed.

(** ** The price of a product *)

Lemma first_match_wins div pre sel post el :
  Forall (fun s => select_one div s = Ok None) pre →
  select_one div sel = Ok (Some el) →
  Item.first_match div (pre ++ sel :: post) = Ok (Some el).
Proof.
  intros Hpre Hsel. induction Hpre as [|s pre Hs _ IH]; simpl.
  - by rewrite Hsel.
  - by rewrite Hs.
Qed.

Lemma first_match_none div sels :
  Forall (fun s => select_one div s = Ok None) sels →
  Item.first_match div sels = Ok None.
Proof. induction 1 as [|s sels Hs _ IH]; simpl; [done | by rewrite Hs]. Qed.

Lemma iluminar_clean_record fecha d :
  (Iluminar.try_body d Item.init).2 = Ok tt →
  Item.guarded fecha (Iluminar.try_body d)
  = (fecha, default Item.sentinel (Iluminar.name_read d),
            default Item.sentinel (Iluminar.price_read d)).
Proof.
  intros Hok. rewrite <-iluminar_name_so_far, <-(iluminar_price_when_ok d Hok).
  destruct (Iluminar.try_body d Item.init) as [l r] eqn:Hrun.
  simpl in Hok. subst r. by rewrite (guarded_ok fecha _ l tt Hrun).
Qed.

Lemma electromisiones_clean_record fecha d :
  (Electromisiones.try_body d Item.init).2 = Ok tt →
  Item.guarded fecha (Electromisiones.try_body d)
  = (fecha, default Item.sentinel (Electromisiones.name_read d),
            default Item.sentinel (Electromisiones.price_read d)).
Proof.
  intros Hok.
  rewrite <-electromisiones_name_so_far, <-(electromisiones_price_when_ok d Hok).
  destruct (Electromisiones.try_body d Item.init) as [l r] eqn:Hrun.
  simpl in Hok. subst r. by rewrite (guarded_ok fecha _ l tt Hrun).
Qed.

Lemma iluminar_price_matched d el fragments :
  Item.first_match d Iluminar.price_selectors = Ok (Some el) →
  strings el = Ok fragments →
  Iluminar.price_read d = Some (strip (join "" fragments)).
Proof. unfold Iluminar.price_read, text. by intros -> ->. Qed.

Lemma iluminar_price_unmatched d :
  Forall (fun s => select_one d s = Ok None) Iluminar.price_selectors →
  Iluminar.price_read d = None.
Proof. unfold Iluminar.price_read. by intros ->%first_match_none. Qed.

(** C7, as stated, fails on 3iluminar.py: the two text fragments of the
    matched price element end up side by side, with no space between. *)
Lemma C7_fragments_joined_without_space :
  (∃ el, Item.first_match Fixture.lamp Iluminar.price_selectors = Ok (Some el)
         ∧ strings el = Ok ["$"; "1.500,00"])
  ∧ Iluminar.for_product_divs Fixture.today 0 [Fixture.lamp]
    = [("03/11/2026", "Lampara LED 9W", "$1.500,00")]
  ∧ join " " ["$"; "1.500,00"] = "$ 1.500,00".
Proof.
  split_and!; [|by vm_compute..].
  eexists. split; [vm_compute; reflexivity | reflexivity].
Qed.

(** C7, amended. For a product node whose [try] block raises nothing:
    the price selectors of 3iluminar.py are tried in the order of the list
    and the first one that matches gives the price element; the price is
    the text of that element, its fragments put together with nothing
    between them, stripped; 5electromisiones.py asks for one element with
    one selector group and joins the stripped non-blank fragments with
    single spaces, falling back to "No disponible" when there is none;
    when no selector matches the price is "No disponible" and the node
    still has its record. On a page of 3iluminar.py with three nodes of
    which only the second has no price element, the three prices are the
    stripped text of the first element, "No disponible", and the stripped
    text of the third element. *)
Theorem C7_price_of_a_product :
  (∀ div pre sel post el,
     Forall (fun s => select_one div s = Ok None) pre →
     select_one div sel = Ok (Some el) →
     Item.first_match div (pre ++ sel :: post) = Ok (Some el))
  ∧ (∀ fecha d el fragments,
     (Iluminar.try_body d Item.init).2 = Ok tt →
     Item.first_match d Iluminar.price_selectors = Ok (Some el) →
     strings el = Ok fragments →
     Sqlite.precio (Item.guarded fecha (Iluminar.try_body d))
     = strip (join "" fragments))
  ∧ (∀ fecha d,
     (Iluminar.try_body d Item.init).2 = Ok tt →
     Forall (fun s => select_one d s = Ok None) Iluminar.price_selectors →
     Sqlite.precio (Item.guarded fecha (Iluminar.try_body d)) = "No disponible")
  ∧ (∀ fecha d el fragments,
     (Electromisiones.try_body d Item.init).2 = Ok tt →
     select_one d Electromisiones.price_selector = Ok (Some el) →
     strings el = Ok fragments →
     Sqlite.precio (Item.guarded fecha (Electromisiones.try_body d))
     = match Electromisiones.price_text_parts fragments with
       | [] => "No disponible"
       | parts => join " " parts
       end)
  ∧ (∀ fecha d,
     (Electromisiones.try_body d Item.init).2 = Ok tt →
     select_one d Electromisiones.price_selector = Ok None →
     Sqlite.precio (Item.guarded fecha (Electromisiones.try_body d)) = "No disponible")
  ∧ (∀ now t d1 d2 d3 e1 e3 f1 f3,
     (Iluminar.try_body d1 Item.init).2 = Ok tt →
     (Iluminar.try_body d2 Item.init).2 = Ok tt →
     (Iluminar.try_body d3 Item.init).2 = Ok tt →
     Item.first_match d1 Iluminar.price_selectors = Ok (Some e1) →
     strings e1 = Ok f1 →
     Forall (fun s => select_one d2 s = Ok None) Iluminar.price_selectors →
     Item.first_match d3 Iluminar.price_selectors = Ok (Some e3) →
     strings e3 = Ok f3 →
     Sqlite.precio <$> Iluminar.for_product_divs now t [d1; d2; d3]
     = [strip (join "" f1); "No disponible"; strip (join "" f3)]).
Proof.
  split_and!.
  - apply first_match_wins.
  - intros fecha d el fragments Hok Hm Hs.
    rewrite (iluminar_clean_record fecha d Hok).
    by rewrite (iluminar_price_matched d el fragments Hm Hs).
  - intros fecha d Hok Hnone.
    rewrite (iluminar_clean_record fecha d Hok).
    by rewrite (iluminar_price_unmatched d Hnone).
  - intros fecha d el fragments Hok Hm Hs.
    rewrite (electromisiones_clean_record fecha d Hok).
    unfold Electromisiones.price_read. by rewrite Hm, Hs.
  - intros fecha d Hok Hm.
    rewrite (electromisiones_clean_record fecha d Hok).
    unfold Electromisiones.price_read. by rewrite Hm.
  - intros now t d1 d2 d3 e1 e3 f1 f3 Hok1 Hok2 Hok3 Hm1 Hs1 Hnone Hm3 Hs3.
    unfold Iluminar.for_product_divs. cbn [Item.for_each].
    rewrite !fmap_cons, fmap_nil.
    rewrite (iluminar_clean_record _ d1 Hok1), (iluminar_clean_record _ d2 Hok2),
      (iluminar_clean_record _ d3 Hok3).
    rewrite (iluminar_price_matched d1 e1 f1 Hm1 Hs1),
      (iluminar_price_unmatched d2 Hnone),
      (iluminar_price_matched d3 e3 f3 Hm3 Hs3).
    done.
Qed.

(** C7 at work: the listing of three products of which the second has no
    price element, its products one by one, and a product of
    electromisiones.com.ar whose price comes in three fragments. *)
Lemma C7_price_of_a_product_witness :
  Item.first_match Fixture.lamp Iluminar.price_selectors
  = Ok (Some (Fixture.bdi "1.500,00"))
  ∧ Sqlite.precio (Item.guarded "03/11/2026" (Iluminar.try_body Fixture.lamp))
    = "$1.500,00"
  ∧ Sqlite.precio (Item.guarded "03/11/2026" (Iluminar.try_body Fixture.unpriced))
    = "No disponible"
  ∧ Sqlite.precio (Item.guarded "03/11/2026" (Electromisiones.try_body Fixture.breaker))
    = "$ 2.300,00"
  ∧ Sqlite.precio (Item.guarded "03/11/2026" (Electromisiones.try_body Fixture.unpriced))
    = "No disponible"
  ∧ Sqlite.precio <$> Iluminar.for_product_divs Fixture.today 0
                        [Fixture.lamp; Fixture.unpriced; Fixture.on_sale]
    = ["$1.500,00"; "No disponible"; "$900,00"].
Proof.
  destruct C7_price_of_a_product as (Horder & H3 & H3none & H5 & H5none & Hpage).
  split_and!.
  - exact (Horder Fixture.lamp
             ["div.price-wrapper span.price ins span.woocommerce-Price-amount.amount bdi"]
             "div.price-wrapper span.price span.woocommerce-Price-amount.amount bdi"
             ["div.price-wrapper span.price bdi"; "div.price-wrapper bdi";
              "span.woocommerce-Price-amount.amount bdi"]
             (Fixture.bdi "1.500,00")
             ltac:(repeat constructor) eq_refl).
  - exact (H3 "03/11/2026" Fixture.lamp (Fixture.bdi "1.500,00")
             ["$"; "1.500,00"] eq_refl eq_refl eq_refl).
  - exact (H3none "03/11/2026" Fixture.unpriced eq_refl ltac:(repeat constructor)).
  - exact (H5 "03/11/2026" Fixture.breaker
             (Fixture.text_element [" $"; "  "; "2.300,00 "])
             [" $"; "  "; "2.300,00 "] eq_refl eq_refl eq_refl).
  - exact (H5none "03/11/2026" Fixture.unpriced eq_refl eq_refl).
  - exact (Hpage Fixture.today 0 Fixture.lamp Fixture.unpriced Fixture.on_sale
             (Fixture.bdi "1.500,00")
             (Fixture.bdi "900,00")
             ["$"; "1.500,00"] ["$"; "900,00"]
             eq_refl eq_refl eq_refl eq_refl eq_refl
             ltac:(repeat constructor) eq_refl eq_refl).
Defined.

(** ** Probing the pages of a base URL *)

Lemma probe_requested e base_url pages : ∀ st,
  ∃ k, Iluminar.requested (Iluminar.probe e base_url pages st)
       = (Iluminar.requested st ++ take k pages)%list.
Proof.
  induction pages as [|n pages IH]; intros st; simpl.
  - exists 0. by rewrite app_nil_r.
  - destruct (Iluminar.visit e base_url n (Iluminar.tick st)) as [[products|]|x].
    + destruct (IH {| Iluminar.current_url_products :=
                        (Iluminar.current_url_products st ++ products)%list;
                      Iluminar.requested := (Iluminar.requested st ++ [n])%list;
                      Iluminar.tick := Iluminar.tick st + length products |})
        as [k Hk].
      exists (S k). rewrite Hk. simpl. by rewrite <-app_assoc.
    + by exists 1.
    + by exists 1.
Qed.

Lemma additional_pages_length :
  length Iluminar.additional_pages = Iluminar.MAX_PAGE_CHECK - 1.
Proof. reflexivity. Qed.

Lemma probe_from_scratch e base_url products t :
  let p := Iluminar.probe e base_url Iluminar.additional_pages
             {| Iluminar.current_url_products := products;
                Iluminar.requested := [];
                Iluminar.tick := t |} in
  (length (Iluminar.requested p) ≤ Iluminar.MAX_PAGE_CHECK)%nat
  ∧ Iluminar.requested p `prefix_of` Iluminar.additional_pages.
Proof.
  intros p. subst p.
  pose proof additional_pages_length as Hlen.
  generalize dependent Iluminar.additional_pages. intros pages Hlen.
  destruct (probe_requested e base_url pages
    {| Iluminar.current_url_products := products;
       Iluminar.requested := []; Iluminar.tick := t |}) as [k ->].
  cbn [Iluminar.requested app]. split.
  - rewrite length_take, Hlen. unfold Iluminar.MAX_PAGE_CHECK. lia.
  - exists (drop k pages). by rewrite take_drop.
Qed.

Lemma crawl_visited (P : string * list nat → Prop) e :
  (∀ base_url products t,
     P (base_url,
        Iluminar.requested
          (Iluminar.probe e base_url Iluminar.additional_pages
             {| Iluminar.current_url_products := products;
                Iluminar.requested := [];
                Iluminar.tick := t |}))) →
  ∀ urls st, Forall P (Iluminar.visited st) →
             Forall P (Iluminar.visited (Iluminar.crawl e urls st)).
Proof.
  intros HP urls. induction urls as [|u urls IH]; intros st Hst;
    cbn [Iluminar.crawl]; [done|].
  destruct (Iluminar.first_page e u (Iluminar.clock st)) as [products|]; [|by apply IH].
  apply IH. cbn [Iluminar.visited]. apply Forall_app. split; [done|].
  constructor; [apply HP | done].
Qed.

Lemma main_crawled e stored :
  Iluminar.crawled (Iluminar.main e stored) = []
  ∨ Iluminar.crawled (Iluminar.main e stored)
    = Iluminar.visited
        (Iluminar.crawl e Iluminar.base_urls
           {| Iluminar.all_products_globally := [];
              Iluminar.visited := []; Iluminar.clock := 0 |}).
Proof.
  unfold Iluminar.main, Iluminar.try_block.
  destruct (Iluminar.connect_fault e); [by left|].
  destruct (Iluminar.create_table_fault e); [by left|].
  destruct (Iluminar.init_webdriver_fault e); [by left|].
  destruct (Iluminar.persist e _ _) as [c [u|x]]; right; done.
Qed.

(** C2: whatever the pages hold, the loop over the additional pages of a
    base URL asks the browser for at most [MAX_PAGE_CHECK] = 100 pages
    before it ends, and so does every base URL of a whole run; the pages
    asked for are the first ones of 2, 3, ..., 100. *)
Theorem C2_probe_stops_within_ceiling :
  (∀ e base_url st,
     (length (Iluminar.requested
                (Iluminar.probe e base_url Iluminar.additional_pages st))
      ≤ length (Iluminar.requested st) + Iluminar.MAX_PAGE_CHECK)%nat)
  ∧ (∀ e stored,
     Forall (fun v : string * list nat =>
               (length v.2 ≤ Iluminar.MAX_PAGE_CHECK)%nat
               ∧ v.2 `prefix_of` Iluminar.additional_pages)
            (Iluminar.crawled (Iluminar.main e stored))).
Proof.
  split.
  - intros e base_url st.
    pose proof additional_pages_length as Hlen.
    generalize dependent Iluminar.additional_pages. intros pages Hlen.
    destruct (probe_requested e base_url pages st) as [k ->].
    rewrite length_app, length_take, Hlen.
    unfold Iluminar.MAX_PAGE_CHECK. lia.
  - intros e stored.
    destruct (main_crawled e stored) as [-> | ->]; [done|].
    apply crawl_visited; [|done].
    intros base_url products t. apply probe_from_scratch.
Qed.

(** The ceiling is reached: on a site where every page lists products the
    loop asks for all of the pages 2..100, and for no more. *)
Example probe_runs_to_the_ceiling :
  Iluminar.requested
    (Iluminar.probe Fixture.endless Fixture.electricidad
       Iluminar.additional_pages Fixture.start)
  = seq 2 99.
Proof. by vm_compute. Qed.

(** ** When probing stops *)

Lemma check_page_missing soup n now t :
  Iluminar.page_not_found soup = Ok true →
  Iluminar.check_page soup n now t = Ok Iluminar.Break.
Proof. unfold Iluminar.check_page. by intros ->. Qed.

Lemma check_page_products soup n now t r rs :
  Iluminar.page_not_found soup = Ok false →
  Iluminar.process_products_from_soup soup now t = Ok (r :: rs) →
  Iluminar.check_page soup n now t = Ok (Iluminar.Continue (r :: rs)).
Proof. unfold Iluminar.check_page. by intros -> ->. Qed.

Lemma check_page_notice soup n now t :
  Iluminar.page_not_found soup = Ok false →
  Iluminar.process_products_from_soup soup now t = Ok [] →
  Iluminar.explicit_notice soup = Ok true →
  Iluminar.check_page soup n now t = Ok Iluminar.Break.
Proof. unfold Iluminar.check_page. by intros -> -> ->. Qed.

Lemma check_page_heuristic soup n now t :
  Iluminar.page_not_found soup = Ok false →
  Iluminar.process_products_from_soup soup now t = Ok [] →
  Iluminar.explicit_notice soup = Ok false →
  Iluminar.check_page soup n now t
  = Ok (if (5 <? n)%nat then Iluminar.Break else Iluminar.Continue []).
Proof. unfold Iluminar.check_page. intros -> -> ->. simpl. by destruct (5 <? n)%nat. Qed.

Lemma probe_continue e base_url n pages kept asked t products :
  Iluminar.visit e base_url n t = Ok (Iluminar.Continue products) →
  Iluminar.probe e base_url (n :: pages)
    {| Iluminar.current_url_products := kept;
       Iluminar.requested := asked; Iluminar.tick := t |}
  = Iluminar.probe e base_url pages
      {| Iluminar.current_url_products := (kept ++ products)%list;
         Iluminar.requested := (asked ++ [n])%list;
         Iluminar.tick := t + length products |}.
Proof. cbn [Iluminar.probe Iluminar.tick]. by intros ->. Qed.

Lemma probe_break e base_url n pages kept asked t :
  Iluminar.visit e base_url n t = Ok Iluminar.Break →
  Iluminar.probe e base_url (n :: pages)
    {| Iluminar.current_url_products := kept;
       Iluminar.requested := asked; Iluminar.tick := t |}
  = {| Iluminar.current_url_products := kept;
       Iluminar.requested := (asked ++ [n])%list;
       Iluminar.tick := t |}.
Proof. cbn [Iluminar.probe Iluminar.tick]. by intros ->. Qed.

Lemma additional_pages_from_2 : Iluminar.additional_pages = 2 :: 3 :: 4 :: seq 5 96.
Proof. reflexivity. Qed.

(** C5, as stated, fails: page 4 shows the notice of an empty result beside
    a product; the page is accepted, its product collected, and page 5 is
    asked for. *)
Lemma C5_notice_beside_products :
  Iluminar.explicit_notice Fixture.listing_with_notice = Ok true
  ∧ Iluminar.requested
      (Iluminar.probe (Fixture.iluminar_env Fixture.site_with_noticed_products None)
         Fixture.electricidad Iluminar.additional_pages Fixture.start)
    = [2; 3; 4; 5]
  ∧ length (Iluminar.current_url_products
      (Iluminar.probe (Fixture.iluminar_env Fixture.site_with_noticed_products None)
         Fixture.electricidad Iluminar.additional_pages Fixture.start))
    = 7.
Proof. split_and!; by vm_compute. Qed.

(** C5, amended. For every probed page the conditions apply in this
    order: the page-not-found marker stops the probing and the page is
    dropped; otherwise, a page with detected products is accepted, whether
    or not it shows a notice; otherwise (no product detected) the notice of
    an empty result stops the probing; otherwise the probing stops when the
    page number exceeds 5 and goes on when it does not. When pages 2 and 3
    are accepted and page 4 stops the probing, as it does when it has no
    product and shows the notice, the pages asked for are 2, 3 and 4, page 5
    is never asked for, and the products kept are those of pages 2 and 3. *)
Theorem C5_stop_conditions :
  (∀ soup n now t,
     Iluminar.page_not_found soup = Ok true →
     Iluminar.check_page soup n now t = Ok Iluminar.Break)
  ∧ (∀ soup n now t r rs,
     Iluminar.page_not_found soup = Ok false →
     Iluminar.process_products_from_soup soup now t = Ok (r :: rs) →
     Iluminar.check_page soup n now t = Ok (Iluminar.Continue (r :: rs)))
  ∧ (∀ soup n now t,
     Iluminar.page_not_found soup = Ok false →
     Iluminar.process_products_from_soup soup now t = Ok [] →
     Iluminar.explicit_notice soup = Ok true →
     Iluminar.check_page soup n now t = Ok Iluminar.Break)
  ∧ (∀ soup n now t,
     Iluminar.page_not_found soup = Ok false →
     Iluminar.process_products_from_soup soup now t = Ok [] →
     Iluminar.explicit_notice soup = Ok false →
     Iluminar.check_page soup n now t
     = Ok (if (5 <? n)%nat then Iluminar.Break else Iluminar.Continue []))
  ∧ (∀ e base_url st p2 p3,
     Iluminar.visit e base_url 2 (Iluminar.tick st) = Ok (Iluminar.Continue p2) →
     Iluminar.visit e base_url 3 (Iluminar.tick st + length p2)
       = Ok (Iluminar.Continue p3) →
     Iluminar.visit e base_url 4 (Iluminar.tick st + length p2 + length p3)
       = Ok Iluminar.Break →
     Iluminar.probe e base_url Iluminar.additional_pages st
     = {| Iluminar.current_url_products :=
            (Iluminar.current_url_products st ++ p2 ++ p3)%list;
          Iluminar.requested := (Iluminar.requested st ++ [2; 3; 4])%list;
          Iluminar.tick := Iluminar.tick st + length p2 + length p3 |}).
Proof.
  split_and!.
  - apply check_page_missing.
  - apply check_page_products.
  - apply check_page_notice.
  - apply check_page_heuristic.
  - intros e base_url [kept asked t] p2 p3 H2 H3 H4.
    cbn [Iluminar.current_url_products Iluminar.requested Iluminar.tick] in *.
    rewrite additional_pages_from_2.
    rewrite (probe_continue _ _ _ _ _ _ _ p2 H2).
    rewrite (probe_continue _ _ _ _ _ _ _ p3 H3).
    rewrite (probe_break _ _ _ _ _ _ _ H4).
    by rewrite <-!app_assoc.
Qed.

(** C5 at work: a page that does not exist; a page with a product beside
    the notice; a page with no product and the notice; a blank page, as
    page 3 and as page 6; and a site where pages 2 and 3 list products,
    page 4 is empty and shows the notice, and page 5, which lists products
    again, is never asked for. *)
Lemma C5_stop_conditions_witness :
  Iluminar.check_page Fixture.missing 2 Fixture.today 0 = Ok Iluminar.Break
  ∧ Iluminar.check_page Fixture.listing_with_notice 4 Fixture.today 6
    = Ok (Iluminar.Continue [("03/11/2026", "Lampara LED 9W", "$1.500,00")])
  ∧ Iluminar.check_page Fixture.empty_with_notice 4 Fixture.today 6 = Ok Iluminar.Break
  ∧ Iluminar.check_page Fixture.blank 3 Fixture.today 0 = Ok (Iluminar.Continue [])
  ∧ Iluminar.check_page Fixture.blank 6 Fixture.today 0 = Ok Iluminar.Break
  ∧ Iluminar.requested
      (Iluminar.probe (Fixture.iluminar_env Fixture.site_with_empty_page None)
         Fixture.electricidad Iluminar.additional_pages Fixture.start)
    = [2; 3; 4]
  ∧ 5 ∉ Iluminar.requested
      (Iluminar.probe (Fixture.iluminar_env Fixture.site_with_empty_page None)
         Fixture.electricidad Iluminar.additional_pages Fixture.start).
Proof.
  destruct C5_stop_conditions as (Hmissing & Hproducts & Hnotice & Hheuristic & Hprobe).
  pose proof (Hprobe (Fixture.iluminar_env Fixture.site_with_empty_page None)
                Fixture.electricidad Fixture.start
                (Iluminar.for_product_divs Fixture.today 0
                   [Fixture.lamp; Fixture.unpriced; Fixture.on_sale])
                (Iluminar.for_product_divs Fixture.today 3
                   [Fixture.lamp; Fixture.unpriced; Fixture.on_sale])
                ltac:(by vm_compute) ltac:(by vm_compute) ltac:(by vm_compute))
    as Hrun.
  split_and!.
  - exact (Hmissing Fixture.missing 2 Fixture.today 0 ltac:(by vm_compute)).
  - exact (Hproducts Fixture.listing_with_notice 4 Fixture.today 6
             ("03/11/2026", "Lampara LED 9W", "$1.500,00") []
             ltac:(by vm_compute) ltac:(by vm_compute)).
  - exact (Hnotice Fixture.empty_with_notice 4 Fixture.today 6
             ltac:(by vm_compute) ltac:(by vm_compute) ltac:(by vm_compute)).
  - exact (Hheuristic Fixture.blank 3 Fixture.today 0
             ltac:(by vm_compute) ltac:(by vm_compute) ltac:(by vm_compute)).
  - exact (Hheuristic Fixture.blank 6 Fixture.today 0
             ltac:(by vm_compute) ltac:(by vm_compute) ltac:(by vm_compute)).
  - rewrite Hrun. reflexivity.
  - rewrite Hrun. cbn [Iluminar.requested Fixture.start app]. intros Hin.
    repeat (apply elem_of_cons in Hin as [Hin|Hin]; [discriminate|]).
    by apply elem_of_nil in Hin.
Defined.

(** ** A failed bulk insert, and what the orchestrator is told *)















(** ** Retries of the static fetch *)

Lemma urlopen_sent policy net url : ∀ remaining n,
  (n < (Requests.urlopen policy remaining net url n).2 ≤ n + remaining + 1)%nat.
Proof.
  induction remaining as [|remaining IH]; intros n; simpl.
  - destruct (net n url) as [r|msg]; [destruct (Requests.is_retry _ _ _)|];
      simpl; lia.
  - destruct (net n url) as [r|msg]; [destruct (Requests.is_retry _ _ _)|];
      simpl; try lia; specialize (IH (S n)); lia.
Qed.

Lemma resolve_redirects_sent policy net : ∀ hops url n,
  (n < (Requests.resolve_redirects policy hops net url n).2
   ≤ n + S hops * (Requests.total policy + 1))%nat.
Proof.
  induction hops as [|hops IH]; intros url n; cbn [Requests.resolve_redirects];
    pose proof (urlopen_sent policy net url (Requests.total policy) n) as H;
    destruct (Requests.urlopen _ _ _ _ _) as [[r|x] n']; simpl in H;
    try (simpl; lia);
    (destruct (Requests.redirect_target r) as [target|]; [|simpl; lia]).
  - simpl. lia.
  - specialize (IH target n').
    replace (S (S hops) * (Requests.total policy + 1))%nat
      with (Requests.total policy + 1 + S hops * (Requests.total policy + 1))%nat
      by (simpl; lia).
    lia.
Qed.

Lemma resolve_redirects_final policy hops net url n r n' :
  Requests.urlopen policy (Requests.total policy) net url n = (Ok r, n') →
  Requests.redirect_target r = None →
  Requests.resolve_redirects policy hops net url n = (Ok r, n').
Proof. intros Hr Hnone. destruct hops; simpl; by rewrite Hr, Hnone. Qed.

Lemma resolve_redirects_raise policy hops net url n x n' :
  Requests.urlopen policy (Requests.total policy) net url n = (Raise x, n') →
  Requests.resolve_redirects policy hops net url n = (Raise x, n').
Proof. intros Hr. destruct hops; simpl; by rewrite Hr. Qed.


Lemma fetch_sent policy net url n :
  (n < (Requests.fetch policy net url n).2
   ≤ n + 31 * (Requests.total policy + 1))%nat.
Proof.
  unfold Requests.fetch, Requests.get, Requests.DEFAULT_REDIRECT_LIMIT.
  pose proof (resolve_redirects_sent policy net 30 url n) as H.
  destruct (Requests.resolve_redirects _ _ _ _ _) as [[r|x] n']; simpl in *;
    [|done].
  by destruct (Requests.raise_for_status r).
Qed.













(** ** The pages of a base URL *)












(** ** The scroll loops *)

(** On a page that grows at every scroll the loop of 2casadelaslamparas.py
    never leaves its body: whatever the fuel, it is still running. *)
Lemma casa_scroll_growing fuel : ∀ st,
  Casa.last_height st = scroll_height Fixture.growing (Casa.scrolls st) →
  Loop.while Casa.scroll_cond (Casa.scroll_body Fixture.growing) fuel st = None.
Proof.
  induction fuel as [|fuel IH]; intros st Hlast; [done|].
  cbn [Loop.while Casa.scroll_cond]. unfold Casa.scroll_body.
  destruct (Z.eqb_spec (scroll_height Fixture.growing (S (Casa.scrolls st)))
              (Casa.last_height st)) as [Heq|Hne].
  - rewrite Hlast in Heq. simpl in Heq. lia.
  - apply IH. reflexivity.
Qed.

(** C3 on 2casadelaslamparas.py: the page grows by 800 pixels at every
    scroll; the loop of lines 61-78 has no bound on its attempts and is
    still running after any number of iterations. *)
Theorem C3_casa_scroll_loop_unbounded :
  ∀ fuel, Casa.scroll_loop fuel Fixture.growing = None.
Proof. intros fuel. unfold Casa.scroll_loop. by apply casa_scroll_growing. Qed.

(** The loop of 2casadelaslamparas.py ends at the first height read twice
    in a row. *)
Example casa_scroll_still :
  Casa.scroll_loop 2 Fixture.still
  = Some {| Casa.last_height := 2400; Casa.scrolls := 1;
            Casa.log := [(INFO, Casa.ReachedEnd)] |}.
Proof. reflexivity. Qed.

(** The loop of [scroll_page_fully] never logs the warning of line 131. *)
Lemma iluminar_scroll_body_quiet page st n :
  (WARNING, Iluminar.ExceededAttempts n) ∉ Iluminar.log st →
  (WARNING, Iluminar.ExceededAttempts n)
  ∉ Iluminar.log (match Iluminar.scroll_body page st with inl s | inr s => s end).
Proof.
  intros Hquiet. unfold Iluminar.scroll_body.
  destruct (ready_timeout page _), (Z.eqb _ _); try destruct (Nat.leb _ _);
    cbn [Iluminar.log];
    rewrite ?elem_of_app, ?elem_of_cons, ?elem_of_nil; intuition congruence.
Qed.

Lemma iluminar_scroll_loop_quiet page n fuel : ∀ st st',
  Loop.while Iluminar.scroll_cond (Iluminar.scroll_body page) fuel st = Some st' →
  (WARNING, Iluminar.ExceededAttempts n) ∉ Iluminar.log st →
  (WARNING, Iluminar.ExceededAttempts n) ∉ Iluminar.log st'.
Proof.
  induction fuel as [|fuel IH]; intros st st' Hrun Hquiet; [done|].
  cbn [Loop.while] in Hrun.
  destruct (Iluminar.scroll_cond st); [|by simplify_eq].
  pose proof (iluminar_scroll_body_quiet page st n Hquiet) as Hbody.
  destruct (Iluminar.scroll_body page st) as [s|s]; [by eapply IH | by simplify_eq].
Qed.

(** The invariant of the loop of [scroll_page_fully]: with enough fuel for
    the attempts that are left, the loop ends, within the bound. *)
Lemma iluminar_scroll_loop page fuel : ∀ st,
  (Iluminar.scroll_attempts st ≤ Iluminar.MAX_SCROLL_ATTEMPTS)%nat →
  (Iluminar.MAX_SCROLL_ATTEMPTS - Iluminar.scroll_attempts st < fuel)%nat →
  ∃ st',
    Loop.while Iluminar.scroll_cond (Iluminar.scroll_body page) fuel st = Some st'
    ∧ (Iluminar.scroll_attempts st' ≤ Iluminar.MAX_SCROLL_ATTEMPTS)%nat
    ∧ (Iluminar.scrolls st' - Iluminar.scrolls st
       ≤ Iluminar.MAX_SCROLL_ATTEMPTS - Iluminar.scroll_attempts st)%nat
    ∧ (Iluminar.scroll_attempts st' = Iluminar.MAX_SCROLL_ATTEMPTS
       ∨ (scroll_height page (Iluminar.scrolls st') = Iluminar.last_height st'
          ∧ (2 ≤ Iluminar.consecutive_no_change st')%nat)).
Proof.
  unfold Iluminar.MAX_SCROLL_ATTEMPTS.
  induction fuel as [|fuel IH]; intros st Hle Hfuel; [lia|].
  cbn [Loop.while]. unfold Iluminar.scroll_cond, Iluminar.MAX_SCROLL_ATTEMPTS.
  destruct (Nat.ltb_spec (Iluminar.scroll_attempts st) 15) as [Hlt|Hge].
  - unfold Iluminar.scroll_body.
    destruct (Z.eqb_spec (scroll_height page (S (Iluminar.scrolls st)))
                (Iluminar.last_height st)) as [Heq|Hne].
    + destruct (Nat.leb_spec 2 (S (Iluminar.consecutive_no_change st))) as [Hcnt|Hcnt].
      * eexists. split; [reflexivity|]. simpl. split_and!; [lia | lia |].
        right. split; [done | lia].
      * edestruct IH as (st' & -> & H1 & H2 & H3); [| |exists st'; split; [done|]];
          simpl in *; [lia | lia |]. split_and!; [done | lia | done].
    + edestruct IH as (st' & -> & H1 & H2 & H3); [| |exists st'; split; [done|]];
        simpl in *; [lia | lia |]. split_and!; [done | lia | done].
  - exists st. split; [done|]. split_and!; [lia | lia | left; lia].
Qed.

(** [scroll_page_fully] of 3iluminar.py returns for every page once the
    fuel exceeds 15: it has sent at most 15 scroll commands, and it has
    logged the warning of line 131 exactly when all 15 attempts were used. *)
Lemma iluminar_scroll_page_fully_returns page fuel :
  (Iluminar.MAX_SCROLL_ATTEMPTS < fuel)%nat →
  ∃ st,
    Iluminar.scroll_page_fully fuel page = Some st
    ∧ (Iluminar.scroll_attempts st ≤ Iluminar.MAX_SCROLL_ATTEMPTS)%nat
    ∧ (Iluminar.scrolls st ≤ Iluminar.MAX_SCROLL_ATTEMPTS)%nat
    ∧ ((WARNING, Iluminar.ExceededAttempts Iluminar.MAX_SCROLL_ATTEMPTS) ∈ Iluminar.log st
       ↔ Iluminar.scroll_attempts st = Iluminar.MAX_SCROLL_ATTEMPTS).
Proof.
  intros Hfuel. unfold Iluminar.scroll_page_fully.
  destruct (iluminar_scroll_loop page fuel
    {| Iluminar.last_height := scroll_height page 0;
       Iluminar.scroll_attempts := 0;
       Iluminar.consecutive_no_change := 0;
       Iluminar.scrolls := 0;
       Iluminar.log := [] |}) as (st & Hrun & Hatt & Hscr & _);
    [unfold Iluminar.MAX_SCROLL_ATTEMPTS in *; simpl; lia..|].
  pose proof (iluminar_scroll_loop_quiet page Iluminar.MAX_SCROLL_ATTEMPTS
                fuel _ st Hrun) as Hquiet.
  rewrite Hrun. simpl in Hscr, Hquiet.
  exists (Iluminar.scroll_epilogue st). split; [done|].
  unfold Iluminar.scroll_epilogue, Iluminar.MAX_SCROLL_ATTEMPTS in *.
  destruct (Nat.leb_spec 15 (Iluminar.scroll_attempts st))
    as [Hfull|Hnot]; simpl.
  - assert (Iluminar.scroll_attempts st = 15) as Heq by lia.
    split_and!; [lia | lia |]. split; [done|]. intros _.
    rewrite Heq. apply elem_of_app. right. apply elem_of_cons. by left.
  - split_and!; [lia | lia |]. split; [|lia].
    intros Hin. exfalso. revert Hin. apply Hquiet. apply not_elem_of_nil.
Qed.

(** [scroll_page_fully] at work: on the page that grows at every scroll it
    gives up after 15 attempts and logs the warning. *)
Lemma iluminar_scroll_page_fully_returns_witness :
  ∃ st,
    Iluminar.scroll_page_fully 16 Fixture.growing = Some st
    ∧ (Iluminar.scroll_attempts st ≤ Iluminar.MAX_SCROLL_ATTEMPTS)%nat
    ∧ (Iluminar.scrolls st ≤ Iluminar.MAX_SCROLL_ATTEMPTS)%nat
    ∧ ((WARNING, Iluminar.ExceededAttempts Iluminar.MAX_SCROLL_ATTEMPTS) ∈ Iluminar.log st
       ↔ Iluminar.scroll_attempts st = Iluminar.MAX_SCROLL_ATTEMPTS).
Proof.
  apply (iluminar_scroll_page_fully_returns Fixture.growing 16).
  unfold Iluminar.MAX_SCROLL_ATTEMPTS. lia.
Defined.

(** On a page of a fixed height [scroll_page_fully] stops at the second
    reading in a row that shows no change, after two scroll commands. *)
Example iluminar_scroll_still :
  Iluminar.scroll_page_fully 16 Fixture.still
  = Some {| Iluminar.last_height := 2400;
            Iluminar.scroll_attempts := 1;
            Iluminar.consecutive_no_change := 2;
            Iluminar.scrolls := 2;
            Iluminar.log := [(INFO, Iluminar.Scrolled 2400 2);
                             (INFO, Iluminar.Stabilized 2400 2)] |}.
Proof. reflexivity. Qed.

(** ** The workbook of [6listas_en_excel.py] *)

Lemma while_more_fuel {S : Type} (cond : S -> bool) (body : S -> S + S)
    (fuel extra : nat) (s r : S) :
  Loop.while cond body fuel s = Some r ->
  Loop.while cond body (fuel + extra) s = Some r.
Proof.
  revert s. induction fuel as [|fuel IH]; intros s; simpl; [done|].
  destruct (cond s); [|done]. destruct (body s); [apply IH|done].
Qed.

Lemma to_uint_not_nil (n : nat) : Nat.to_uint n <> Decimal.Nil.
Proof.
  intros H. pose proof (Unsigned.of_to n) as E. rewrite H in E.
  simpl in E. subst n. discriminate H.
Qed.

Lemma str_of_nat_inj (n m : nat) : str_of_nat n = str_of_nat m -> n = m.
Proof.
  unfold str_of_nat. intros H.
  apply Unsigned.to_uint_inj.
  pose proof (NilZero.usu _ (to_uint_not_nil n)) as Hn.
  pose proof (NilZero.usu _ (to_uint_not_nil m)) as Hm.
  rewrite H in Hn. congruence.
Qed.

Lemma str_of_nat_digits (n : nat) :
  Forall Excel.is_digit (list_ascii_of_string (str_of_nat n)).
Proof.
  unfold str_of_nat.
  assert (forall d, Forall Excel.is_digit
            (list_ascii_of_string (NilEmpty.string_of_uint d))) as H.
  { induction d; simpl; [by apply Forall_nil|apply Forall_cons; split; [unfold Excel.is_digit; vm_compute; lia|done]..]. }
  unfold NilZero.string_of_uint.
  destruct (Nat.to_uint n); try apply H.
  apply Forall_singleton. unfold Excel.is_digit; vm_compute; lia.
Qed.

Lemma chars_append (a b : string) :
  list_ascii_of_string (a ++ b)
  = (list_ascii_of_string a ++ list_ascii_of_string b)%list.
Proof. induction a as [|c a IH]; simpl; [done | by rewrite IH]. Qed.

Lemma append_inv_prefix (p a b : string) : p ++ a = p ++ b -> a = b.
Proof. induction p as [|c p IH]; simpl; [done | intros [= H]; auto]. Qed.

Lemma length_append (a b : string) :
  String.length (a ++ b) = (String.length a + String.length b)%nat.
Proof. induction a as [|c a IH]; simpl; [done | by rewrite IH]. Qed.

Lemma chars_slice_to (n : nat) (s : string) (c : ascii) :
  c ∈ list_ascii_of_string (slice_to n s) -> c ∈ list_ascii_of_string s.
Proof.
  revert s. induction n as [|n IH]; intros [|a s]; simpl; try done.
  - by intros ?%elem_of_nil.
  - rewrite !elem_of_cons. intros [?|?]; [by left | right; by apply IH].
Qed.

Lemma slice_to_all (n : nat) (s : string) :
  (String.length s <= n)%nat -> slice_to n s = s.
Proof.
  revert s. induction n as [|n IH]; intros [|a s]; simpl; try done; [lia|].
  intros ?. rewrite IH; [done | lia].
Qed.

(** ** Sheet names *)

Lemma chars_replace_char_self (c : ascii) (s : string) :
  c <> "_"%char -> c ∉ list_ascii_of_string (Excel.replace_char c s).
Proof.
  intros Hc. induction s as [|a s IH]; simpl; [apply not_elem_of_nil|].
  rewrite not_elem_of_cons. split; [|done].
  destruct (Ascii.eqb_spec a c); congruence.
Qed.

Lemma chars_replace_char_other (c d : ascii) (s : string) :
  d <> "_"%char -> d ∉ list_ascii_of_string s ->
  d ∉ list_ascii_of_string (Excel.replace_char c s).
Proof.
  intros Hd. induction s as [|a s IH]; simpl; [done|].
  rewrite !not_elem_of_cons. intros [? ?]. split; [|auto].
  destruct (Ascii.eqb a c); congruence.
Qed.

Lemma replace_char_absent (c : ascii) (s : string) :
  c ∉ list_ascii_of_string s -> Excel.replace_char c s = s.
Proof.
  induction s as [|a s IH]; simpl; [done|].
  rewrite not_elem_of_cons. intros [? ?]. rewrite IH by done.
  destruct (Ascii.eqb_spec a c); congruence.
Qed.

Lemma chars_replace_all (l : list ascii) (s : string) (d : ascii) :
  d <> "_"%char -> d ∈ l \/ d ∉ list_ascii_of_string s ->
  d ∉ list_ascii_of_string
        (foldl (fun name char => Excel.replace_char char name) s l).
Proof.
  intros Hd. revert s. induction l as [|c l IH]; intros s; simpl.
  - intros [?%elem_of_nil|?]; done.
  - rewrite elem_of_cons. intros [[->|?]|?]; apply IH; auto.
    + right. by apply chars_replace_char_self.
    + right. by apply chars_replace_char_other.
Qed.

Lemma replace_all_absent (l : list ascii) (s : string) :
  Forall (fun c => c ∉ list_ascii_of_string s) l ->
  foldl (fun name char => Excel.replace_char char name) s l = s.
Proof.
  induction l as [|c l IH]; simpl; [done|].
  rewrite Forall_cons. intros [? ?]. rewrite replace_char_absent by done. auto.
Qed.

Lemma valid_chars_replace_invalid (s : string) :
  Excel.valid_chars (Excel.replace_invalid s).
Proof.
  intros c Hc. apply chars_replace_all; [|by left].
  intros ->. revert Hc. unfold Excel.invalid_chars.
  rewrite !elem_of_cons, elem_of_nil. intuition discriminate.
Qed.

Lemma valid_chars_slice_to (n : nat) (s : string) :
  Excel.valid_chars s -> Excel.valid_chars (slice_to n s).
Proof. intros H c Hc ?%chars_slice_to. by eapply H. Qed.

Lemma digit_not_invalid (c : ascii) :
  Excel.is_digit c -> c ∉ Excel.invalid_chars.
Proof.
  unfold Excel.is_digit, Excel.invalid_chars. intros H.
  rewrite !elem_of_cons, elem_of_nil.
  intros [->|[->|[->|[->|[->|[->|[->|[]]]]]]]]; vm_compute in H; lia.
Qed.

Lemma valid_chars_str_of_nat (n : nat) : Excel.valid_chars (str_of_nat n).
Proof.
  intros c Hc Hin. pose proof (str_of_nat_digits n) as H.
  rewrite Forall_forall in H. by eapply digit_not_invalid; [apply H|].
Qed.

Lemma valid_chars_append (a b : string) :
  Excel.valid_chars a -> Excel.valid_chars b -> Excel.valid_chars (a ++ b).
Proof.
  intros Ha Hb c Hc. rewrite chars_append, elem_of_app.
  intros [?|?]; [by eapply Ha | by eapply Hb].
Qed.

Lemma valid_chars_original_name (name : string) (counter : nat) :
  Excel.valid_chars (Excel.original_name name counter).
Proof.
  unfold Excel.original_name.
  destruct (truthy _).
  - apply valid_chars_slice_to, valid_chars_replace_invalid.
  - apply valid_chars_append; [|apply valid_chars_str_of_nat].
    intros c Hc. revert Hc. unfold Excel.invalid_chars. simpl.
    rewrite !elem_of_cons, !elem_of_nil. intuition (subst; discriminate).
Qed.

Lemma valid_chars_suffixed (o : string) (k : nat) :
  Excel.valid_chars o -> Excel.valid_chars (Excel.suffixed o k).
Proof.
  intros H. unfold Excel.suffixed.
  apply valid_chars_append; [by apply valid_chars_slice_to|].
  apply (valid_chars_append "_"); [|apply valid_chars_str_of_nat].
  intros c Hc. revert Hc. unfold Excel.invalid_chars. simpl.
  rewrite !elem_of_cons, !elem_of_nil. intuition (subst; discriminate).
Qed.

Lemma suffixed_inj (o : string) (j k : nat) :
  Excel.suffixed o j = Excel.suffixed o k -> j = k.
Proof.
  unfold Excel.suffixed. intros H%append_inv_prefix.
  apply str_of_nat_inj. by injection H.
Qed.

Lemma ensure_unique_result o E fuel nm s r :
  Excel.ensure_unique o E fuel (nm, s) = Some r ->
  (r.1 ∉ E) /\ (r = (nm, s) \/
                exists k, (s <= k)%nat /\ r = (Excel.suffixed o k, S k)).
Proof.
  unfold Excel.ensure_unique. revert nm s.
  induction fuel as [|fuel IH]; intros nm s; simpl; [done|].
  case_bool_decide as Hin.
  - intros [? [->|(k & ? & ->)]]%IH; (split; [done|right]).
    + exists s. done.
    + exists k. split; [lia|done].
  - intros [= <-]. split; [done | by left].
Qed.

Lemma ensure_unique_returns o E d fuel nm s :
  (exists k, (s <= k < s + d)%nat /\ Excel.suffixed o k ∉ E) ->
  exists r, Excel.ensure_unique o E (S d + fuel) (nm, s) = Some r /\
            (r = (nm, s) \/
             exists k, (s <= k < s + d)%nat /\ r = (Excel.suffixed o k, S k)).
Proof.
  unfold Excel.ensure_unique. revert nm s.
  induction d as [|d IH]; intros nm s (k & Hk & Hfree); [lia|].
  cbn [Loop.while Nat.add]. case_bool_decide as Hin; [|by eauto].
  cbn [fst snd].
  destruct (decide (Excel.suffixed o s ∈ E)) as [Hs|Hs].
  - destruct (IH (Excel.suffixed o s) (S s)) as (r & Hr & Hwhat).
    { exists k. split; [|done].
      destruct (decide (k = s)) as [->|]; [done | lia]. }
    exists r. split; [exact Hr|]. right.
    destruct Hwhat as [->|(k' & ? & ->)].
    + exists s. split; [lia | done].
    + exists k'. split; [lia | done].
  - exists (Excel.suffixed o s, S s). split.
    + cbn [Loop.while Nat.add fst]. by rewrite bool_decide_eq_false_2.
    + right. exists s. split; [lia | done].
Qed.

(** Of [size E + 1] names with different suffixes one is not in [E]. *)
Lemma suffixed_free o (E : gset string) :
  exists k, (1 <= k < 1 + S (size E))%nat /\ Excel.suffixed o k ∉ E.
Proof.
  destruct (decide (Forall (fun k => Excel.suffixed o k ∈ E)
                      (seq 1 (S (size E))))) as [Hall|Hnot].
  - exfalso.
    assert (NoDup (Excel.suffixed o <$> seq 1 (S (size E)))) as Hnd.
    { apply NoDup_fmap_2; [intros ???; by eapply suffixed_inj | apply NoDup_seq]. }
    pose proof (size_list_to_set (C := gset string) _ Hnd) as Hsize.
    rewrite length_fmap, length_seq in Hsize.
    assert (list_to_set (C := gset string)
              (Excel.suffixed o <$> seq 1 (S (size E))) ⊆ E) as Hsub.
    { intros x. rewrite elem_of_list_to_set, list_elem_of_fmap.
      intros (k & -> & Hk). rewrite Forall_forall in Hall. by apply Hall. }
    apply subseteq_size in Hsub. lia.
  - apply not_Forall_Exists in Hnot; [|apply _].
    apply Exists_exists in Hnot as (k & Hk & Hfree).
    apply elem_of_seq in Hk. exists k. split; [lia | done].
Qed.

Lemma sanitize_sheet_name_unfold fuel name E counter :
  Excel.sanitize_sheet_name fuel name E counter
  = fst <$> Excel.ensure_unique (Excel.original_name name counter) E fuel
              (Excel.original_name name counter, 1%nat).
Proof. done. Qed.

(** What [sanitize_sheet_name] returns, given fuel for one test per
    existing name and two more. *)
Lemma sanitize_sheet_name_spec name E counter extra :
  exists n,
    Excel.sanitize_sheet_name (size E + 2 + extra) name E counter = Some n /\
    (n ∉ E) /\
    (n = Excel.original_name name counter \/
     exists k, (1 <= k <= size E + 1)%nat /\
               n = Excel.suffixed (Excel.original_name name counter) k).
Proof.
  rewrite sanitize_sheet_name_unfold.
  set (o := Excel.original_name name counter).
  destruct (ensure_unique_returns o E (S (size E)) extra o 1 (suffixed_free o E))
    as (r & Hr & Hwhat).
  replace (size E + 2 + extra)%nat with (S (S (size E)) + extra)%nat by lia.
  rewrite Hr. exists r.1. split; [done|].
  split; [by apply ensure_unique_result in Hr as [? _]|].
  destruct Hwhat as [->|(k & ? & ->)]; [by left|right].
  exists k. split; [lia | done].
Qed.

Lemma sanitize_sheet_name_what fuel name E counter n :
  Excel.sanitize_sheet_name fuel name E counter = Some n ->
  (n ∉ E) /\
  (n = Excel.original_name name counter \/
   exists k, (1 <= k <= size E + 1)%nat /\
             n = Excel.suffixed (Excel.original_name name counter) k).
Proof.
  intros H.
  destruct (sanitize_sheet_name_spec name E counter fuel)
    as (n' & Hn' & Hfree & Hwhat).
  rewrite sanitize_sheet_name_unfold in H, Hn'.
  destruct (Excel.ensure_unique _ _ fuel _) as [r|] eqn:Hr; [|done].
  injection H as <-.
  apply (while_more_fuel _ _ _ (size E + 2)) in Hr.
  unfold Excel.ensure_unique in Hn'.
  replace (size E + 2 + fuel)%nat with (fuel + (size E + 2))%nat in Hn' by lia.
  rewrite Hr in Hn'. injection Hn' as <-. done.
Qed.

Lemma str_of_nat_short (n : nat) :
  (n < 100)%nat -> (String.length (str_of_nat n) <= 2)%nat.
Proof.
  intros Hn.
  assert (forallb (fun n => String.length (str_of_nat n) <=? 2)%nat
            (seq 0 100) = true) as H by (vm_compute; reflexivity).
  rewrite forallb_forall in H. apply Nat.leb_le, H, in_seq. lia.
Qed.

Lemma original_name_length (name : string) (counter : nat) :
  (counter < 100)%nat ->
  (String.length (Excel.original_name name counter) <= 30)%nat.
Proof.
  intros Hc. unfold Excel.original_name. destruct (truthy _).
  - apply slice_to_length.
  - rewrite length_append. pose proof (str_of_nat_short counter Hc).
    cbn [String.length]. lia.
Qed.

Lemma suffixed_length (o : string) (k : nat) :
  (k < 100)%nat -> (String.length (Excel.suffixed o k) <= 31)%nat.
Proof.
  intros Hk. unfold Excel.suffixed. rewrite !length_append.
  pose proof (slice_to_length 28 o). pose proof (str_of_nat_short k Hk).
  cbn [String.length]. lia.
Qed.

Lemma sanitize_sheet_name_length fuel name E counter n :
  Excel.sanitize_sheet_name fuel name E counter = Some n ->
  (size E < 99)%nat -> (counter < 100)%nat ->
  (String.length n <= 31)%nat.
Proof.
  intros [_ [->|(k & ? & ->)]]%sanitize_sheet_name_what ? ?.
  - pose proof (original_name_length name counter). lia.
  - apply suffixed_length. lia.
Qed.

Lemma sanitize_sheet_name_valid fuel name E counter n :
  Excel.sanitize_sheet_name fuel name E counter = Some n ->
  Excel.valid_chars n.
Proof.
  intros [_ [->|(k & ? & ->)]]%sanitize_sheet_name_what.
  - apply valid_chars_original_name.
  - apply valid_chars_suffixed, valid_chars_original_name.
Qed.

Lemma sanitize_sheet_name_enough fuel name E counter :
  (size E + 2 <= fuel)%nat ->
  exists n, Excel.sanitize_sheet_name fuel name E counter = Some n.
Proof.
  intros H.
  destruct (sanitize_sheet_name_spec name E counter (fuel - (size E + 2)))
    as (n & Hn & _).
  replace (size E + 2 + (fuel - (size E + 2)))%nat with fuel in Hn by lia.
  eauto.
Qed.

Lemma original_name_valid (name : string) (counter : nat) :
  Excel.valid_chars name -> name <> "" ->
  (String.length name <= 30)%nat ->
  Excel.original_name name counter = name.
Proof.
  intros Hv Hne Hlen. unfold Excel.original_name, Excel.replace_invalid.
  rewrite replace_all_absent by (apply Forall_forall; exact Hv).
  rewrite slice_to_all by done. by destruct name.
Qed.

Lemma sanitize_sheet_name_valid_name name (E : gset string) counter fuel :
  Excel.valid_chars name -> name <> "" -> (String.length name <= 30)%nat ->
  name ∉ E ->
  Excel.sanitize_sheet_name (S fuel) name E counter = Some name.
Proof.
  intros Hv Hne Hlen Hfresh. rewrite sanitize_sheet_name_unfold.
  rewrite original_name_valid by done.
  unfold Excel.ensure_unique. simpl. by rewrite bool_decide_eq_false_2.
Qed.

(** ** The export loop *)

Lemma consistent_size st :
  Excel.consistent st ->
  size (Excel.processed_sheet_names st) = length (Excel.created st).
Proof.
  intros (-> & Hnd & _). by rewrite size_list_to_set.
Qed.

Lemma consistent_add st safe sheets' :
  Excel.consistent st -> safe ∉ Excel.processed_sheet_names st ->
  Excel.valid_chars safe ->
  Excel.consistent
    {| Excel.processed_sheet_names := {[safe]} ∪ Excel.processed_sheet_names st;
       Excel.created := (Excel.created st ++ [safe])%list;
       Excel.sheets := sheets' |}.
Proof.
  intros (Hset & Hnd & Hv) Hfresh Hsafe. unfold Excel.consistent. simpl.
  split; [|split].
  - rewrite Hset, list_to_set_app_L. simpl.
    by rewrite union_empty_r_L, (comm_L (∪)).
  - apply NoDup_app. split; [done|]. split; [|apply NoDup_singleton].
    intros x Hx ->%list_elem_of_singleton. apply Hfresh.
    rewrite Hset. by apply elem_of_list_to_set.
  - apply Forall_app. split; [done | by apply Forall_singleton].
Qed.

Lemma consistent_empty : Excel.consistent (Excel.State ∅ [] []).
Proof. split; [done|]. split; [apply NoDup_nil_2 | apply Forall_nil_2]. Qed.

(** *** What openpyxl takes *)

Lemma check_string_cases v :
  Openpyxl.check_string v = Ok v
  \/ exists x, Openpyxl.check_string v = Raise x
               /\ exn_cls x = OtherException.
Proof.
  unfold Openpyxl.check_string. destruct (existsb _ _); [right|by left].
  by eexists.
Qed.

Lemma bind_cells_spec row :
  match Openpyxl.bind_cells row with
  | (bound, Ok _) =>
      bound = row /\ Forall (fun v => Openpyxl.check_string v = Ok v) row
  | (_, Raise x) =>
      exn_cls x = OtherException
      /\ ~ Forall (fun v => Openpyxl.check_string v = Ok v) row
  end.
Proof.
  induction row as [|v row IH]; simpl; [by split|].
  destruct (check_string_cases v) as [Hv|(x & Hx & Hcls)].
  - rewrite Hv. destruct (Openpyxl.bind_cells row) as [bound [[]|x]].
    + destruct IH as [-> Hall]. split; [done|]. by apply Forall_cons.
    + destruct IH as [Hcls Hnot]. split; [done|].
      intros [_ ?]%Forall_cons. by apply Hnot.
  - rewrite Hx. split; [done|]. intros [Hv _]%Forall_cons. congruence.
Qed.

Lemma append_spec row ws :
  match Openpyxl.append row ws with
  | (ws', Ok _) =>
      ws' = (ws ++ [row])%list
      /\ Forall (fun v => Openpyxl.check_string v = Ok v) row
  | (_, Raise x) =>
      exn_cls x = OtherException
      /\ ~ Forall (fun v => Openpyxl.check_string v = Ok v) row
  end.
Proof.
  unfold Openpyxl.append. pose proof (bind_cells_spec row) as H.
  destruct (Openpyxl.bind_cells row) as [bound [[]|x]].
  - destruct H as [-> ?]. by split.
  - done.
Qed.

Lemma append_all_spec rows : forall ws,
  match Excel.append_all rows ws with
  | (ws', Ok _) =>
      ws' = (ws ++ rows)%list
      /\ Forall (Forall (fun v => Openpyxl.check_string v = Ok v)) rows
  | (_, Raise x) =>
      exn_cls x = OtherException
      /\ ~ Forall (Forall (fun v => Openpyxl.check_string v = Ok v)) rows
  end.
Proof.
  induction rows as [|row rows IH]; intros ws; simpl.
  - by rewrite app_nil_r.
  - pose proof (append_spec row ws) as Hrow.
    destruct (Openpyxl.append row ws) as [ws1 [[]|x]].
    + destruct Hrow as [-> Hrow]. specialize (IH (ws ++ [row])%list).
      destruct (Excel.append_all rows _) as [ws' [[]|x]].
      * destruct IH as [-> Hall]. split; [by rewrite <- app_assoc|].
        by apply Forall_cons.
      * destruct IH as [Hcls Hnot]. split; [done|].
        intros [_ ?]%Forall_cons. by apply Hnot.
    + destruct Hrow as [Hcls Hnot]. split; [done|].
      intros [? _]%Forall_cons. by apply Hnot.
Qed.

(** The cells [fill] leaves when every cell is taken. *)
Lemma fill_spec s :
  match Excel.fill s with
  | (ws, Ok _) =>
      Excel.writable s
      /\ ws = match default [] s.1, s.2 with
              | [], [] => [[Excel.empty_notice]]
              | [], rows => rows
              | column_names, rows => column_names :: rows
              end
  | (_, Raise x) => exn_cls x = OtherException /\ ~ Excel.writable s
  end.
Proof.
  destruct s as [description rows]. unfold Excel.fill, Excel.writable. simpl.
  destruct (default [] description) as [|c cs] eqn:Hcols.
  - destruct rows as [|r rows].
    + simpl. split; [|done]. split; apply Forall_nil_2.
    + pose proof (append_all_spec (r :: rows) []) as H.
      destruct (Excel.append_all (r :: rows) []) as [ws [[]|x]].
      * destruct H as [-> H]. split; [|done]. split; [apply Forall_nil_2|done].
      * destruct H as [Hcls Hnot]. split; [done|]. by intros [_ ?].
  - pose proof (append_spec (c :: cs) []) as Hheader.
    destruct (Openpyxl.append (c :: cs) []) as [ws [[]|x]].
    + destruct Hheader as [-> Hheader]. destruct rows as [|r rows].
      * split; [|done]. split; [done | apply Forall_nil_2].
      * pose proof (append_all_spec (r :: rows) [c :: cs]) as H.
        destruct (Excel.append_all (r :: rows) _) as [ws [[]|x]].
        -- destruct H as [-> H]. by split.
        -- destruct H as [Hcls Hnot]. split; [done|]. by intros [_ ?].
    + destruct Hheader as [Hcls Hnot]. split; [done|]. by intros [? _].
Qed.

Lemma try_table_spec e t :
  match Excel.try_table e t with
  | (ws, Ok _) =>
      Excel.readable e t
      /\ ws = match Excel.select_all e t with
              | Ok s =>
                  match default [] s.1, s.2 with
                  | [], [] => [[Excel.empty_notice]]
                  | [], rows => rows
                  | column_names, rows => column_names :: rows
                  end
              | Raise x =>
                  match Openpyxl.check_string
                          ("Error fetching data: " ++ str_exn x) with
                  | Ok v => [[v]]
                  | Raise _ => []
                  end
              end
  | (_, Raise x) => ~ Excel.readable e t
  end.
Proof.
  unfold Excel.try_table, Excel.readable, Excel.handle.
  destruct (Excel.select_all e t) as [s|x].
  - pose proof (fill_spec s) as H.
    destruct (Excel.fill s) as [ws [[]|x]]; [done|].
    destruct H as [Hcls Hnot]. by rewrite Hcls.
  - destruct (exn_cls x); try done. split; [done|].
    unfold Openpyxl.cell_a1. by destruct (Openpyxl.check_string _).
Qed.

Lemma try_table_readable e t :
  Excel.readable e t <-> exists cells, Excel.try_table e t = (cells, Ok tt).
Proof.
  pose proof (try_table_spec e t) as H.
  destruct (Excel.try_table e t) as [ws [[]|x]].
  - split; [by eauto | by destruct H].
  - split; [done | by intros [? ?]].
Qed.

Lemma invalid_title_chars c :
  c ∈ Openpyxl.INVALID_TITLE <-> c ∈ Excel.invalid_chars.
Proof.
  unfold Openpyxl.INVALID_TITLE, Excel.invalid_chars.
  rewrite !elem_of_cons, !elem_of_nil. tauto.
Qed.

(** [create_sheet] takes a title that [sanitize_sheet_name] has made. *)
Lemma create_sheet_valid rename sheetnames value :
  Excel.valid_chars value ->
  Openpyxl.create_sheet rename sheetnames value
  = Ok (if Openpyxl.taken sheetnames value
        then rename sheetnames value else value).
Proof.
  intros Hvalid. unfold Openpyxl.create_sheet.
  destruct (List.find _ _) as [c|] eqn:Hfind; [|done].
  apply find_some in Hfind as [Hin Hc]. exfalso.
  apply bool_decide_eq_true in Hc. apply invalid_title_chars in Hc.
  apply (Hvalid c Hc). by apply list_elem_of_In.
Qed.

Lemma for_tablas_spec fuel e ts : forall i st st' escaped,
  Excel.for_tablas fuel e i ts st = Some (st', escaped) ->
  Excel.consistent st ->
  Excel.consistent st' /\
  exists new,
    Excel.sheets st' = (Excel.sheets st ++ new)%list /\
    length (Excel.created st') = (length (Excel.created st) + length new)%nat /\
    match escaped with
    | None =>
        Forall2 (fun t sh => Excel.try_table e t = (Excel.cells sh, Ok tt))
          ts new
    | Some x => exists t cells, t ∈ ts /\ Excel.try_table e t = (cells, Raise x)
    end.
Proof.
  induction ts as [|t ts IH]; intros i st st' escaped; simpl.
  - intros [= <- <-] ?. split; [done|]. exists [].
    rewrite app_nil_r. split; [done|]. split; [simpl; lia | done].
  - destruct (Excel.sanitize_sheet_name _ _ _ _) as [safe|] eqn:Hsafe; [|done].
    simpl. intros H Hst.
    pose proof (sanitize_sheet_name_what _ _ _ _ _ Hsafe) as [Hfresh _].
    pose proof (sanitize_sheet_name_valid _ _ _ _ _ Hsafe) as Hvalid.
    rewrite (create_sheet_valid _ _ _ Hvalid) in H.
    destruct (Excel.try_table e t) as [cells [[]|x]] eqn:Ht.
    + apply IH in H as (Hst' & new & Hnew & Hlen & Hwhat);
        [|by apply consistent_add].
      split; [done|]. simpl in Hnew, Hlen. rewrite <- app_assoc in Hnew.
      rewrite length_app in Hlen. simpl in Hlen.
      eexists. split; [exact Hnew|]. split; [simpl; lia|].
      destruct escaped as [x|].
      * destruct Hwhat as (t' & c' & ? & ?). exists t', c'.
        split; [by right | done].
      * by constructor.
    + injection H as <- <-. split; [by apply consistent_add|].
      eexists. split; [done|]. simpl. rewrite length_app. simpl.
      split; [done|]. exists t, cells. split; [by left | done].
Qed.

Lemma for_tablas_returns fuel e ts : forall i st,
  Excel.consistent st ->
  (length (Excel.created st) + length ts + 1 <= fuel)%nat ->
  exists r, Excel.for_tablas fuel e i ts st = Some r.
Proof.
  induction ts as [|t ts IH]; intros i st Hst Hfuel; simpl; [by eauto|].
  destruct (sanitize_sheet_name_enough fuel t
              (Excel.processed_sheet_names st) i) as (safe & Hsafe).
  { rewrite consistent_size by done. simpl in Hfuel. lia. }
  rewrite Hsafe. simpl.
  pose proof (sanitize_sheet_name_what _ _ _ _ _ Hsafe) as [Hfresh _].
  pose proof (sanitize_sheet_name_valid _ _ _ _ _ Hsafe) as Hvalid.
  rewrite (create_sheet_valid _ _ _ Hvalid).
  destruct (Excel.try_table e t) as [cells [[]|x]]; [|by eauto].
  apply IH; [by apply consistent_add|].
  simpl. rewrite length_app. simpl in *. lia.
Qed.

Lemma default_sheet_some e sheets :
  sheets <> [] -> Excel.default_sheet e sheets = sheets.
Proof. by destruct sheets. Qed.

Lemma default_sheet_none e :
  Excel.default_sheet e [] = [Excel.Sheet "DefaultSheet" []].
Proof. reflexivity. Qed.

Lemma excel_main_run fuel e o ts :
  Excel.main fuel e = Some o ->
  Excel.isfile e = true -> Excel.connect e = None -> Excel.tablas e = Ok ts ->
  exists st escaped,
    Excel.for_tablas fuel e 0 ts (Excel.State ∅ [] []) = Some (st, escaped) /\
    o = match escaped with
        | Some _ =>
            Excel.Outcome 1 (Excel.created st) (Excel.sheets st) false true
        | None =>
            Excel.Outcome 0 (Excel.created st)
              (Excel.default_sheet e (Excel.sheets st))
              (bool_decide (Excel.save e = None)) true
        end.
Proof.
  unfold Excel.main. intros H H1 H2 H3. rewrite H1, H2, H3 in H. simpl in H.
  destruct (Excel.for_tablas _ _ _ _ _) as [[st escaped]|]; [|done].
  simpl in H. exists st, escaped. split; [done|].
  destruct escaped; by injection H.
Qed.

Lemma excel_main_stopped fuel e o :
  Excel.main fuel e = Some o ->
  Excel.isfile e = false \/ Excel.connect e <> None
  \/ (exists x, Excel.tablas e = Raise x) ->
  o = Excel.Outcome 1 [] [] false
        (bool_decide (Excel.isfile e = true /\ Excel.connect e = None)).
Proof.
  unfold Excel.main. intros H Hwhy.
  destruct (Excel.isfile e); simpl in H; [|by injection H].
  destruct (Excel.connect e) as [x|]; [by injection H|].
  destruct (Excel.tablas e) as [ts|x]; [|by injection H].
  destruct Hwhy as [?|[?|[? ?]]]; done.
Qed.

(** [sanitize_sheet_name] of 6listas_en_excel.py returns for every name,
    set of existing names and counter, after at most one test per existing
    name and two more; the name it returns is not among the existing names
    and holds none of the invalid characters. *)
Theorem excel_sanitize_sheet_name_fresh name (E : gset string) counter extra :
  exists n,
    Excel.sanitize_sheet_name (size E + 2 + extra) name E counter = Some n
    /\ (n ∉ E) /\ Excel.valid_chars n.
Proof.
  destruct (sanitize_sheet_name_spec name E counter extra) as (n & Hn & ? & _).
  exists n. split; [done|]. split; [done|].
  by eapply sanitize_sheet_name_valid.
Qed.

(** [sanitize_sheet_name] of 6listas_en_excel.py: a name that is not
    empty, has at most 30 characters, none of them invalid, and is not in
    use, is returned as it is. *)
Theorem excel_sanitize_sheet_name_keeps name (E : gset string) counter fuel :
  Excel.valid_chars name -> name <> "" -> (String.length name <= 30)%nat ->
  name ∉ E ->
  Excel.sanitize_sheet_name (S fuel) name E counter = Some name.
Proof. apply sanitize_sheet_name_valid_name. Qed.

Lemma excel_sanitize_sheet_name_keeps_witness :
  Excel.sanitize_sheet_name 1 "electropunto" {[ "iluminar" ]} 0
  = Some "electropunto".
Proof.
  apply (excel_sanitize_sheet_name_keeps "electropunto" {[ "iluminar" ]} 0 0).
  - intros c Hc. unfold Excel.invalid_chars in Hc. simpl.
    rewrite !elem_of_cons, elem_of_nil in *.
    intuition (subst; discriminate).
  - discriminate.
  - simpl; lia.
  - intros ?%elem_of_singleton. discriminate.
Defined.



Lemma for_tablas_asked_length fuel e ts : forall st st' escaped,
  Excel.for_tablas fuel e (length (Excel.created st)) ts st
    = Some (st', escaped) ->
  Excel.consistent st ->
  (length (Excel.created st) + length ts <= 99)%nat ->
  Forall (fun name => (String.length name <= 31)%nat) (Excel.created st) ->
  Forall (fun name => (String.length name <= 31)%nat) (Excel.created st').
Proof.
  induction ts as [|t ts IH]; intros st st' escaped; simpl.
  - by intros [= <- <-].
  - destruct (Excel.sanitize_sheet_name _ _ _ _) as [safe|] eqn:Hsafe; [|done].
    simpl. intros H Hst Hlen Hshort.
    pose proof (sanitize_sheet_name_what _ _ _ _ _ Hsafe) as [Hfresh _].
    pose proof (sanitize_sheet_name_valid _ _ _ _ _ Hsafe) as Hvalid.
    assert (String.length safe <= 31)%nat as Hsafe_len.
    { eapply sanitize_sheet_name_length; [exact Hsafe| |lia].
      rewrite consistent_size by done. lia. }
    rewrite (create_sheet_valid _ _ _ Hvalid) in H.
    destruct (Excel.try_table e t) as [cells [[]|x]].
    + match type of H with
      | Excel.for_tablas _ _ _ _ ?s = _ => set (st1 := s) in H
      end.
      replace (S (length (Excel.created st)))
        with (length (Excel.created st1)) in H
        by (simpl; rewrite length_app; simpl; lia).
      apply IH in H; [done|by apply consistent_add|..].
      * simpl. rewrite length_app. simpl. lia.
      * simpl. apply Forall_app. split; [done | by apply Forall_singleton].
    + injection H as <- <-. simpl.
      apply Forall_app. split; [done | by apply Forall_singleton].
Qed.


(** *** The names asked for and the titles given *)



(** Two tables whose names differ in case only: the names asked for are
    different, and openpyxl gives the second sheet another title than the
    one asked for; the form feed in a product name of the second table
    ends the run with status 1, nothing saved. *)
Example excel_odd_database :
  Excel.main 3 Fixture.database_odd
  = Some (Excel.Outcome 1 ["Precios"; "precios"]
            [Excel.Sheet "Precios" [Fixture.columns];
             Excel.Sheet "precios1" [Fixture.columns; ["03/11/2026"]]]
            false true).
Proof. reflexivity. Qed.

(** [main] of 6listas_en_excel.py with [sanitize_sheet_name]: for a
    database of at most 99 tables every name the script asks a sheet for
    has at most 31 characters, the limit of Excel. *)
Theorem excel_names_asked_within_limit fuel e o ts :
  Excel.main fuel e = Some o ->
  Excel.tablas e = Ok ts -> (length ts <= 99)%nat ->
  Forall (fun name => (String.length name <= 31)%nat) (Excel.asked o).
Proof.
  intros H Hts Hlen.
  destruct (Excel.isfile e) eqn:Hfile;
    [|apply excel_main_stopped in H as ->; [apply Forall_nil_2 | by left]].
  destruct (Excel.connect e) as [x|] eqn:Hconn;
    [apply excel_main_stopped in H as ->;
       [apply Forall_nil_2 | right; left; by rewrite Hconn]|].
  destruct (excel_main_run _ _ _ _ H Hfile Hconn Hts)
    as (st & escaped & Hrun & ->).
  apply (for_tablas_asked_length fuel e ts (Excel.State ∅ [] [])) in Hrun;
    [|apply consistent_empty|simpl; lia|apply Forall_nil_2].
  by destruct escaped.
Qed.

Lemma excel_names_asked_within_limit_witness :
  Forall (fun name => (String.length name <= 31)%nat)
    (Excel.asked Fixture.exported).
Proof.
  apply (excel_names_asked_within_limit 3 Fixture.database Fixture.exported
           ["electropunto"; "iluminar"]).
  - reflexivity.
  - reflexivity.
  - simpl. lia.
Defined.

(** *** How the export ends *)

(** [main()] of 6listas_en_excel.py returns, so that the status is 0,
    exactly when the database file exists, the connection and the list of
    tables are obtained, and every table is either read and made of cells
    that openpyxl takes, or fails with an [sqlite3.Error]; in every other
    run it calls [sys.exit(1)]. The workbook is saved exactly when,
    besides, [wb.save] does not raise. A failed save leaves the status
    at 0. *)
Theorem excel_exit_status fuel e o :
  Excel.main fuel e = Some o ->
  (Excel.exit_status o = 0%nat <->
     Excel.isfile e = true /\ Excel.connect e = None
     /\ exists ts, Excel.tablas e = Ok ts /\ Forall (Excel.readable e) ts)
  /\ (Excel.saved o = true <->
        Excel.exit_status o = 0%nat /\ Excel.save e = None).
Proof.
  intros H.
  destruct (Excel.isfile e) eqn:Hfile;
    [|apply excel_main_stopped in H as ->; [|by left]; simpl;
      split; split; intros; destruct_and?; done].
  destruct (Excel.connect e) as [x|] eqn:Hconn;
    [apply excel_main_stopped in H as ->; [|right; left; by rewrite Hconn]; simpl;
     split; split; intros; destruct_and?; done|].
  destruct (Excel.tablas e) as [ts|x] eqn:Hts;
    [|apply excel_main_stopped in H as ->; [|right; right; by eauto]; simpl;
      split; split; intros; destruct_and?; try done;
      by match goal with H : exists _, _ |- _ => destruct H as (? & ? & _) end].
  destruct (excel_main_run _ _ _ _ H Hfile Hconn Hts) as (st & escaped & Hrun & ->).
  apply for_tablas_spec in Hrun as [_ (new & _ & _ & Hwhat)];
    [|apply consistent_empty].
  destruct escaped as [x|]; simpl.
  - destruct Hwhat as (t & cells & Hin & Hraise).
    split; split; intros; destruct_and?; try done.
    match goal with H : exists _, _ |- _ => destruct H as (ts' & [= <-] & Hall) end.
    rewrite Forall_forall in Hall. apply Hall, try_table_readable in Hin.
    destruct Hin as [? Hok]. by rewrite Hraise in Hok.
  - split.
    + split; [intros _|done]. split; [done|]. split; [done|].
      exists ts. split; [done|].
      apply Forall_forall. intros t Hin. apply try_table_readable.
      apply list_elem_of_lookup in Hin as [i Hi].
      destruct (Forall2_lookup_l _ _ _ _ _ Hwhat Hi) as (sh & _ & ?).
      by eauto.
    + rewrite bool_decide_eq_true. by intuition.
Qed.

Lemma excel_exit_status_witness :
  (Excel.exit_status Fixture.exported = 0%nat <->
     Excel.isfile Fixture.database = true
     /\ Excel.connect Fixture.database = None
     /\ exists ts, Excel.tablas Fixture.database = Ok ts
                   /\ Forall (Excel.readable Fixture.database) ts)
  /\ (Excel.saved Fixture.exported = true <->
        Excel.exit_status Fixture.exported = 0%nat
        /\ Excel.save Fixture.database = None).
Proof.
  apply (excel_exit_status 3 Fixture.database Fixture.exported).
  reflexivity.
Defined.

(** [main] of 6listas_en_excel.py: in a run that ends with status 0, the
    sheet of a table that was read and has columns holds the column names
    in its first row and below it the rows of the table, in the order of
    the query; the sheets are in the order of the tables. *)
Theorem excel_sheet_holds_table fuel e o ts i t columns rows :
  Excel.main fuel e = Some o -> Excel.exit_status o = 0%nat ->
  Excel.tablas e = Ok ts -> ts !! i = Some t ->
  Excel.select_all e t = Ok (Some columns, rows) -> columns <> [] ->
  Excel.cells <$> Excel.workbook o !! i = Some (columns :: rows).
Proof.
  intros H Hexit Hts Hi Hsel Hcols.
  destruct (Excel.isfile e) eqn:Hfile;
    [|apply excel_main_stopped in H as ->; [done | by left]].
  destruct (Excel.connect e) as [x|] eqn:Hconn;
    [apply excel_main_stopped in H as ->; [done | right; left; by rewrite Hconn]|].
  destruct (excel_main_run _ _ _ _ H Hfile Hconn Hts) as (st & escaped & Hrun & ->).
  apply for_tablas_spec in Hrun as [_ (new & Hnew & _ & Hwhat)];
    [|apply consistent_empty].
  destruct escaped as [x|]; [done|]. simpl in *. subst new.
  destruct (Forall2_lookup_l _ _ _ _ _ Hwhat Hi) as (sh & Hsh & Hcells).
  destruct (Excel.sheets st) as [|s0 ss] eqn:Hsheets; [done|].
  rewrite default_sheet_some by done. rewrite Hsh. simpl. f_equal.
  pose proof (try_table_spec e t) as Hspec.
  rewrite Hcells, Hsel in Hspec. destruct Hspec as [_ ->]. simpl.
  by destruct columns.
Qed.

Lemma excel_sheet_holds_table_witness :
  Excel.cells <$> Excel.workbook Fixture.exported !! 1%nat
  = Some (Fixture.columns
          :: [["03/11/2026"; "Lampara LED 9W"; "$1.500,00"]]).
Proof.
  apply (excel_sheet_holds_table 3 Fixture.database Fixture.exported
           ["electropunto"; "iluminar"] 1 "iluminar").
  - reflexivity.
  - reflexivity.
  - reflexivity.
  - reflexivity.
  - reflexivity.
  - discriminate.
Defined.

(** [main] of 6listas_en_excel.py: an [sqlite3.Error] while a table is
    read costs that table only. Its sheet holds the error message in its
    top left cell and nothing else, or nothing at all when openpyxl
    refuses the message, which is logged and no more; the run goes on to
    the tables after it as long as no other kind of exception is raised. *)
Theorem excel_fetch_error_contained fuel e o ts i t x :
  Excel.main fuel e = Some o -> Excel.exit_status o = 0%nat ->
  Excel.tablas e = Ok ts -> ts !! i = Some t ->
  Excel.select_all e t = Raise x ->
  exn_cls x = SqliteError
  /\ Excel.cells <$> Excel.workbook o !! i
     = Some (match Openpyxl.check_string
                     ("Error fetching data: " ++ str_exn x) with
             | Ok message => [[message]]
             | Raise _ => []
             end)
  /\ length (Excel.workbook o) = length ts.
Proof.
  intros H Hexit Hts Hi Hsel.
  destruct (Excel.isfile e) eqn:Hfile;
    [|apply excel_main_stopped in H as ->; [done | by left]].
  destruct (Excel.connect e) as [y|] eqn:Hconn;
    [apply excel_main_stopped in H as ->; [done | right; left; by rewrite Hconn]|].
  destruct (excel_main_run _ _ _ _ H Hfile Hconn Hts) as (st & escaped & Hrun & ->).
  apply for_tablas_spec in Hrun as [_ (new & Hnew & _ & Hwhat)];
    [|apply consistent_empty].
  destruct escaped as [y|]; [done|]. simpl in *. subst new.
  destruct (Forall2_lookup_l _ _ _ _ _ Hwhat Hi) as (sh & Hsh & Hcells).
  apply Forall2_length in Hwhat.
  destruct (Excel.sheets st) as [|s0 ss] eqn:Hsheets; [done|].
  rewrite default_sheet_some by done. rewrite Hsh. simpl.
  pose proof (try_table_spec e t) as Hspec.
  rewrite Hcells in Hspec. destruct Hspec as [Hread Hws].
  unfold Excel.readable in Hread. rewrite Hsel in Hread, Hws.
  split; [done|]. split; [by rewrite Hws | done].
Qed.

Lemma excel_fetch_error_contained_witness :
  exn_cls (Exn SqliteError "database is locked") = SqliteError
  /\ Excel.cells <$>
       Excel.workbook
         (Excel.Outcome 0 ["electropunto"; "iluminar"]
            [Excel.Sheet "electropunto" [Fixture.columns];
             Excel.Sheet "iluminar"
               [["Error fetching data: database is locked"]]]
            true true) !! 1%nat
     = Some (match Openpyxl.check_string
                     ("Error fetching data: "
                      ++ str_exn (Exn SqliteError "database is locked")) with
             | Ok message => [[message]]
             | Raise _ => []
             end)
  /\ length
       (Excel.workbook
         (Excel.Outcome 0 ["electropunto"; "iluminar"]
            [Excel.Sheet "electropunto" [Fixture.columns];
             Excel.Sheet "iluminar"
               [["Error fetching data: database is locked"]]]
            true true))
     = length ["electropunto"; "iluminar"].
Proof.
  apply (excel_fetch_error_contained 3 Fixture.database_locked _
           ["electropunto"; "iluminar"] 1 "iluminar").
  - reflexivity.
  - reflexivity.
  - reflexivity.
  - reflexivity.
  - reflexivity.
Defined.

(** A message that openpyxl refuses leaves the sheet of the table empty;
    the run goes on and ends with status 0. *)
Example excel_error_not_written :
  Excel.main 3 Fixture.database_garbled
  = Some (Excel.Outcome 0 ["electropunto"; "iluminar"]
            [Excel.Sheet "electropunto" [Fixture.columns];
             Excel.Sheet "iluminar" []]
            true true).
Proof. reflexivity. Qed.

(** [main] of 6listas_en_excel.py returns for every database: fuel for
    one more test than there are tables is enough for every call of
    [sanitize_sheet_name] it makes. *)
Theorem excel_main_returns e extra :
  exists o,
    Excel.main
      (match Excel.tablas e with Ok ts => length ts | Raise _ => 0 end
       + 1 + extra) e = Some o.
Proof.
  unfold Excel.main.
  destruct (Excel.isfile e); simpl; [|by eauto].
  destruct (Excel.connect e); [by eauto|].
  destruct (Excel.tablas e) as [ts|x]; [|by eauto].
  destruct (for_tablas_returns (length ts + 1 + extra) e ts 0
              (Excel.State ∅ [] [])) as ([st escaped] & ->);
    [apply consistent_empty | simpl; lia |].
  simpl. destruct escaped; by eauto.
Qed.

(** ** Transient failures of a fetch *)




(** ** Where the scroll loop of 2casadelaslamparas.py ends *)

Lemma casa_scroll_runs page : forall d fuel st,
  Casa.last_height st = scroll_height page (Casa.scrolls st) ->
  (forall j, (Casa.scrolls st <= j < Casa.scrolls st + d)%nat ->
             scroll_height page (S j) <> scroll_height page j) ->
  scroll_height page (S (Casa.scrolls st + d))
    = scroll_height page (Casa.scrolls st + d)%nat ->
  (d < fuel)%nat ->
  exists st',
    Loop.while Casa.scroll_cond (Casa.scroll_body page) fuel st = Some st'
    /\ Casa.scrolls st' = S (Casa.scrolls st + d)
    /\ Casa.last_height st' = scroll_height page (Casa.scrolls st + d)%nat.
Proof.
  induction d as [|d IH]; intros fuel st Hlast Hgrow Hstop Hfuel;
    (destruct fuel as [|fuel]; [lia|]);
    cbn [Loop.while Casa.scroll_cond]; unfold Casa.scroll_body.
  - rewrite Nat.add_0_r in *. rewrite Hlast, Hstop, Z.eqb_refl.
    eexists. split; [done|]. by simpl.
  - replace (Casa.scrolls st + S d)%nat with (S (Casa.scrolls st + d)) in *
      by lia.
    destruct (Z.eqb_spec (scroll_height page (S (Casa.scrolls st)))
                (Casa.last_height st)) as [Heq|Hne].
    { exfalso. rewrite Hlast in Heq. by apply (Hgrow (Casa.scrolls st)); [lia|]. }
    match goal with |- context [Loop.while _ _ fuel ?s] =>
      destruct (IH fuel s) as (st' & Hrun & Hscrolls & Hheight) end.
    + done.
    + simpl. intros j Hj. apply Hgrow. lia.
    + done.
    + lia.
    + exists st'. by split.
Qed.

(** [2casadelaslamparas.py], lines 59-78: the scroll loop ends at the
    first scroll command after which the page height is what it was before
    the command, and at no other: when the heights differ up to the [k]-th
    reading and the next one repeats it, the loop returns after [k + 1]
    scroll commands with that height. *)
Theorem casa_scroll_loop_ends page k fuel :
  (forall j, (j < k)%nat ->
             scroll_height page (S j) <> scroll_height page j) ->
  scroll_height page (S k) = scroll_height page k ->
  (k < fuel)%nat ->
  exists st,
    Casa.scroll_loop fuel page = Some st
    /\ Casa.scrolls st = S k
    /\ Casa.last_height st = scroll_height page k.
Proof.
  intros Hgrow Hstop Hfuel. unfold Casa.scroll_loop.
  match goal with |- context [Loop.while _ _ fuel ?s] =>
    destruct (casa_scroll_runs page k fuel s) as (st & ? & ? & ?) end;
    try done.
  - simpl. intros j Hj. apply Hgrow. lia.
  - by exists st.
Qed.

Lemma casa_scroll_loop_ends_witness :
  exists st,
    Casa.scroll_loop 3 Fixture.lazy = Some st
    /\ Casa.scrolls st = 3%nat
    /\ Casa.last_height st = scroll_height Fixture.lazy 2.
Proof.
  apply (casa_scroll_loop_ends Fixture.lazy 2 3).
  - intros j Hj. destruct j as [|[|j]]; simpl; lia.
  - reflexivity.
  - lia.
Defined.

(** ** What main.py logs *)



(** What that run logs. *)
Example orchestrator_mishaps :
  Orchestrator.main Fixture.mishaps Orchestrator.scripts
  = (Some 1,
     {| Orchestrator.overall_success := false;
        Orchestrator.executed := Orchestrator.scripts;
        Orchestrator.log :=
          [(INFO, Orchestrator.Succeeded "1electropunto.py");
           (ERROR, Orchestrator.ErrorUnexpected "2casadelaslamparas.py");
           (INFO, Orchestrator.Succeeded "3iluminar.py");
           (INFO, Orchestrator.Succeeded "4electrolineas.py");
           (INFO, Orchestrator.Succeeded "5electromisiones.py");
           (INFO, Orchestrator.Succeeded "6listas_en_excel.py");
           (ERROR, Orchestrator.ErrorReturn "7envio_email.py" 2);
           (ERROR, Orchestrator.SomeFailed)] |}).
Proof. reflexivity. Qed.

(** A child that never ends: 2casadelaslamparas.py on a page that grows at
    every scroll. The orchestrator is still waiting for it, and the five
    scripts after it have not been run. *)
Example orchestrator_waits :
  Orchestrator.main (Fixture.processes Orchestrator.Hangs) Orchestrator.scripts
  = (None,
     {| Orchestrator.overall_success := true;
        Orchestrator.executed := ["1electropunto.py"; "2casadelaslamparas.py"];
        Orchestrator.log := [(INFO, Orchestrator.Succeeded "1electropunto.py")] |}).
Proof. reflexivity. Qed.

(** ** The rows of 2casadelaslamparas.py *)

(** [2casadelaslamparas.py], lines 86-117: the rows of a page are the
    names and prices of the product nodes whose parsing does not raise, in
    page order; a node whose parsing raises leaves no row, so there are at
    most as many rows as nodes; and every row carries a date the clock gave
    while the page was processed. *)
Theorem casa_rows now t product_divs :
  (fun r => (Sqlite.descripcion r, Sqlite.precio r))
    <$> Casa.for_product_divs now t product_divs
  = omap (fun product_div =>
            match Casa.item_fields product_div with
            | Ok fields => Some fields
            | Raise _ => None
            end) product_divs
  /\ (length (Casa.for_product_divs now t product_divs)
      <= length product_divs)%nat
  /\ Forall (fun r => exists i, (i < length product_divs)%nat
                                /\ Sqlite.fecha r = now (t + i)%nat)
       (Casa.for_product_divs now t product_divs).
Proof.
  revert t. induction product_divs as [|d ds IH]; intros t.
  - simpl. split_and!; [done | lia | apply Forall_nil_2].
  - destruct (IH (S t)) as (Hfields & Hlen & Hdates).
    cbn [Casa.for_product_divs omap list_omap].
    assert (Forall (fun r => exists i, (i < length (d :: ds))%nat
                                       /\ Sqlite.fecha r = now (t + i)%nat)
              (Casa.for_product_divs now (S t) ds)) as Hdates'.
    { eapply Forall_impl; [exact Hdates|]. intros r (i & Hi & Hr).
      exists (S i). split; [simpl; lia|].
      by replace (t + S i)%nat with (S t + i)%nat by lia. }
    destruct (Casa.item_fields d) as [[name price]|x]; cbn [app].
    + split_and!.
      * by rewrite fmap_cons, Hfields.
      * simpl. lia.
      * apply Forall_cons. split; [|done].
        exists 0%nat. split; [simpl; lia|]. by rewrite Nat.add_0_r.
    + split_and!; [done | simpl; lia | done].
Qed.

Lemma casa_persist e url rows c :
  Sqlite.pending c = [] ->
  (Casa.persist e url rows c).2 = Ok tt
  /\ Casa.persist e url rows c
     = (Sqlite.Conn (Sqlite.committed c ++ rows) [], Ok tt)
  \/ (exists x, (Casa.persist e url rows c).2 = Raise x)
     /\ Sqlite.committed (Casa.persist e url rows c).1 = Sqlite.committed c.
Proof.
  destruct c as [stored pending]. simpl. intros ->.
  unfold Casa.persist. destruct rows as [|r rows].
  - left. by rewrite app_nil_r.
  - unfold Sqlite.executemany.
    destruct (Casa.executemany_fault e url) as [[k x]|]; [right; by eauto|].
    unfold Sqlite.commit.
    destruct (Casa.commit_fault e url) as [x|]; [right; by eauto|].
    left. done.
Qed.

Lemma casa_for_url fuel e st url st' r :
  Casa.for_url fuel e st url = Some (st', r) ->
  Sqlite.pending (Casa.conn st) = [] ->
  (r = Ok tt /\ Sqlite.pending (Casa.conn st') = []
   /\ (Sqlite.committed (Casa.conn st') = Sqlite.committed (Casa.conn st)
       \/ exists product_divs,
            find_all (Casa.page_source e url) "div" "item-description py-4 px-1"
              = Ok product_divs
            /\ Sqlite.committed (Casa.conn st')
               = (Sqlite.committed (Casa.conn st)
                  ++ Casa.for_product_divs (Casa.now e) (Casa.tick st)
                       product_divs)%list))
  \/ ((exists x, r = Raise x)
      /\ Sqlite.committed (Casa.conn st') = Sqlite.committed (Casa.conn st)).
Proof.
  unfold Casa.for_url. intros H Hpending.
  destruct (Casa.get_fault e url) as [x|].
  { destruct (exn_cls x); injection H as <- <-;
      (by left; auto) || (right; by eauto). }
  destruct (Casa.scroll_loop fuel _); [|done]. simpl in H.
  destruct (find_all _ _ _) as [product_divs|x].
  2:{ injection H as <- <-. right; by eauto. }
  destruct (casa_persist e url
              (Casa.for_product_divs (Casa.now e) (Casa.tick st) product_divs)
              (Casa.conn st) Hpending) as [[_ Hok]|[[x Hx] Hsame]].
  - rewrite Hok in H. injection H as <- <-. left. simpl.
    split; [done|]. split; [done|]. right. by eauto.
  - destruct (Casa.persist _ _ _ _) as [c r']. simpl in *.
    injection H as <- <-. right. by eauto.
Qed.

Lemma casa_for_urls fuel e urls : forall st st' r,
  Casa.for_urls fuel e st urls = Some (st', r) ->
  Sqlite.pending (Casa.conn st) = [] ->
  exists pages,
    Sqlite.committed (Casa.conn st')
      = (Sqlite.committed (Casa.conn st) ++ concat pages)%list
    /\ Forall (fun rows =>
                 exists url t product_divs,
                   url ∈ urls
                   /\ find_all (Casa.page_source e url) "div"
                        "item-description py-4 px-1" = Ok product_divs
                   /\ rows = Casa.for_product_divs (Casa.now e) t product_divs)
         pages.
Proof.
  induction urls as [|url urls IH]; intros st st' r; simpl.
  - intros [= <- <-] _. exists []. by rewrite app_nil_r.
  - destruct (Casa.for_url fuel e st url) as [[st1 r1]|] eqn:Hurl; [|done].
    simpl. intros H Hpending.
    destruct (casa_for_url _ _ _ _ _ _ Hurl Hpending)
      as [(-> & Hp1 & Hc1)|[[x ->] Hc1]].
    + apply IH in H as (pages & Hpages & Hall); [|done].
      assert (Forall (fun rows =>
                 exists url' t product_divs,
                   url' ∈ url :: urls
                   /\ find_all (Casa.page_source e url') "div"
                        "item-description py-4 px-1" = Ok product_divs
                   /\ rows = Casa.for_product_divs (Casa.now e) t product_divs)
                pages) as Hall'.
      { eapply Forall_impl; [exact Hall|].
        intros rows (u & t & ds & ? & ? & ?). exists u, t, ds.
        split; [by right | done]. }
      destruct Hc1 as [Hsame|(ds & Hds & Hadd)].
      * exists pages. by rewrite Hpages, Hsame.
      * exists (Casa.for_product_divs (Casa.now e) (Casa.tick st) ds :: pages).
        split; [rewrite Hpages, Hadd; simpl; by rewrite <- app_assoc|].
        apply Forall_cons. split; [|done].
        exists url, (Casa.tick st), ds. split; [by left | done].
    + injection H as <- <-. exists []. by rewrite Hc1, app_nil_r.
Qed.

(** [2casadelaslamparas.py], lines 36-138: the table grows by whole
    pages only. When the script returns, the table holds the rows it had,
    followed by the rows of some of the pages, each page with all of its
    rows: a bulk insert or a commit that raises leaves nothing of its page
    behind, and the pages committed before it stay. *)
Theorem casa_whole_pages fuel e urls stored o :
  Casa.run fuel e urls stored = Some o ->
  Sqlite.pending (Casa.database o) = []
  /\ exists pages,
       Sqlite.committed (Casa.database o) = (stored ++ concat pages)%list
       /\ Forall (fun rows =>
                    exists url t product_divs,
                      url ∈ urls
                      /\ find_all (Casa.page_source e url) "div"
                           "item-description py-4 px-1" = Ok product_divs
                      /\ rows = Casa.for_product_divs (Casa.now e) t
                                  product_divs)
            pages.
Proof.
  unfold Casa.run. intros H.
  destruct (Casa.connect_fault e);
    [injection H as <-; split; [done|]; exists []; by rewrite app_nil_r|].
  destruct (Casa.create_table_fault e);
    [injection H as <-; split; [done|]; exists []; by rewrite app_nil_r|].
  destruct (Casa.init_webdriver_fault e);
    [injection H as <-; split; [done|]; exists []; by rewrite app_nil_r|].
  destruct (Casa.for_urls _ _ _ _) as [[st r]|] eqn:Hrun; [|done].
  simpl in H. injection H as <-. simpl. split; [done|].
  by apply casa_for_urls in Hrun.
Qed.

Lemma casa_whole_pages_witness :
  Sqlite.pending
    (Sqlite.Conn [("02/11/2026", "Colgante Oslo", "$44.000");
                  ("03/11/2026", "Colgante Oslo", "$45.000");
                  ("03/11/2026", "No disponible", "No disponible")] []) = []
  /\ exists pages,
       Sqlite.committed
         (Sqlite.Conn [("02/11/2026", "Colgante Oslo", "$44.000");
                       ("03/11/2026", "Colgante Oslo", "$45.000");
                       ("03/11/2026", "No disponible", "No disponible")] [])
       = ([("02/11/2026", "Colgante Oslo", "$44.000")] ++ concat pages)%list
       /\ Forall (fun rows =>
                    exists url t product_divs,
                      url ∈ Casa.urls
                      /\ find_all (Casa.page_source (Fixture.casa_env false) url)
                           "div" "item-description py-4 px-1" = Ok product_divs
                      /\ rows = Casa.for_product_divs
                                  (Casa.now (Fixture.casa_env false)) t
                                  product_divs)
            pages.
Proof.
  apply (casa_whole_pages 3 (Fixture.casa_env false) Casa.urls
           [("02/11/2026", "Colgante Oslo", "$44.000")]
           {| Casa.database :=
                Sqlite.Conn [("02/11/2026", "Colgante Oslo", "$44.000");
                             ("03/11/2026", "Colgante Oslo", "$45.000");
                             ("03/11/2026", "No disponible", "No disponible")]
                            [];
              Casa.logged := None |}).
  reflexivity.
Defined.

(** The same page while the database is locked: the bulk insert raises,
    the handler of line 126 logs it, and the table is as it was. *)
Example casa_main_locked :
  Casa.main 3 (Fixture.casa_env true)
    [("02/11/2026", "Colgante Oslo", "$44.000")]
  = Some {| Casa.database :=
              Sqlite.Conn [("02/11/2026", "Colgante Oslo", "$44.000")] [];
            Casa.logged := Some (Exn SqliteError "database is locked") |}.
Proof. reflexivity. Qed.

(** [2casadelaslamparas.py]: the script fails to return exactly when
    the database and the browser are there, the page has been loaded, and
    its scroll loop does not end. *)
Theorem casa_main_hangs fuel e stored :
  Casa.main fuel e stored = None
  <-> Casa.connect_fault e = None /\ Casa.create_table_fault e = None
      /\ Casa.init_webdriver_fault e = None
      /\ Casa.get_fault e "https://www.lacasadelaslamparas.com.ar/productos"
         = None
      /\ Casa.scroll_loop fuel
           (Casa.dynamics e "https://www.lacasadelaslamparas.com.ar/productos")
         = None.
Proof.
  unfold Casa.main, Casa.run, Casa.urls, Casa.for_urls, Casa.for_url.
  destruct (Casa.connect_fault e); [split; [done | by intros (? & _)]|].
  destruct (Casa.create_table_fault e); [split; [done | by intros (_ & ? & _)]|].
  destruct (Casa.init_webdriver_fault e);
    [split; [done | by intros (_ & _ & ? & _)]|].
  destruct (Casa.get_fault e _) as [x|].
  { split; [|by intros (_ & _ & _ & ? & _)].
    by destruct (exn_cls x). }
  destruct (Casa.scroll_loop fuel _) as [st|]; simpl.
  - split; [|by intros (_ & _ & _ & _ & ?)].
    destruct (find_all _ _ _); simpl; [|done].
    destruct (Casa.persist _ _ _ _) as [c [|x]]; done.
  - done.
Qed.

(** ** What the static scrapers leave in the table *)

Lemma electropunto_for_item_committed e st d :
  Sqlite.committed (Electropunto.conn (Electropunto.for_item e st d))
  = Sqlite.committed (Electropunto.conn st).
Proof.
  unfold Electropunto.for_item.
  destruct (Electropunto.item_fields d) as [[[name price]|]|x]; simpl; try done.
  unfold Sqlite.execute_insert.
  by destruct (Electropunto.execute_fault e (Electropunto.inserts st)).
Qed.

Lemma electropunto_for_items_committed e divs : forall st,
  Sqlite.committed (Electropunto.conn (foldl (Electropunto.for_item e) st divs))
  = Sqlite.committed (Electropunto.conn st).
Proof.
  induction divs as [|d ds IH]; intros st; simpl; [done|].
  by rewrite IH, electropunto_for_item_committed.
Qed.

Lemma electropunto_for_url_committed e st url :
  Sqlite.committed (Electropunto.conn (Electropunto.for_url e st url).1)
  = Sqlite.committed (Electropunto.conn st).
Proof.
  unfold Electropunto.for_url.
  destruct (Requests.fetch _ _ _ _) as [[response|x] n]; simpl; [|done].
  destruct (find_all _ _ _) as [divs|x]; simpl; [|done].
  by rewrite electropunto_for_items_committed.
Qed.

Lemma electropunto_for_urls_committed e urls : forall st,
  Sqlite.committed (Electropunto.conn (Electropunto.for_urls e st urls).1)
  = Sqlite.committed (Electropunto.conn st).
Proof.
  induction urls as [|url urls IH]; intros st; simpl; [done|].
  pose proof (electropunto_for_url_committed e st url) as Hurl.
  destruct (Electropunto.for_url e st url) as [st1 [[]|x]]; simpl in *.
  - by rewrite IH.
  - done.
Qed.

(** [1electropunto.py], lines 20-109: the rows of a run are committed
    together, by the one commit after the loop over the URLs. When nothing
    reaches the outer handlers the table holds what it held, followed by
    the rows inserted during the run; when something does (a page whose
    [find_all] raises, a commit that fails) the table is as it was, the
    rows of the URLs already processed included. *)
Theorem electropunto_commits_at_the_end e f urls stored :
  Sqlite.pending (Electropunto.database (Electropunto.run e f urls stored)) = []
  /\ (Electropunto.logged (Electropunto.run e f urls stored) = None ->
      Sqlite.committed (Electropunto.database (Electropunto.run e f urls stored))
      = (stored
         ++ Sqlite.pending
              (Electropunto.conn
                 (Electropunto.for_urls e
                    {| Electropunto.conn := Sqlite.Conn stored [];
                       Electropunto.tick := 0; Electropunto.sent := 0;
                       Electropunto.inserts := 0 |} urls).1))%list)
  /\ (Electropunto.logged (Electropunto.run e f urls stored) <> None ->
      Sqlite.committed (Electropunto.database (Electropunto.run e f urls stored))
      = stored).
Proof.
  unfold Electropunto.run.
  destruct (Electropunto.connect_fault f); [done|].
  destruct (Electropunto.create_table_fault f); [done|].
  pose proof (electropunto_for_urls_committed e urls
    {| Electropunto.conn := Sqlite.Conn stored [];
       Electropunto.tick := 0; Electropunto.sent := 0;
       Electropunto.inserts := 0 |}) as Hkept.
  destruct (Electropunto.for_urls _ _ _) as [st [[]|x]]; simpl in *.
  - unfold Sqlite.commit.
    destruct (Electropunto.commit_fault f); simpl; [done|].
    by rewrite Hkept.
  - done.
Qed.

Lemma electrolineas_persist f rows stored :
  Sqlite.pending (Sqlite.close
    (match Electrolineas.persist f rows (Sqlite.Conn stored []) with
     | (c, Ok _) => c
     | (c, Raise x) => Electrolineas.handle x c
     end)) = []
  /\ Sqlite.committed (Sqlite.close
       (match Electrolineas.persist f rows (Sqlite.Conn stored []) with
        | (c, Ok _) => c
        | (c, Raise x) => Electrolineas.handle x c
        end))
     = if bool_decide (Electrolineas.executemany_fault f = None
                       /\ Electrolineas.commit_fault f = None)
       then (stored ++ rows)%list else stored.
Proof.
  split; [done|].
  unfold Electrolineas.persist, Sqlite.executemany, Sqlite.commit,
    Electrolineas.handle.
  destruct rows as [|r rows].
  - destruct (Electrolineas.commit_fault f) as [x|].
    + rewrite bool_decide_eq_false_2 by (by intros [_ ?]).
      simpl. by destruct (exn_cls x).
    + simpl. rewrite app_nil_r. by case_bool_decide.
  - destruct (Electrolineas.executemany_fault f) as [[k x]|].
    + rewrite bool_decide_eq_false_2 by (by intros [? _]).
      destruct (exn_cls x) eqn:Hcls; simpl; rewrite ?Hcls; try done.
      destruct (Electrolineas.commit_fault f) as [y|]; simpl;
        [by destruct (exn_cls y) | by rewrite app_nil_r].
    + destruct (Electrolineas.commit_fault f) as [x|].
      * rewrite bool_decide_eq_false_2 by (by intros [_ ?]).
        simpl. by destruct (exn_cls x).
      * by rewrite bool_decide_eq_true_2.
Qed.

(** [4electrolineas.py], lines 39-213: the rows collected in a run are
    stored all together or not at all. With the connection and the table
    there, the table ends as what it held followed by every collected row
    when neither the bulk insert nor the commit raises, and as it was
    otherwise: the rollback of line 177 empties the transaction before the
    commit of line 187, so no part of a failed bulk insert is committed. *)
Theorem electrolineas_all_or_nothing now net f base_urls stored :
  Sqlite.pending
    (Electrolineas.database (Electrolineas.run now net f base_urls stored)) = []
  /\ (Electrolineas.connect_fault f = None ->
      Electrolineas.create_table_fault f = None ->
      Sqlite.committed
        (Electrolineas.database (Electrolineas.run now net f base_urls stored))
      = if bool_decide (Electrolineas.executemany_fault f = None
                        /\ Electrolineas.commit_fault f = None)
        then (stored
              ++ Electrolineas.collected
                   (Electrolineas.run now net f base_urls stored))%list
        else stored)
  /\ (Electrolineas.connect_fault f <> None
      \/ Electrolineas.create_table_fault f <> None ->
      Electrolineas.run now net f base_urls stored
      = {| Electrolineas.database := Sqlite.Conn stored [];
           Electrolineas.collected := [];
           Electrolineas.logged :=
             match Electrolineas.connect_fault f with
             | Some x => Some x
             | None => Electrolineas.create_table_fault f
             end |}).
Proof.
  unfold Electrolineas.run.
  destruct (Electrolineas.connect_fault f) as [x|]; [by split_and!|].
  destruct (Electrolineas.create_table_fault f) as [x|].
  { split_and!; [done | done |]. intros _. simpl.
    unfold Electrolineas.handle. by destruct (exn_cls x). }
  set (st := foldl _ _ base_urls).
  pose proof (electrolineas_persist f
                (Electrolineas.all_products_to_insert st) stored) as [Hp Hc].
  destruct (Electrolineas.persist _ _ _) as [c [[]|x]]; simpl.
  - split_and!; [done | by intros _ _ | by intros [?|?]].
  - split_and!; [done | by intros _ _ | by intros [?|?]].
Qed.

Lemma electromisiones_persist f rows stored :
  Sqlite.pending (Sqlite.close
    (match Electromisiones.persist f rows (Sqlite.Conn stored []) with
     | (c, Ok _) => c
     | (c, Raise x) => Sqlite.rollback c
     end)) = []
  /\ Sqlite.committed (Sqlite.close
       (match Electromisiones.persist f rows (Sqlite.Conn stored []) with
        | (c, Ok _) => c
        | (c, Raise x) => Sqlite.rollback c
        end))
     = if bool_decide (rows = []
                       \/ Electromisiones.executemany_fault f = None
                          /\ Electromisiones.commit_fault f = None)
       then (stored ++ rows)%list else stored.
Proof.
  split; [by destruct (Electromisiones.persist _ _ _) as [c [[]|x]]|].
  unfold Electromisiones.persist, Sqlite.executemany, Sqlite.commit.
  destruct rows as [|r rows].
  - rewrite bool_decide_eq_true_2 by (by left). simpl. by rewrite app_nil_r.
  - destruct (Electromisiones.executemany_fault f) as [[k x]|].
    + rewrite bool_decide_eq_false_2 by (by intros [?|[? _]]).
      by destruct (exn_cls x).
    + destruct (Electromisiones.commit_fault f) as [x|].
      * rewrite bool_decide_eq_false_2 by (by intros [?|[_ ?]]).
        simpl. by destruct (exn_cls x).
      * by rewrite bool_decide_eq_true_2 by (by right).
Qed.

Lemma electromisiones_for_base_url now net per st base_url :
  (forall url n,
     (n < (Requests.fetch Electromisiones.retry_strategy net url n).2
      <= n + per)%nat) ->
  Electromisiones.all_products_to_insert st
    `prefix_of` Electromisiones.all_products_to_insert
                  (Electromisiones.for_base_url now net st base_url)
  /\ (Electromisiones.sent st
      < Electromisiones.sent (Electromisiones.for_base_url now net st base_url)
      <= Electromisiones.sent st + per)%nat.
Proof.
  intros Hper. unfold Electromisiones.for_base_url.
  pose proof (Hper base_url (Electromisiones.sent st)) as Hsent.
  destruct (Requests.fetch _ _ _ _) as [[response|x] n]; simpl in *;
    [|split; [done | lia]].
  destruct (select _ _) as [divs|x]; simpl; (split; [|lia]); [|done].
  by apply prefix_app_r.
Qed.

Lemma electromisiones_for_base_urls_within now net per base_urls :
  (forall url n,
     (n < (Requests.fetch Electromisiones.retry_strategy net url n).2
      <= n + per)%nat) ->
  forall st,
  Electromisiones.all_products_to_insert st
    `prefix_of` Electromisiones.all_products_to_insert
                  (foldl (Electromisiones.for_base_url now net) st base_urls)
  /\ (Electromisiones.sent st + length base_urls
      <= Electromisiones.sent
           (foldl (Electromisiones.for_base_url now net) st base_urls)
      <= Electromisiones.sent st + per * length base_urls)%nat.
Proof.
  intros Hper. induction base_urls as [|u us IH]; intros st; simpl.
  - split; [done | lia].
  - destruct (IH (Electromisiones.for_base_url now net st u)) as [Hpre Hsent].
    destruct (electromisiones_for_base_url now net per st u Hper)
      as [Hpre1 Hsent1].
    split; [by etrans | nia].
Qed.

Lemma electromisiones_for_base_urls now net base_urls : forall st,
  Electromisiones.all_products_to_insert st
    `prefix_of` Electromisiones.all_products_to_insert
                  (foldl (Electromisiones.for_base_url now net) st base_urls)
  /\ (Electromisiones.sent st + length base_urls
      <= Electromisiones.sent
           (foldl (Electromisiones.for_base_url now net) st base_urls)
      <= Electromisiones.sent st + 186 * length base_urls)%nat.
Proof.
  apply electromisiones_for_base_urls_within.
  intros url n. apply (fetch_sent Electromisiones.retry_strategy).
Qed.

(** An answer that comes back from the adapter is one the network gave. *)
Lemma urlopen_answer policy net url r : forall remaining n n',
  Requests.urlopen policy remaining net url n = (Ok r, n') ->
  exists k, net k url = Requests.Responds r.
Proof.
  induction remaining as [|remaining IH]; intros n n'; simpl;
    destruct (net n url) as [r0|msg] eqn:Hnet; try done;
    try (destruct (Requests.is_retry _ _ _); try done);
    try (intros [= <- <-]; by eauto); try apply IH.
Qed.

Lemma fetch_sent_direct policy net url n :
  (forall k u r, net k u = Requests.Responds r ->
                 Requests.redirect_target r = None) ->
  (n < (Requests.fetch policy net url n).2
   <= n + Requests.total policy + 1)%nat.
Proof.
  intros Hdirect. unfold Requests.fetch, Requests.get.
  pose proof (urlopen_sent policy net url (Requests.total policy) n) as H.
  destruct (Requests.urlopen policy (Requests.total policy) net url n)
    as [[r|x] n'] eqn:Hopen; simpl in H.
  - destruct (urlopen_answer _ _ _ _ _ _ _ Hopen) as [k Hk].
    rewrite (resolve_redirects_final _ _ _ _ _ _ _ Hopen (Hdirect _ _ _ Hk)).
    by destruct (Requests.raise_for_status r).
  - by rewrite (resolve_redirects_raise _ _ _ _ _ _ _ Hopen).
Qed.

(** [5electromisiones.py], lines 39-153: the rows collected in a run
    are stored all together or not at all: with the connection and the
    table there, the table ends as what it held followed by every collected
    row when the bulk insert and the commit succeed (or nothing was
    collected), and as it was otherwise. *)
Theorem electromisiones_all_or_nothing now net f base_urls stored :
  Sqlite.pending
    (Electromisiones.database
       (Electromisiones.run now net f base_urls stored)) = []
  /\ (Electromisiones.connect_fault f = None ->
      Electromisiones.create_table_fault f = None ->
      Sqlite.committed
        (Electromisiones.database
           (Electromisiones.run now net f base_urls stored))
      = if bool_decide
             (Electromisiones.collected
                (Electromisiones.run now net f base_urls stored) = []
              \/ Electromisiones.executemany_fault f = None
                 /\ Electromisiones.commit_fault f = None)
        then (stored
              ++ Electromisiones.collected
                   (Electromisiones.run now net f base_urls stored))%list
        else stored)
  /\ (Electromisiones.connect_fault f <> None
      \/ Electromisiones.create_table_fault f <> None ->
      Sqlite.committed
        (Electromisiones.database
           (Electromisiones.run now net f base_urls stored)) = stored
      /\ Electromisiones.requests_sent
           (Electromisiones.run now net f base_urls stored) = 0%nat).
Proof.
  unfold Electromisiones.run.
  destruct (Electromisiones.connect_fault f) as [x|]; [by split_and!|].
  destruct (Electromisiones.create_table_fault f) as [x|]; [by split_and!|].
  set (st := foldl _ _ base_urls).
  pose proof (electromisiones_persist f
                (Electromisiones.all_products_to_insert st) stored) as [Hp Hc].
  destruct (Electromisiones.persist _ _ _) as [c [[]|x]]; simpl.
  - split_and!; [done | by intros _ _ | by intros [?|?]].
  - split_and!; [done | by intros _ _ | by intros [?|?]].
Qed.

(** [5electromisiones.py], lines 67-116, with
    [create_session_with_retries]: a run sends at least one request per
    base URL. Every redirect the session follows, up to 30 per base URL, is
    a new request with its own five retries, so the five base URLs of the
    script get at most 5 * 31 * 6 = 930 requests, whatever the site
    answers; when no answer is a redirect they get at most six each, the
    first attempt and the five retries: between 5 and 30 requests. *)
Theorem electromisiones_requests now net f stored :
  Electromisiones.connect_fault f = None ->
  Electromisiones.create_table_fault f = None ->
  (5 <= Electromisiones.requests_sent (Electromisiones.main now net f stored)
   <= 930)%nat
  /\ ((forall k u r, net k u = Requests.Responds r ->
                     Requests.redirect_target r = None) ->
      (Electromisiones.requests_sent (Electromisiones.main now net f stored)
       <= 30)%nat).
Proof.
  unfold Electromisiones.main, Electromisiones.run. intros -> ->.
  destruct (electromisiones_for_base_urls now net Electromisiones.base_urls
              {| Electromisiones.all_products_to_insert := [];
                 Electromisiones.tick := 0; Electromisiones.sent := 0 |})
    as [_ Hsent].
  assert ((forall k u r, net k u = Requests.Responds r ->
                         Requests.redirect_target r = None) ->
          (Electromisiones.sent
             (foldl (Electromisiones.for_base_url now net)
                {| Electromisiones.all_products_to_insert := [];
                   Electromisiones.tick := 0; Electromisiones.sent := 0 |}
                Electromisiones.base_urls)
           <= 0 + 6 * length Electromisiones.base_urls)%nat) as Hdirect.
  { intros H.
    apply (electromisiones_for_base_urls_within now net 6
             Electromisiones.base_urls).
    intros url n.
    pose proof (fetch_sent_direct Electromisiones.retry_strategy net url n H)
      as Hn.
    simpl in Hn. lia. }
  change (length Electromisiones.base_urls) with 5%nat in Hsent, Hdirect.
  generalize dependent Electromisiones.base_urls. intros base_urls Hsent Hdirect.
  simpl in Hsent, Hdirect.
  destruct (Electromisiones.persist _ _ _) as [c [[]|x]]; simpl;
    (split; [lia|]); intros H; specialize (Hdirect H); lia.
Qed.

Lemma electromisiones_requests_witness :
  (5 <= Electromisiones.requests_sent
          (Electromisiones.main Fixture.today (Fixture.always 503 false)
             Fixture.electromisiones_ok [])
   <= 930)%nat
  /\ ((forall k u r, Fixture.always 503 false k u = Requests.Responds r ->
                     Requests.redirect_target r = None) ->
      (Electromisiones.requests_sent
         (Electromisiones.main Fixture.today (Fixture.always 503 false)
            Fixture.electromisiones_ok [])
       <= 30)%nat).
Proof.
  apply (electromisiones_requests Fixture.today (Fixture.always 503 false)
           Fixture.electromisiones_ok []).
  - reflexivity.
  - reflexivity.
Defined.

(** A site that redirects every request to the address asked for: a fetch
    gives up after 31 requests, and the five base URLs of
    5electromisiones.py cost 155. *)
Example electromisiones_redirect_loop :
  Requests.fetch Electromisiones.retry_strategy Fixture.moved Fixture.cables 0
  = (Raise (Exn RequestException "Exceeded 30 redirects."), 31%nat)
  /\ Electromisiones.requests_sent
       (Electromisiones.main Fixture.today Fixture.moved
          Fixture.electromisiones_ok [])
     = 155%nat.
Proof. split; by vm_compute. Qed.

(** ** Rows once collected stay collected *)

Lemma probe_products e base_url pages : forall st,
  Iluminar.current_url_products st
    `prefix_of` Iluminar.current_url_products
                  (Iluminar.probe e base_url pages st).
Proof.
  induction pages as [|n pages IH]; intros st; cbn [Iluminar.probe]; [done|].
  destruct (Iluminar.visit e base_url n (Iluminar.tick st)) as [[products|]|x];
    [|done..].
  etrans; [|apply IH]. cbn [Iluminar.current_url_products].
  by apply prefix_app_r.
Qed.

Lemma crawl_products e urls : forall st,
  Iluminar.all_products_globally st
    `prefix_of` Iluminar.all_products_globally (Iluminar.crawl e urls st).
Proof.
  induction urls as [|u urls IH]; intros st; cbn [Iluminar.crawl]; [done|].
  destruct (Iluminar.first_page e u (Iluminar.clock st)) as [products|];
    [|apply IH].
  etrans; [|apply IH]. cbn [Iluminar.all_products_globally].
  by apply prefix_app_r.
Qed.

Lemma electrolineas_for_page_products now net st page_url :
  Electrolineas.all_products_to_insert st
    `prefix_of` Electrolineas.all_products_to_insert
                  (Electrolineas.for_page now net st page_url).
Proof.
  unfold Electrolineas.for_page.
  destruct (Requests.fetch _ _ _ _) as [[response|x] n]; [|done].
  destruct (Electrolineas.product_nodes _) as [divs|x]; [|done].
  by apply prefix_app_r.
Qed.

Lemma electrolineas_for_pages_products now net pages : forall st,
  Electrolineas.all_products_to_insert st
    `prefix_of` Electrolineas.all_products_to_insert
                  (foldl (Electrolineas.for_page now net) st pages).
Proof.
  induction pages as [|p pages IH]; intros st; simpl; [done|].
  etrans; [apply electrolineas_for_page_products | apply IH].
Qed.

Lemma electrolineas_for_base_url_products now net st base_url :
  Electrolineas.all_products_to_insert st
    `prefix_of` Electrolineas.all_products_to_insert
                  (Electrolineas.for_base_url now net st base_url).
Proof.
  unfold Electrolineas.for_base_url.
  destruct (Electrolineas.discover net base_url _) as [[pages|] n]; [|done].
  etrans; [|apply electrolineas_for_pages_products]. done.
Qed.

(** [3iluminar.py] lines 155-236, [4electrolineas.py] lines 66-164,
    [5electromisiones.py] lines 67-116: a row, once collected, stays
    collected and keeps its place: nothing that happens later in the run,
    be it a page that cannot be loaded, a failed request or a parse error,
    removes or reorders the rows collected so far. *)
Theorem collected_rows_only_grow :
  (forall e base_url pages st,
     Iluminar.current_url_products st
       `prefix_of` Iluminar.current_url_products
                     (Iluminar.probe e base_url pages st))
  /\ (forall e urls st,
        Iluminar.all_products_globally st
          `prefix_of` Iluminar.all_products_globally (Iluminar.crawl e urls st))
  /\ (forall now net base_urls st,
        Electrolineas.all_products_to_insert st
          `prefix_of` Electrolineas.all_products_to_insert
                        (foldl (Electrolineas.for_base_url now net) st base_urls))
  /\ (forall now net base_urls st,
        Electromisiones.all_products_to_insert st
          `prefix_of` Electromisiones.all_products_to_insert
                        (foldl (Electromisiones.for_base_url now net) st
                           base_urls)).
Proof.
  split_and!.
  - intros. apply probe_products.
  - intros. apply crawl_products.
  - intros now net base_urls. induction base_urls as [|u us IH]; intros st;
      simpl; [done|].
    etrans; [apply electrolineas_for_base_url_products | apply IH].
  - intros. apply electromisiones_for_base_urls.
Qed.

(** ** The price 5electromisiones.py stores *)

Lemma price_text_parts_not_empty fragments :
  Forall (fun p => p <> "") (Electromisiones.price_text_parts fragments).
Proof.
  unfold Electromisiones.price_text_parts.
  apply Forall_fmap, Forall_forall. intros s Hs.
  apply list_elem_of_filter in Hs as [Hs _]. simpl.
  by destruct (strip s).
Qed.

Lemma join_not_empty sep p parts : p <> "" -> join sep (p :: parts) <> "".
Proof.
  unfold join. simpl. destruct parts; [done|].
  destruct p; [done | discriminate].
Qed.

(** [5electromisiones.py], lines 97-106: the price of a record that
    is not error-tagged is never the empty string: it is the placeholder,
    or the non-blank text fragments of the price element joined by single
    spaces, of which there is at least one. A price element that holds
    only blanks gives the placeholder. *)
Theorem electromisiones_price_not_empty fecha product_div :
  (Electromisiones.try_body product_div Item.init).2 = Ok tt ->
  Sqlite.precio (Item.guarded fecha (Electromisiones.try_body product_div))
    <> "".
Proof.
  intros Hok. rewrite (electromisiones_clean_record fecha product_div Hok).
  unfold Sqlite.precio. simpl. unfold Electromisiones.price_read.
  destruct (select_one product_div Electromisiones.price_selector)
    as [[el|]|x]; try done.
  destruct (strings el) as [fragments|x]; [|done]. simpl.
  pose proof (price_text_parts_not_empty fragments) as Hparts.
  destruct (Electromisiones.price_text_parts fragments) as [|p parts]; [done|].
  apply Forall_cons in Hparts as [Hp _]. by apply join_not_empty.
Qed.

Lemma electromisiones_price_not_empty_witness :
  Sqlite.precio
    (Item.guarded "03/11/2026" (Electromisiones.try_body Fixture.breaker))
  <> "".
Proof.
  apply (electromisiones_price_not_empty "03/11/2026" Fixture.breaker).
  reflexivity.
Defined.

(** ** The URLs 3iluminar.py probes *)

Lemma append_inv_suffix (a b c : string) : a ++ c = b ++ c -> a = b.
Proof.
  intros H.
  rewrite <- (string_of_list_ascii_of_string a),
          <- (string_of_list_ascii_of_string b).
  f_equal. apply (f_equal list_ascii_of_string) in H.
  rewrite !chars_append in H. by apply app_inv_tail in H.
Qed.

Lemma page_url_inj base_url n m :
  Iluminar.page_url base_url n = Iluminar.page_url base_url m -> n = m.
Proof.
  unfold Iluminar.page_url.
  intros H%append_inv_prefix%append_inv_prefix%append_inv_suffix.
  by apply str_of_nat_inj.
Qed.

(** [3iluminar.py], lines 186-196: the URLs of two different page
    numbers differ, and the probe of a base URL never asks the browser for
    the same URL twice. *)
Theorem iluminar_no_page_twice e base_url products t :
  NoDup (Iluminar.page_url base_url
           <$> Iluminar.requested
                 (Iluminar.probe e base_url Iluminar.additional_pages
                    {| Iluminar.current_url_products := products;
                       Iluminar.requested := [];
                       Iluminar.tick := t |})).
Proof.
  apply NoDup_fmap_2; [intros n m; apply page_url_inj|].
  destruct (probe_from_scratch e base_url products t) as [_ [rest Hpre]].
  assert (NoDup Iluminar.additional_pages) as Hnd by apply NoDup_seq.
  rewrite Hpre in Hnd. by apply NoDup_app in Hnd as [? _].
Qed.


(** ** Sheets named after their tables *)

Lemma taken_spec sheetnames value :
  Openpyxl.taken sheetnames value = false
  <-> lower value ∉ lower <$> sheetnames.
Proof.
  unfold Openpyxl.taken. induction sheetnames as [|n names IH]; simpl.
  - split; [intros _; apply not_elem_of_nil | done].
  - rewrite orb_false_iff, IH, not_elem_of_cons, String.eqb_neq.
    split; intros [H1 H2]; (split; [intros E; by apply H1 | done]).
Qed.

Lemma for_tablas_named fuel e ts : forall i st st',
  Excel.for_tablas fuel e i ts st = Some (st', None) ->
  Excel.consistent st ->
  NoDup (lower <$> ((Excel.title <$> Excel.sheets st) ++ ts)%list) ->
  Forall (fun t => Excel.valid_chars t /\ t <> ""
                   /\ (String.length t <= 30)%nat
                   /\ t ∉ Excel.processed_sheet_names st) ts ->
  Excel.created st' = (Excel.created st ++ ts)%list
  /\ Excel.title <$> Excel.sheets st'
     = ((Excel.title <$> Excel.sheets st) ++ ts)%list.
Proof.
  induction ts as [|t ts IH]; intros i st st'; simpl.
  - intros [= <-] _ _ _. by rewrite !app_nil_r.
  - destruct (Excel.sanitize_sheet_name _ _ _ _) as [safe|] eqn:Hsafe; [|done].
    simpl. intros H Hst Hnd Hnice.
    apply Forall_cons in Hnice as [(Hv & Hne & Hlen & Hfresh) Hnice].
    assert (safe = t) as ->.
    { destruct fuel as [|fuel]; [done|].
      rewrite sanitize_sheet_name_valid_name in Hsafe by done.
      by injection Hsafe. }
    rewrite (create_sheet_valid _ _ _ Hv) in H.
    rewrite fmap_app, fmap_cons in Hnd.
    assert (Openpyxl.taken (Excel.title <$> Excel.sheets st) t = false)
      as Hfree.
    { apply taken_spec. apply NoDup_app in Hnd as (_ & Hnot & _).
      intros Hin. apply (Hnot _ Hin). by left. }
    rewrite Hfree in H.
    destruct (Excel.try_table e t) as [cells [[]|x]]; [|done].
    apply IH in H as [Hcreated Htitles]; [|by apply consistent_add|..].
    + simpl in Hcreated, Htitles. rewrite Hcreated, Htitles.
      rewrite fmap_app. simpl. by rewrite <- !app_assoc.
    + simpl. rewrite !fmap_app, <- app_assoc. exact Hnd.
    + simpl. apply Forall_forall. intros t' Hin.
      rewrite Forall_forall in Hnice.
      destruct (Hnice t' Hin) as (? & ? & ? & ?). split_and!; try done.
      rewrite not_elem_of_union, not_elem_of_singleton.
      split; [|done]. intros ->.
      apply NoDup_app in Hnd as (_ & _ & [Hnew _]%NoDup_cons).
      apply Hnew. by apply list_elem_of_fmap_2.
Qed.

(** [main] of 6listas_en_excel.py with [sanitize_sheet_name]: when the
    table names are different from one another even with the case of
    their letters set aside, not empty, at most 30 characters long and
    free of the invalid characters, as the tables of the scrapers are,
    the script asks for one sheet per table under the name of the table,
    and the sheets of a run that ends with status 0 carry the names of
    the tables, in the order of the tables. *)
Theorem excel_sheets_named_after_tables fuel e o t ts :
  Excel.main fuel e = Some o -> Excel.exit_status o = 0%nat ->
  Excel.tablas e = Ok (t :: ts) -> NoDup (lower <$> t :: ts) ->
  Forall (fun t => Excel.valid_chars t /\ t <> ""
                   /\ (String.length t <= 30)%nat) (t :: ts) ->
  Excel.asked o = t :: ts
  /\ Excel.title <$> Excel.workbook o = t :: ts.
Proof.
  intros H Hexit Hts Hnd Hnice.
  destruct (Excel.isfile e) eqn:Hfile;
    [|apply excel_main_stopped in H as ->; [done | by left]].
  destruct (Excel.connect e) as [x|] eqn:Hconn;
    [apply excel_main_stopped in H as ->;
       [done | right; left; by rewrite Hconn]|].
  destruct (excel_main_run _ _ _ _ H Hfile Hconn Hts)
    as (st & escaped & Hrun & ->).
  destruct escaped as [x|]; [done|].
  apply for_tablas_named in Hrun as [Hcreated Htitles];
    [|apply consistent_empty|done|].
  - simpl in *. split; [done|].
    destruct (Excel.sheets st); [done|]. done.
  - eapply Forall_impl; [exact Hnice|]. simpl.
    intros t' (? & ? & ?). split_and!; try done; apply not_elem_of_empty.
Qed.

Lemma excel_sheets_named_after_tables_witness :
  Excel.asked Fixture.exported = ["electropunto"; "iluminar"]
  /\ Excel.title <$> Excel.workbook Fixture.exported
     = ["electropunto"; "iluminar"].
Proof.
  apply (excel_sheets_named_after_tables 3 Fixture.database Fixture.exported
           "electropunto" ["iluminar"]).
  - reflexivity.
  - reflexivity.
  - reflexivity.
  - apply NoDup_cons. split; [|apply NoDup_singleton].
    intros ?%list_elem_of_singleton. discriminate.
  - assert (forall t, t = "electropunto" \/ t = "iluminar" ->
              Excel.valid_chars t /\ t <> "" /\ (String.length t <= 30)%nat)
      as Hnice.
    { intros t [-> | ->]; (split_and!; [|discriminate|simpl; lia]);
        intros c Hc; unfold Excel.invalid_chars in Hc; simpl;
        rewrite !elem_of_cons, elem_of_nil in *;
        intuition (subst; discriminate). }
    apply Forall_cons. split; [apply Hnice; by left|].
    apply Forall_singleton. apply Hnice. by right.
Defined.
